(** * musiGAIT: the TCP-to-OSC bridge ([src/python_osc/tcp_to_osc.py])

    A shallow embedding of the bridge between the acquisition server's
    binary protocol and OSC, and the properties of its codec, command
    channel, connection set-up, stream decoders and configuration handlers.

    Conventions of the embedding.
    - [bytes] is a list of [byte]; [struct.pack]/[struct.unpack] with the
      ["<"] prefix are little-endian byte lists without padding.
    - A Python [int] is a [Z]; a Python [float] is a binary64 [float] of the
      kernel, with the kernel's IEEE operations.
    - A Python [str] is a [string]: one character per code point.
    - Values decoded from JSON, and the dicts and lists the program builds
      itself, are values of [json]; a [dict] is an association list in
      insertion order.
    - Code that talks to sockets, logs, or writes the module's globals runs in
      the monad [M]: a state monad over [world] with Python exceptions.  What
      the peer does is read from oracles held in the world ([peer]), indexed
      by the number of calls made so far, so every behaviour of the
      environment is covered.
    - [log_message] records the level and the message; the wall-clock prefix
      and the text of an interpolated exception or float are left out.
    - The locks are not modelled: every function is followed on its own. *)

From Stdlib Require Import ZArith List String Ascii Bool Lia DecimalString.
From Stdlib Require Import Strings.Byte.
From Stdlib Require Import Floats.PrimFloat Floats.FloatOps Floats.SpecFloat.
Import ListNotations.
Open Scope string_scope.
Open Scope list_scope.
Open Scope Z_scope.

(* ================================================================= *)
(** ** Bytes and [struct] *)

Definition bytes := list byte.

Definition byte_val (b : byte) : Z := Z.of_N (Byte.to_N b).

Definition byte_of_Z (z : Z) : byte :=
  match Byte.of_N (Z.to_N (z mod 256)) with
  | Some b => b
  | None => x00
  end.

(** Little-endian value of a byte string (any length). *)
Fixpoint le_decode (bs : bytes) : Z :=
  match bs with
  | [] => 0
  | b :: rest => byte_val b + 256 * le_decode rest
  end.

(** The [n] low-order bytes of [z], least significant first. *)
Fixpoint le_encode (n : nat) (z : Z) : bytes :=
  match n with
  | O => []
  | S k => byte_of_Z z :: le_encode k (z / 256)
  end.

(** [len(b)] as a Python int. *)
Definition blen (b : bytes) : Z := Z.of_nat (List.length b).

(** Python slices [b[:n]] and [b[n:]] for [0 <= n]. *)
Definition take (n : Z) (b : bytes) : bytes := firstn (Z.to_nat n) b.
Definition drop (n : Z) (b : bytes) : bytes := skipn (Z.to_nat n) b.

Definition uint32_ok (z : Z) : bool := (0 <=? z) && (z <? 2 ^ 32).

(** [struct.pack("<II", a, b)]: [None] stands for [struct.error], raised when
    an argument does not fit an unsigned 32-bit field. *)
Definition struct_pack_II (a b : Z) : option bytes :=
  if uint32_ok a && uint32_ok b
  then Some (le_encode 4 a ++ le_encode 4 b)
  else None.

(** [struct.unpack('<I Q I', response)] on a 16-byte buffer. *)
Definition struct_unpack_IQI (response : bytes) : Z * Z * Z :=
  (le_decode (take 4 response),
   le_decode (take 8 (drop 4 response)),
   le_decode (take 4 (drop 12 response))).

(** [struct.unpack('<I', data)[0]] on a 4-byte buffer. *)
Definition struct_unpack_I (data : bytes) : Z := le_decode data.

Definition hex_digit (n : Z) : ascii :=
  nth (Z.to_nat n) (list_ascii_of_string "0123456789abcdef") "0"%char.

(** [bytes.hex()]. *)
Fixpoint hex (b : bytes) : string :=
  match b with
  | [] => EmptyString
  | x :: rest =>
      String (hex_digit (byte_val x / 16))
        (String (hex_digit (byte_val x mod 16)) (hex rest))
  end.

(** [str(z)] for a Python int. *)
Definition str_of_int (z : Z) : string := NilZero.string_of_int (Z.to_int z).

(* ================================================================= *)
(** ** Constants of the module *)

Definition VERSION : Z := 1.
Definition OSC_IP : string := "127.0.0.1".
Definition OSC_PORT : Z := 8000.
Definition EMG_HOST : string := "127.0.0.1".
Definition EMG_PORTS : list Z := [5123; 5124; 5125; 5126].
Definition ANALYZER_IP : string := "127.0.0.1".
Definition ANALYZER_PORT : Z := 8001.
Definition DATA_MULTIPLIER : Z := 10000.
Definition ANALYZER_DEVICE : string := "DelsysEmgDataCollector".
Definition ANALYZER_REFERENCE : string := "DelsysEmgDataCollector".

(** [class Command(Enum)]. *)
Inductive Command : Type :=
| HANDSHAKE
| CONNECT_DELSYS_ANALOG
| CONNECT_DELSYS_EMG
| CONNECT_MAGSTIM
| ZERO_DELSYS_ANALOG
| ZERO_DELSYS_EMG
| DISCONNECT_DELSYS_ANALOG
| DISCONNECT_DELSYS_EMG
| DISCONNECT_MAGSTIM
| START_RECORDING
| STOP_RECORDING
| GET_LAST_TRIAL_DATA
| ADD_ANALYZER
| REMOVE_ANALYZER
| FAILED.

Definition Command_value (c : Command) : Z :=
  match c with
  | HANDSHAKE => 0
  | CONNECT_DELSYS_ANALOG => 10
  | CONNECT_DELSYS_EMG => 11
  | CONNECT_MAGSTIM => 12
  | ZERO_DELSYS_ANALOG => 40
  | ZERO_DELSYS_EMG => 41
  | DISCONNECT_DELSYS_ANALOG => 20
  | DISCONNECT_DELSYS_EMG => 21
  | DISCONNECT_MAGSTIM => 22
  | START_RECORDING => 30
  | STOP_RECORDING => 31
  | GET_LAST_TRIAL_DATA => 32
  | ADD_ANALYZER => 50
  | REMOVE_ANALYZER => 51
  | FAILED => 100
  end.

Definition Command_name (c : Command) : string :=
  match c with
  | HANDSHAKE => "HANDSHAKE"
  | CONNECT_DELSYS_ANALOG => "CONNECT_DELSYS_ANALOG"
  | CONNECT_DELSYS_EMG => "CONNECT_DELSYS_EMG"
  | CONNECT_MAGSTIM => "CONNECT_MAGSTIM"
  | ZERO_DELSYS_ANALOG => "ZERO_DELSYS_ANALOG"
  | ZERO_DELSYS_EMG => "ZERO_DELSYS_EMG"
  | DISCONNECT_DELSYS_ANALOG => "DISCONNECT_DELSYS_ANALOG"
  | DISCONNECT_DELSYS_EMG => "DISCONNECT_DELSYS_EMG"
  | DISCONNECT_MAGSTIM => "DISCONNECT_MAGSTIM"
  | START_RECORDING => "START_RECORDING"
  | STOP_RECORDING => "STOP_RECORDING"
  | GET_LAST_TRIAL_DATA => "GET_LAST_TRIAL_DATA"
  | ADD_ANALYZER => "ADD_ANALYZER"
  | REMOVE_ANALYZER => "REMOVE_ANALYZER"
  | FAILED => "FAILED"
  end.

(* ================================================================= *)
(** ** Floats and time *)

(** [float(z)] for a Python int: the nearest binary64 value. *)
Definition float_of_int (z : Z) : float :=
  SF2Prim (binary_normalize prec emax z 0 false).

(** The integer floor of a finite float; [0] on an infinity or a NaN, where
    Python raises (no caller below reaches those). *)
Definition float_floor (f : float) : Z :=
  match Prim2SF f with
  | S754_finite s m e =>
      let v := if s then Z.neg m else Z.pos m in
      if 0 <=? e then v * 2 ^ e else v / 2 ^ (- e)
  | _ => 0
  end.

(** The fields of [time.struct_time] that the format string reads. *)
Record struct_time : Type := mk_struct_time {
  tm_year : Z;
  tm_mon : Z;
  tm_mday : Z;
  tm_hour : Z;
  tm_min : Z;
  tm_sec : Z
}.

(** The proleptic Gregorian date of the day [days] after 1970-01-01. *)
Definition civil_from_days (days : Z) : Z * Z * Z :=
  let z := days + 719468 in
  let era := z / 146097 in
  let doe := z mod 146097 in
  let yoe := (doe - doe / 1460 + doe / 36524 - doe / 146096) / 365 in
  let doy := doe - (365 * yoe + yoe / 4 - yoe / 100) in
  let mp := (5 * doy + 2) / 153 in
  let d := doy - (153 * mp + 2) / 5 + 1 in
  let m := if mp <? 10 then mp + 3 else mp - 9 in
  let y := yoe + era * 400 + (if m <=? 2 then 1 else 0) in
  (y, m, d).

(** [time.gmtime] on a whole number of seconds since the epoch. *)
Definition gmtime_seconds (secs : Z) : struct_time :=
  let '(y, m, d) := civil_from_days (secs / 86400) in
  let rem := secs mod 86400 in
  mk_struct_time y m d (rem / 3600) (rem mod 3600 / 60) (rem mod 60).

(** [time.gmtime(t)] for a float [t]: the fraction is dropped by flooring. *)
Definition time_gmtime (t : float) : struct_time :=
  gmtime_seconds (float_floor t).

Definition pad2 (z : Z) : string :=
  if z <? 10 then ("0" ++ str_of_int z)%string else str_of_int z.

(** [time.strftime('%Y-%m-%d %H:%M:%S', tm)]. *)
Definition time_strftime (tm : struct_time) : string :=
  (str_of_int (tm_year tm) ++ "-" ++ pad2 (tm_mon tm) ++ "-" ++ pad2 (tm_mday tm)
   ++ " " ++ pad2 (tm_hour tm) ++ ":" ++ pad2 (tm_min tm) ++ ":" ++ pad2 (tm_sec tm))%string.

(* ================================================================= *)
(** ** Protocol codec *)

(** [to_packet]: [None] where [struct.pack] raises. *)
Definition to_packet (command_int : Z) : option bytes :=
  struct_pack_II VERSION command_int.

(** The dict [interpret_response] returns: either the two-key error dict
    (["error"], ["raw_data"]) or the four-key parsed dict. *)
Inductive parsed_response : Type :=
| ResponseError (error : string) (raw_data : option string)
| ResponseParsed (protocol_version timestamp : Z) (human_time : string)
                 (status : Z).

(** ["error" in parsed_response]. *)
Definition has_error (r : parsed_response) : bool :=
  match r with
  | ResponseError _ _ => true
  | ResponseParsed _ _ _ _ => false
  end.

Definition raw_data_of (response : bytes) : option string :=
  match response with
  | [] => None
  | _ => Some (hex response)
  end.

Definition interpret_response (response : bytes) : parsed_response :=
  if match response with [] => true | _ => false end
     || negb (blen response =? 16)
  then ResponseError "Invalid response length" (raw_data_of response)
  else
    let '(protocol_version, timestamp, status) := struct_unpack_IQI response in
    if negb (protocol_version =? VERSION)
    then ResponseError ("Invalid protocol version: " ++ str_of_int protocol_version)%string
                       (raw_data_of response)
    else
      let timestamp_seconds := (float_of_int timestamp / float_of_int 1000)%float in
      let human_readable_time := time_strftime (time_gmtime timestamp_seconds) in
      ResponseParsed protocol_version timestamp human_readable_time status.

(** [parse_data_length]: the length field at bytes 12..15 of a header.  The
    slice [data[12:16]] of a shorter buffer has fewer than four bytes, and
    [struct.unpack] then raises ([None]). *)
Definition parse_data_length (data : bytes) : option Z :=
  let field := take 4 (drop 12 data) in
  if blen field =? 4 then Some (struct_unpack_I field) else None.

(* ================================================================= *)
(** ** Python values and exceptions *)

(** The values that [json.loads] produces, that python-osc hands to a
    handler, and that the module's own dict literals are made of. *)
#[local] Set Warnings "-register-all".
Inductive pyvalue : Type :=
| PyNone
| PyBool (b : bool)
| PyInt (z : Z)
| PyFloat (f : float)
| PyStr (s : string)
| PyList (items : list pyvalue)
| PyDict (entries : list (string * pyvalue)).

(** The exception classes the modelled code can raise. *)
Inductive exn : Type :=
| OSError              (* [socket.error] is an alias of [OSError] *)
| StructError
| IndexError
| KeyError
| TypeError
| AttributeError
| OverflowError
| ValueError
| UnicodeDecodeError   (* a subclass of [ValueError] *)
| JSONDecodeError.     (* a subclass of [ValueError] *)

(** The classes named in the module's [except] clauses. *)
Inductive exn_class : Type :=
| ClsException
| ClsSocketError
| ClsValueError
| ClsIndexError
| ClsJSONDecodeError.

Definition isinstance (e : exn) (c : exn_class) : bool :=
  match c, e with
  | ClsException, _ => true
  | ClsSocketError, OSError => true
  | ClsValueError, (ValueError | UnicodeDecodeError | JSONDecodeError) => true
  | ClsIndexError, IndexError => true
  | ClsJSONDecodeError, JSONDecodeError => true
  | _, _ => false
  end.

Inductive result (A : Type) : Type :=
| Ok (a : A)
| Raise (e : exn).
Arguments Ok {A} a.
Arguments Raise {A} e.

(* ================================================================= *)
(** ** The world: environment, trace and module globals *)

(** A socket object, identified by the order of its creation. *)
Definition socket := nat.

Inductive level : Type := INFO | ERROR.

(** What the program does to the outside, in order.  [EvFrame] is not an
    effect of the program: it marks the point where a stream listener has cut
    [raw_data] out of its buffer, so that the frames a listener delivers can be
    read off the trace. *)
Inductive event : Type :=
| EvConnect (host : string) (port : Z) (sock : option socket)
| EvSend (sock : socket) (data : bytes) (ok : bool)
| EvRecv (sock : socket) (bufsize : Z) (data : option bytes)
| EvClose (sock : socket)
| EvLog (lvl : level) (message : string)
| EvOsc (address : string) (value : pyvalue)
| EvFrame (raw_data : bytes).

(** What the program cannot decide.  The [k]-th call of
    [socket.create_connection] succeeds iff [connect_ok k]; the [k]-th
    [sendall] succeeds iff [send_ok k]; the [k]-th [recv] returns
    [recv_data k] cut to the requested size, or raises [socket.error] on
    [None].  [json_loads] is [json.loads(raw.decode('utf-8'))], [json_dumps]
    is [json.dumps(v).encode('utf-8')], [int_of_str] and [float_of_str] are
    [int(s)] and [float(s)] on a [str], [None] where they raise [ValueError]. *)
Record environment : Type := mk_environment {
  connect_ok : nat -> bool;
  send_ok : nat -> bool;
  recv_data : nat -> option bytes;
  json_loads : bytes -> result pyvalue;
  json_dumps : pyvalue -> bytes;
  int_of_str : string -> option Z;
  float_of_str : string -> option float
}.

(** The module's global variables that are assigned after start-up. *)
Record globals : Type := mk_globals {
  CURRENT_SENSORS : list Z;
  SOCKETS : list socket;
  ANALYZER_LEFT_CHANNEL : Z;
  ANALYZER_LEFT_THRESHOLD : pyvalue;
  ANALYZER_RIGHT_CHANNEL : Z;
  ANALYZER_RIGHT_THRESHOLD : pyvalue;
  analyzer_config_left : pyvalue;
  analyzer_config_right : pyvalue
}.

Record world : Type := mk_world {
  env : environment;
  connects : nat;              (* calls of [create_connection] so far *)
  sends : nat;                 (* calls of [sendall] so far *)
  recvs : nat;                 (* calls of [recv] so far *)
  open_sockets : list socket;  (* created and not yet closed *)
  trace : list event;
  glob : globals
}.

(** The state-and-exception monad of the embedding. *)
Definition M (A : Type) : Type := world -> result A * world.

Definition ret {A : Type} (a : A) : M A := fun w => (Ok a, w).

Definition raise {A : Type} (e : exn) : M A := fun w => (Raise e, w).

Definition bind {A B : Type} (m : M A) (k : A -> M B) : M B :=
  fun w =>
    match m w with
    | (Ok a, w') => k a w'
    | (Raise e, w') => (Raise e, w')
    end.

(** [try: body  except cls: handler]. *)
Definition try_except {A : Type} (body : M A) (cls : list exn_class)
    (handler : M A) : M A :=
  fun w =>
    match body w with
    | (Ok a, w') => (Ok a, w')
    | (Raise e, w') =>
        if existsb (isinstance e) cls then handler w' else (Raise e, w')
    end.

Declare Scope monad_scope.
Delimit Scope monad_scope with monad.
Notation "x <- m ;; k" := (bind m (fun x => k))
  (at level 61, m at next level, right associativity) : monad_scope.
Notation "m ;; k" := (bind m (fun _ => k))
  (at level 61, right associativity) : monad_scope.
Open Scope monad_scope.

(** Lifting of a pure computation that may raise. *)
Definition lift {A : Type} (r : result A) : M A := fun w => (r, w).

Definition get_globals : M globals := fun w => (Ok (glob w), w).

Definition get_env : M environment := fun w => (Ok (env w), w).

Definition put_globals (g : globals) : M unit :=
  fun w => (Ok tt, mk_world (env w) (connects w) (sends w) (recvs w)
                            (open_sockets w) (trace w) g).

Definition emit (e : event) : M unit :=
  fun w => (Ok tt, mk_world (env w) (connects w) (sends w) (recvs w)
                            (open_sockets w) (trace w ++ [e]) (glob w)).

(** [log_message(message, level)]. *)
Definition log_message (message : string) (lvl : level) : M unit :=
  emit (EvLog lvl message).

(** [socket.create_connection((host, port))]. *)
Definition create_connection (host : string) (port : Z) : M socket :=
  fun w =>
    let k := connects w in
    if connect_ok (env w) k
    then (Ok k, mk_world (env w) (S k) (sends w) (recvs w)
                         (open_sockets w ++ [k])
                         (trace w ++ [EvConnect host port (Some k)]) (glob w))
    else (Raise OSError, mk_world (env w) (S k) (sends w) (recvs w)
                                  (open_sockets w)
                                  (trace w ++ [EvConnect host port None]) (glob w)).

(** [sock.sendall(data)]. *)
Definition sendall (sock : socket) (data : bytes) : M unit :=
  fun w =>
    let k := sends w in
    let ok := send_ok (env w) k in
    (if ok then Ok tt else Raise OSError,
     mk_world (env w) (connects w) (S k) (recvs w) (open_sockets w)
              (trace w ++ [EvSend sock data ok]) (glob w)).

(** [sock.recv(bufsize)]: at most [bufsize] bytes. *)
Definition recv (sock : socket) (bufsize : Z) : M bytes :=
  fun w =>
    let k := recvs w in
    let data := option_map (take bufsize) (recv_data (env w) k) in
    (match data with Some d => Ok d | None => Raise OSError end,
     mk_world (env w) (connects w) (sends w) (S k) (open_sockets w)
              (trace w ++ [EvRecv sock bufsize data]) (glob w)).

(** [sock.close()]. *)
Definition close (sock : socket) : M unit :=
  fun w =>
    (Ok tt, mk_world (env w) (connects w) (sends w) (recvs w)
                     (filter (fun s => negb (Nat.eqb s sock)) (open_sockets w))
                     (trace w ++ [EvClose sock]) (glob w)).

(** [send_osc_message(address, value)]; the lock is not modelled. *)
Definition send_osc_message (address : string) (value : pyvalue) : M unit :=
  emit (EvOsc address value).

(** [for x in xs: body x]. *)
Fixpoint for_each {A : Type} (xs : list A) (body : A -> M unit) : M unit :=
  match xs with
  | [] => ret tt
  | x :: rest => body x ;; for_each rest body
  end.

(** [sockets[i]] on a list of sockets, for [0 <= i]. *)
Definition socket_at (sockets : list socket) (i : nat) : M socket :=
  match nth_error sockets i with
  | Some s => ret s
  | None => raise IndexError
  end.

(* ================================================================= *)
(** ** Command channel *)

(** [send_command(sock, command)].  The [isinstance(command, Command)] test
    cannot fail on a [Command]. *)
Definition send_command (sock : socket) (command : Command) : M bool :=
  command_packet <- lift (match to_packet (Command_value command) with
                          | Some p => Ok p
                          | None => Raise StructError
                          end) ;;
  try_except
    (sendall sock command_packet ;;
     log_message ("Sent command: " ++ Command_name command ++ " ("
                  ++ str_of_int (Command_value command) ++ ")")%string INFO ;;
     response <- recv sock 16 ;;
     let parsed_response := interpret_response response in
     match parsed_response with
     | ResponseError error _ =>
         log_message ("Response interpretation error: " ++ error)%string ERROR ;;
         ret false
     | ResponseParsed _ _ _ status =>
         if negb (status =? 1)
         then log_message ("Command " ++ Command_name command ++ " failed")%string
                          ERROR ;;
              ret false
         else ret true
     end)
    [ClsSocketError]
    (log_message "Socket error" ERROR ;; ret false).

(** [send_extra_data(sock, response_sock, extra_data)]. *)
Definition send_extra_data (sock response_sock : socket) (extra_data : pyvalue)
    : M bool :=
  try_except
    (e <- get_env ;;
     let json_data := json_dumps e extra_data in
     let data_length := blen json_data in
     header <- lift (match struct_pack_II VERSION data_length with
                     | Some h => Ok h
                     | None => Raise StructError
                     end) ;;
     sendall sock (header ++ json_data) ;;
     response <- recv response_sock 16 ;;
     let parsed_response := interpret_response response in
     match parsed_response with
     | ResponseError error _ =>
         log_message ("Error in extra data response: " ++ error)%string ERROR ;;
         ret false
     | ResponseParsed _ _ _ status =>
         if negb (status =? 1)
         then log_message "Extra data failed (NOK received)" ERROR ;; ret false
         else log_message "Extra data sent successfully" INFO ;; ret true
     end)
    [ClsSocketError]
    (log_message "Socket error while sending extra data" ERROR ;; ret false).

(* ================================================================= *)
(** ** Connection manager *)

(** What [connect_and_handshake] returns: the list of sockets, or [False]. *)
Inductive connect_result : Type :=
| Sockets (sockets : list socket)
| ReturnFalse.

(** The loop [for port in ports] of [connect_and_handshake], started with
    the sockets opened so far.  [None] is the [return False] of the [except]
    branch, which leaves the function. *)
Fixpoint connect_ports (host : string) (ports : list Z) (sockets : list socket)
    : M (option (list socket)) :=
  match ports with
  | [] => ret (Some sockets)
  | port :: rest =>
      step <- try_except
                (sock <- create_connection host port ;;
                 log_message ("Connected to " ++ host ++ ":" ++ str_of_int port)%string
                             INFO ;;
                 ret (Some (sockets ++ [sock])))
                [ClsException]
                (log_message ("Error connecting to " ++ host ++ ":"
                              ++ str_of_int port)%string ERROR ;;
                 for_each sockets close ;;
                 ret None) ;;
      match step with
      | Some sockets' => connect_ports host rest sockets'
      | None => ret None
      end
  end.

Definition connect_and_handshake (host : string) (ports : list Z)
    : M connect_result :=
  connected <- connect_ports host ports [] ;;
  match connected with
  | None => ret ReturnFalse
  | Some sockets =>
      if Nat.eqb (List.length sockets) (List.length ports)
      then
        handshake_message <- lift (match to_packet (Command_value HANDSHAKE) with
                                   | Some p => Ok p
                                   | None => Raise StructError
                                   end) ;;
        s0 <- socket_at sockets 0 ;;
        sendall s0 handshake_message ;;
        s0' <- socket_at sockets 0 ;;
        response <- recv s0' 16 ;;
        let parsed_response := interpret_response response in
        if has_error parsed_response
        then log_message "Handshake error" ERROR ;; ret ReturnFalse
        else log_message "Handshake successful" INFO ;; ret (Sockets sockets)
      else log_message "Handshake successful" INFO ;; ret (Sockets sockets)
  end.

(* ================================================================= *)
(** ** Python operations on values *)

Definition result_bind {A B : Type} (r : result A) (k : A -> result B)
    : result B :=
  match r with
  | Ok a => k a
  | Raise e => Raise e
  end.

(** [len] of a list as a Python int. *)
Definition len {A : Type} (l : list A) : Z := Z.of_nat (List.length l).

(** The position that the index [i] denotes in a sequence of length [n]:
    negative indices count from the end, anything else is out of range. *)
Definition norm_index (i n : Z) : option nat :=
  if (0 <=? i) && (i <? n) then Some (Z.to_nat i)
  else if (- n <=? i) && (i <? 0) then Some (Z.to_nat (n + i))
  else None.

(** The one-character strings of a [str], in order. *)
Definition str_chars (s : string) : list pyvalue :=
  map (fun c => PyStr (String c EmptyString)) (list_ascii_of_string s).

Definition seq_getitem (l : list pyvalue) (i : Z) : result pyvalue :=
  match norm_index i (len l) with
  | Some k =>
      match nth_error l k with
      | Some x => Ok x
      | None => Raise IndexError
      end
  | None => Raise IndexError
  end.

Fixpoint dict_get (entries : list (string * pyvalue)) (k : string)
    : option pyvalue :=
  match entries with
  | [] => None
  | (k', v) :: rest => if String.eqb k' k then Some v else dict_get rest k
  end.

(** [d[k] = x] on a dict: the entry is replaced in place, or added last. *)
Fixpoint dict_set (entries : list (string * pyvalue)) (k : string) (x : pyvalue)
    : list (string * pyvalue) :=
  match entries with
  | [] => [(k, x)]
  | (k', v) :: rest =>
      if String.eqb k' k then (k', x) :: rest else (k', v) :: dict_set rest k x
  end.

Fixpoint list_set (l : list pyvalue) (n : nat) (x : pyvalue) : list pyvalue :=
  match l, n with
  | [], _ => []
  | _ :: rest, O => x :: rest
  | y :: rest, S m => y :: list_set rest m x
  end.

(** [v[i]] for an int [i].  The keys of the dicts at hand are strings, so an
    int is never among them. *)
Definition py_getitem_int (v : pyvalue) (i : Z) : result pyvalue :=
  match v with
  | PyList l => seq_getitem l i
  | PyStr s => seq_getitem (str_chars s) i
  | PyDict _ => Raise KeyError
  | _ => Raise TypeError
  end.

(** [v[k]] for a str [k]. *)
Definition py_getitem_str (v : pyvalue) (k : string) : result pyvalue :=
  match v with
  | PyDict entries =>
      match dict_get entries k with
      | Some x => Ok x
      | None => Raise KeyError
      end
  | _ => Raise TypeError
  end.

(** The elements that [for x in v] visits. *)
Definition py_iter (v : pyvalue) : result (list pyvalue) :=
  match v with
  | PyList l => Ok l
  | PyStr s => Ok (str_chars s)
  | PyDict entries => Ok (map (fun kv => PyStr (fst kv)) entries)
  | _ => Raise TypeError
  end.

(** [len(v)]. *)
Definition py_len (v : pyvalue) : result Z :=
  match v with
  | PyList l => Ok (len l)
  | PyStr s => Ok (Z.of_nat (String.length s))
  | PyDict entries => Ok (len entries)
  | _ => Raise TypeError
  end.

(** [v.keys()] and [v.items()]: only a dict has them. *)
Definition py_keys (v : pyvalue) : result (list string) :=
  match v with
  | PyDict entries => Ok (map fst entries)
  | _ => Raise AttributeError
  end.

Definition py_items (v : pyvalue) : result (list (string * pyvalue)) :=
  match v with
  | PyDict entries => Ok entries
  | _ => Raise AttributeError
  end.

Definition is_list (v : pyvalue) : bool :=
  match v with
  | PyList _ => true
  | _ => false
  end.

Fixpoint is_prefix (p s : string) : bool :=
  match p, s with
  | EmptyString, _ => true
  | String a p', String b s' => Ascii.eqb a b && is_prefix p' s'
  | String _ _, EmptyString => false
  end.

Fixpoint is_substring (p s : string) : bool :=
  is_prefix p s
  || match s with
     | EmptyString => false
     | String _ s' => is_substring p s'
     end.

(** [k in v] for a str [k]: a key of a dict, an element of a list, a
    substring of a str. *)
Definition py_contains_str (k : string) (v : pyvalue) : result bool :=
  match v with
  | PyDict entries => Ok (existsb (fun kv => String.eqb (fst kv) k) entries)
  | PyList l =>
      Ok (existsb (fun x => match x with
                            | PyStr s => String.eqb s k
                            | _ => false
                            end) l)
  | PyStr s => Ok (is_substring k s)
  | _ => Raise TypeError
  end.

Fixpoint repeat_string (s : string) (n : nat) : string :=
  match n with
  | O => EmptyString
  | S k => (s ++ repeat_string s k)%string
  end.

Fixpoint repeat_list (l : list pyvalue) (n : nat) : list pyvalue :=
  match n with
  | O => []
  | S k => l ++ repeat_list l k
  end.

(** [v * n] for a small int [n]: arithmetic on numbers, repetition on
    sequences. *)
Definition py_mul_int (v : pyvalue) (n : Z) : result pyvalue :=
  match v with
  | PyInt z => Ok (PyInt (z * n))
  | PyBool b => Ok (PyInt ((if b then 1 else 0) * n))
  | PyFloat f => Ok (PyFloat (f * float_of_int n))
  | PyStr s => Ok (PyStr (repeat_string s (Z.to_nat n)))
  | PyList l => Ok (PyList (repeat_list l (Z.to_nat n)))
  | PyNone | PyDict _ => Raise TypeError
  end.

(** Whether the float [f] has exactly the value of the int [z]. *)
Definition float_eq_int (f : float) (z : Z) : bool :=
  match Prim2SF f with
  | S754_zero _ => z =? 0
  | S754_finite s m e =>
      let v := if s then Z.neg m else Z.pos m in
      if 0 <=? e then v * 2 ^ e =? z else v =? z * 2 ^ (- e)
  | _ => false
  end.

(** Equality of two hashable values as a set sees it.  Numbers compare by
    value across [bool], [int] and [float].  Every NaN that [json.loads]
    returns is one and the same object, and membership tests identity before
    [==], so a NaN is found again. *)
Definition py_key_eqb (a b : pyvalue) : bool :=
  match a, b with
  | PyNone, PyNone => true
  | PyStr s, PyStr t => String.eqb s t
  | PyFloat f, PyFloat g => PrimFloat.eqb f g || (is_nan f && is_nan g)
  | PyFloat f, PyInt z | PyInt z, PyFloat f => float_eq_int f z
  | PyFloat f, PyBool c | PyBool c, PyFloat f =>
      float_eq_int f (if c then 1 else 0)
  | PyInt y, PyInt z => y =? z
  | PyInt z, PyBool c | PyBool c, PyInt z => z =? (if c then 1 else 0)
  | PyBool c, PyBool d => Bool.eqb c d
  | _, _ => false
  end.

(** [x in s] for a set [s], kept as the list of its elements in the order of
    insertion: a list or a dict cannot be hashed. *)
Definition set_contains (s : list pyvalue) (x : pyvalue) : result bool :=
  match x with
  | PyList _ | PyDict _ => Raise TypeError
  | _ => Ok (existsb (py_key_eqb x) s)
  end.

(** [s.add(x)], for [x] not in [s]. *)
Definition set_add (s : list pyvalue) (x : pyvalue) : list pyvalue := s ++ [x].

(** [int(v)]: truncation of a float, [int_of_str] on a str. *)
Definition py_int (e : environment) (v : pyvalue) : result Z :=
  match v with
  | PyInt z => Ok z
  | PyBool b => Ok (if b then 1 else 0)
  | PyFloat f =>
      match Prim2SF f with
      | S754_nan => Raise ValueError
      | S754_infinity _ => Raise OverflowError
      | S754_zero _ => Ok 0
      | S754_finite s m e =>
          let a := if 0 <=? e then Z.pos m * 2 ^ e else Z.pos m / 2 ^ (- e) in
          Ok (if s then - a else a)
      end
  | PyStr s =>
      match int_of_str e s with
      | Some z => Ok z
      | None => Raise ValueError
      end
  | PyNone | PyList _ | PyDict _ => Raise TypeError
  end.

(** [float(v)]. *)
Definition py_float (e : environment) (v : pyvalue) : result float :=
  match v with
  | PyFloat f => Ok f
  | PyInt z =>
      let f := float_of_int z in
      if is_infinity f then Raise OverflowError else Ok f
  | PyBool b => Ok (float_of_int (if b then 1 else 0))
  | PyStr s =>
      match float_of_str e s with
      | Some f => Ok f
      | None => Raise ValueError
      end
  | PyNone | PyList _ | PyDict _ => Raise TypeError
  end.

(** [s.replace(" ", "_")]. *)
Fixpoint replace_spaces (s : string) : string :=
  match s with
  | EmptyString => EmptyString
  | String c rest =>
      String (if Ascii.eqb c " "%char then "_"%char else c) (replace_spaces rest)
  end.

(** A subscript of a nested assignment. *)
Inductive subscript : Type :=
| Key (k : string)
| Index (i : Z).

Definition py_getitem (v : pyvalue) (s : subscript) : result pyvalue :=
  match s with
  | Key k => py_getitem_str v k
  | Index i => py_getitem_int v i
  end.

(** [v[s] = x]. *)
Definition py_setitem (v : pyvalue) (s : subscript) (x : pyvalue)
    : result pyvalue :=
  match s, v with
  | Key k, PyDict entries => Ok (PyDict (dict_set entries k x))
  | Index i, PyList l =>
      match norm_index i (len l) with
      | Some n => Ok (PyList (list_set l n x))
      | None => Raise IndexError
      end
  | _, _ => Raise TypeError
  end.

(** [v[p1]...[pn][last] = x]: the object reached through [path] is updated
    where it is, which the embedding renders by rebuilding [v] around it. *)
Fixpoint assign_path (v : pyvalue) (path : list subscript) (last : subscript)
    (x : pyvalue) : result pyvalue :=
  match path with
  | [] => py_setitem v last x
  | s :: rest =>
      result_bind (py_getitem v s) (fun child =>
      result_bind (assign_path child rest last x) (fun child' =>
      py_setitem v s child'))
  end.

(** [v[p1]...[pn]]. *)
Fixpoint get_path (v : pyvalue) (path : list subscript) : result pyvalue :=
  match path with
  | [] => Ok v
  | s :: rest => result_bind (py_getitem v s) (fun child => get_path child rest)
  end.

(* ================================================================= *)
(** ** Stream decoder and the two listeners *)

(** The two locals that survive an iteration of a listener's [while True]. *)
Record decoder : Type := mk_decoder {
  buffer : bytes;
  expected_length : option Z    (* [None] is Python's [None] *)
}.

Definition new_decoder : decoder := mk_decoder [] None.

(** How an iteration of [while True] ends: the loop goes on with new locals,
    or it is left by [break]. *)
Inductive control (S : Type) : Type :=
| Continue (locals : S)
| Break.
Arguments Continue {S} locals.
Arguments Break {S}.

(** [if expected_length is None and len(buffer) >= 16: ...]: the header is
    read and cut off. *)
Definition read_header (d : decoder) : M decoder :=
  match expected_length d with
  | None =>
      if 16 <=? blen (buffer d)
      then
        n <- lift (match parse_data_length (take 16 (buffer d)) with
                   | Some n => Ok n
                   | None => Raise StructError
                   end) ;;
        ret (mk_decoder (drop 16 (buffer d)) (Some n))
      else ret d
  | Some _ => ret d
  end.

(** The condition [expected_length and len(buffer) >= expected_length] of the
    inner [while]: [None] and [0] are false. *)
Definition frame_ready (d : decoder) : option Z :=
  match expected_length d with
  | Some n => if negb (n =? 0) && (n <=? blen (buffer d)) then Some n else None
  | None => None
  end.

(** [for x in xs: locals = body(locals, x)], with the locals threaded. *)
Fixpoint fold_m {A S : Type} (xs : list A) (s : S) (body : S -> A -> M S)
    : M S :=
  match xs with
  | [] => ret s
  | x :: rest => s' <- body s x ;; fold_m rest s' body
  end.

(** The body of [for channel in CURRENT_SENSORS]. *)
Definition send_channel (channels : pyvalue) (channel : Z) : M unit :=
  n <- lift (py_len channels) ;;
  if channel <=? n
  then
    x <- lift (py_getitem_int channels (channel - 1)) ;;
    v <- lift (py_mul_int x DATA_MULTIPLIER) ;;
    send_osc_message ("/sensor_" ++ str_of_int channel)%string v
  else ret tt.

(** The body of [for entry in ...] of the data listener; the local set
    [sent_timestamps] is threaded. *)
Definition process_entry (sent_timestamps : list pyvalue) (entry : pyvalue)
    : M (list pyvalue) :=
  timestamp <- lift (py_getitem_int entry 0) ;;
  channels <- lift (py_getitem_int entry 1) ;;
  seen <- lift (set_contains sent_timestamps timestamp) ;;
  if negb seen
  then
    let sent_timestamps' := set_add sent_timestamps timestamp in
    g <- get_globals ;;
    for_each (CURRENT_SENSORS g) (send_channel channels) ;;
    ret sent_timestamps'
  else ret sent_timestamps.

(** The body of [for key in decoded_data.keys()]. *)
Definition process_group (decoded_data : pyvalue)
    (sent_timestamps : list pyvalue) (key : string) : M (list pyvalue) :=
  group <- lift (py_getitem_str decoded_data key) ;;
  d1 <- lift (py_getitem_str group "data") ;;
  d2 <- lift (py_getitem_str d1 "data") ;;
  entries <- lift (py_iter d2) ;;
  fold_m entries sent_timestamps process_entry.

(** What the data listener does with a decoded frame. *)
Definition process_data_frame (sent_timestamps : list pyvalue)
    (decoded_data : pyvalue) : M (list pyvalue) :=
  keys <- lift (py_keys decoded_data) ;;
  fold_m keys sent_timestamps (process_group decoded_data).

(** [json.loads(raw_data.decode('utf-8'))]. *)
Definition loads (raw_data : bytes) : M pyvalue :=
  e <- get_env ;; lift (json_loads e raw_data).

(** One iteration of the [while True] of [listen_to_live_data].  The inner
    [while] sets [expected_length = None] as it enters its body, so its
    condition fails at the next test: the body runs at most once, and the
    loop is written as a conditional.  Only [json.loads] raises
    [JSONDecodeError], before [sent_timestamps] is touched, so the handler
    goes on with the set as it was. *)
Definition live_data_iteration (sock : socket)
    (locals : decoder * list pyvalue) : M (control (decoder * list pyvalue)) :=
  let '(d, sent_timestamps) := locals in
  try_except
    (data <- recv sock 4096 ;;
     match data with
     | [] => ret Break
     | _ =>
         d1 <- read_header (mk_decoder (buffer d ++ data) (expected_length d)) ;;
         match frame_ready d1 with
         | Some n =>
             let raw_data := take n (buffer d1) in
             let d2 := mk_decoder (drop n (buffer d1)) None in
             emit (EvFrame raw_data) ;;
             try_except
               (decoded_data <- loads raw_data ;;
                sent' <- process_data_frame sent_timestamps decoded_data ;;
                ret (Continue (d2, sent')))
               [ClsJSONDecodeError]
               (log_message "JSON decode error in live data. Resetting buffer."
                            ERROR ;;
                ret (Continue (mk_decoder [] None, sent_timestamps)))
         | None => ret (Continue (d1, sent_timestamps))
         end
     end)
    [ClsException]
    (log_message "Error processing data" ERROR ;; ret Break).

(** The first [n] iterations of a [while True] whose body is [iteration]. *)
Fixpoint while_true {S : Type} (n : nat) (iteration : S -> M (control S))
    (locals : S) : M (control S) :=
  match n with
  | O => ret (Continue locals)
  | S k =>
      c <- iteration locals ;;
      match c with
      | Continue locals' => while_true k iteration locals'
      | Break => ret Break
      end
  end.

(** [listen_to_live_data(sock)], observed for [n] iterations of its loop:
    [Continue] when the loop is still running then, [Break] when the function
    has returned. *)
Definition listen_to_live_data (n : nat) (sock : socket)
    : M (control (decoder * list pyvalue)) :=
  log_message ("Sending live data via OSC on " ++ OSC_IP ++ ":"
               ++ str_of_int OSC_PORT)%string INFO ;;
  c <- while_true n (live_data_iteration sock) (new_decoder, []) ;;
  match c with
  | Continue locals => ret (Continue locals)
  | Break =>
      close sock ;;
      log_message "Live data connection closed" INFO ;;
      ret Break
  end.

(** [isinstance(analysis, list) and len(analysis) >= 2 and
    isinstance(analysis[1], list)]. *)
Definition analysis_ok (analysis : pyvalue) : bool :=
  match analysis with
  | PyList items =>
      (2 <=? len items)
      && match seq_getitem items 1 with
         | Ok second => is_list second
         | Raise _ => false
         end
  | _ => false
  end.

(** The body of [for key, analysis in decoded_data["data"].items()]. *)
Definition process_analysis (item : string * pyvalue) : M unit :=
  let '(key, analysis) := item in
  if analysis_ok analysis
  then
    extracted_data <- lift (py_getitem_int analysis 1) ;;
    send_osc_message ("/" ++ replace_spaces key)%string extracted_data
  else log_message ("Unexpected format in '" ++ key ++ "' data")%string ERROR.

(** What the analyses listener does with a decoded frame. *)
Definition process_analyses_frame (decoded_data : pyvalue) : M unit :=
  has_data <- lift (py_contains_str "data" decoded_data) ;;
  if has_data
  then
    analyses <- lift (py_getitem_str decoded_data "data") ;;
    items <- lift (py_items analyses) ;;
    for_each items process_analysis
  else ret tt.

(** One iteration of the [while True] of [listen_to_live_analyses]. *)
Definition live_analyses_iteration (sock : socket) (d : decoder)
    : M (control decoder) :=
  try_except
    (data <- recv sock 4096 ;;
     match data with
     | [] => ret Break
     | _ =>
         d1 <- read_header (mk_decoder (buffer d ++ data) (expected_length d)) ;;
         match frame_ready d1 with
         | Some n =>
             let raw_data := take n (buffer d1) in
             let d2 := mk_decoder (drop n (buffer d1)) None in
             emit (EvFrame raw_data) ;;
             try_except
               (decoded_data <- loads raw_data ;;
                process_analyses_frame decoded_data ;;
                ret (Continue d2))
               [ClsJSONDecodeError]
               (log_message "JSON decode error in analysis data. Resetting buffer."
                            ERROR ;;
                ret (Continue (mk_decoder [] None)))
         | None => ret (Continue d1)
         end
     end)
    [ClsException]
    (log_message "Error processing analysis data" ERROR ;; ret Break).

Definition listen_to_live_analyses (n : nat) (sock : socket)
    : M (control decoder) :=
  log_message ("Sending live analyses via OSC on " ++ OSC_IP ++ ":"
               ++ str_of_int OSC_PORT)%string INFO ;;
  c <- while_true n (live_analyses_iteration sock) new_decoder ;;
  match c with
  | Continue d => ret (Continue d)
  | Break =>
      close sock ;;
      log_message "Live analysis connection closed" INFO ;;
      ret Break
  end.

(* ================================================================= *)
(** ** Analyzer configuration and the inbound OSC handlers *)

Definition trigger (channel : Z) (comparator : string) (value : pyvalue)
    : pyvalue :=
  PyDict [("type", PyStr "threshold");
          ("device", PyStr ANALYZER_DEVICE);
          ("channel", PyInt channel);
          ("comparator", PyStr comparator);
          ("value", value)].

(** The dict literal of [analyzer_config_left] and [analyzer_config_right],
    which differ in the name, the channel and the threshold. *)
Definition analyzer_config (name : string) (channel : Z) (threshold : pyvalue)
    : pyvalue :=
  PyDict [("name", PyStr name);
          ("analyzer_type", PyStr "cyclic_timed_events");
          ("time_reference_device", PyStr ANALYZER_REFERENCE);
          ("learning_rate", PyFloat 0.5);
          ("initial_phase_durations", PyList [PyInt 400; PyInt 600]);
          ("events",
           PyList [PyDict [("name", PyStr "heel_strike");
                           ("previous", PyStr "toe_off");
                           ("start_when",
                            PyList [trigger (channel - 1) ">=" threshold])];
                   PyDict [("name", PyStr "toe_off");
                           ("previous", PyStr "heel_strike");
                           ("start_when",
                            PyList [trigger (channel - 1) "<" threshold])]])].

(** The globals as the module body leaves them. *)
Definition initial_globals : globals :=
  mk_globals [] [] 13 (PyInt 5) 14 (PyInt 5)
             (analyzer_config "foot_cycle_left" 13 (PyInt 5))
             (analyzer_config "foot_cycle_right" 14 (PyInt 5)).

Definition set_CURRENT_SENSORS (v : list Z) (g : globals) : globals :=
  mk_globals v (SOCKETS g) (ANALYZER_LEFT_CHANNEL g)
             (ANALYZER_LEFT_THRESHOLD g) (ANALYZER_RIGHT_CHANNEL g)
             (ANALYZER_RIGHT_THRESHOLD g) (analyzer_config_left g)
             (analyzer_config_right g).

Definition set_SOCKETS (v : list socket) (g : globals) : globals :=
  mk_globals (CURRENT_SENSORS g) v (ANALYZER_LEFT_CHANNEL g)
             (ANALYZER_LEFT_THRESHOLD g) (ANALYZER_RIGHT_CHANNEL g)
             (ANALYZER_RIGHT_THRESHOLD g) (analyzer_config_left g)
             (analyzer_config_right g).

Definition set_ANALYZER_LEFT_CHANNEL (v : Z) (g : globals) : globals :=
  mk_globals (CURRENT_SENSORS g) (SOCKETS g) v
             (ANALYZER_LEFT_THRESHOLD g) (ANALYZER_RIGHT_CHANNEL g)
             (ANALYZER_RIGHT_THRESHOLD g) (analyzer_config_left g)
             (analyzer_config_right g).

Definition set_ANALYZER_LEFT_THRESHOLD (v : pyvalue) (g : globals) : globals :=
  mk_globals (CURRENT_SENSORS g) (SOCKETS g) (ANALYZER_LEFT_CHANNEL g)
             v (ANALYZER_RIGHT_CHANNEL g)
             (ANALYZER_RIGHT_THRESHOLD g) (analyzer_config_left g)
             (analyzer_config_right g).

Definition set_ANALYZER_RIGHT_CHANNEL (v : Z) (g : globals) : globals :=
  mk_globals (CURRENT_SENSORS g) (SOCKETS g) (ANALYZER_LEFT_CHANNEL g)
             (ANALYZER_LEFT_THRESHOLD g) v
             (ANALYZER_RIGHT_THRESHOLD g) (analyzer_config_left g)
             (analyzer_config_right g).

Definition set_ANALYZER_RIGHT_THRESHOLD (v : pyvalue) (g : globals) : globals :=
  mk_globals (CURRENT_SENSORS g) (SOCKETS g) (ANALYZER_LEFT_CHANNEL g)
             (ANALYZER_LEFT_THRESHOLD g) (ANALYZER_RIGHT_CHANNEL g)
             v (analyzer_config_left g)
             (analyzer_config_right g).

Definition set_analyzer_config_left (v : pyvalue) (g : globals) : globals :=
  mk_globals (CURRENT_SENSORS g) (SOCKETS g) (ANALYZER_LEFT_CHANNEL g)
             (ANALYZER_LEFT_THRESHOLD g) (ANALYZER_RIGHT_CHANNEL g)
             (ANALYZER_RIGHT_THRESHOLD g) v
             (analyzer_config_right g).

(** Assignment to a global: [name = v]. *)
Definition assign (setter : globals -> globals) : M unit :=
  g <- get_globals ;; put_globals (setter g).

(** The path to a field of the only trigger of event [i]. *)
Definition trigger_path (i : Z) : list subscript :=
  [Key "events"; Index i; Key "start_when"; Index 0].

(** [analyzer_config_left["events"][i]["start_when"][0][field] = x]. *)
Definition assign_trigger_field (i : Z) (field : string) (x : pyvalue)
    : M unit :=
  g <- get_globals ;;
  config <- lift (assign_path (analyzer_config_left g) (trigger_path i)
                              (Key field) x) ;;
  put_globals (set_analyzer_config_left config g).

(** [update_analyzer_config()]; the lock is not modelled. *)
Definition update_analyzer_config : M unit :=
  g <- get_globals ;;
  assign_trigger_field 0 "channel" (PyInt (ANALYZER_LEFT_CHANNEL g - 1)) ;;
  assign_trigger_field 0 "value" (ANALYZER_LEFT_THRESHOLD g) ;;
  assign_trigger_field 1 "channel" (PyInt (ANALYZER_LEFT_CHANNEL g - 1)) ;;
  assign_trigger_field 1 "value" (ANALYZER_LEFT_THRESHOLD g).

(** [send_analyzer_config()]. *)
Definition send_analyzer_config : M unit :=
  g <- get_globals ;;
  match SOCKETS g with
  | [] | [_] =>
      log_message "Sockets not initialized, cannot send analyzer configuration."
                  ERROR
  | _ =>
      update_analyzer_config ;;
      s0 <- socket_at (SOCKETS g) 0 ;;
      removed <- send_command s0 REMOVE_ANALYZER ;;
      if negb removed
      then log_message "Failed to remove existing analyzer. Exiting..." ERROR
      else
        s1 <- socket_at (SOCKETS g) 1 ;;
        s0 <- socket_at (SOCKETS g) 0 ;;
        g1 <- get_globals ;;
        name <- lift (py_getitem_str (analyzer_config_left g1) "name") ;;
        named <- send_extra_data s1 s0 (PyDict [("analyzer", name)]) ;;
        if negb named
        then log_message "Failed to send analyzer configuration. Exiting..." ERROR
        else
          s0 <- socket_at (SOCKETS g) 0 ;;
          added <- send_command s0 ADD_ANALYZER ;;
          if negb added
          then log_message "Failed to send ADD_ANALYZER command. Exiting..." ERROR
          else
            s1 <- socket_at (SOCKETS g) 1 ;;
            s0 <- socket_at (SOCKETS g) 0 ;;
            g2 <- get_globals ;;
            sent <- send_extra_data s1 s0 (analyzer_config_left g2) ;;
            if negb sent
            then log_message "Failed to send analyzer configuration. Exiting..."
                             ERROR
            else log_message "Analyzer configuration updated successfully." INFO
  end.

(** [args[i]] on the tuple of a handler's arguments. *)
Definition arg (args : list pyvalue) (i : nat) : M pyvalue :=
  match nth_error args i with
  | Some v => ret v
  | None => raise IndexError
  end.

(** [analyzer_update_channels(address, *args)]. *)
Definition analyzer_update_channels (address : string) (args : list pyvalue)
    : M unit :=
  try_except
    (e <- get_env ;;
     a0 <- arg args 0 ;;
     left <- lift (py_int e a0) ;;
     assign (set_ANALYZER_LEFT_CHANNEL left) ;;
     a1 <- arg args 1 ;;
     right <- lift (py_int e a1) ;;
     assign (set_ANALYZER_RIGHT_CHANNEL right) ;;
     send_analyzer_config ;;
     g <- get_globals ;;
     log_message ("Updated ANALYZER_CHANNELS: "
                  ++ str_of_int (ANALYZER_LEFT_CHANNEL g) ++ ", "
                  ++ str_of_int (ANALYZER_RIGHT_CHANNEL g))%string INFO)
    [ClsValueError; ClsIndexError]
    (log_message "Error updating ANALYZER_CHANNEL" ERROR).

(** [analyzer_update_thresholds(address, *args)]. *)
Definition analyzer_update_thresholds (address : string) (args : list pyvalue)
    : M unit :=
  try_except
    (e <- get_env ;;
     a0 <- arg args 0 ;;
     left <- lift (py_float e a0) ;;
     assign (set_ANALYZER_LEFT_THRESHOLD (PyFloat left)) ;;
     a1 <- arg args 1 ;;
     right <- lift (py_float e a1) ;;
     assign (set_ANALYZER_RIGHT_THRESHOLD (PyFloat right)) ;;
     send_analyzer_config ;;
     log_message "Updated ANALYZER_THRESHOLDS" INFO)
    [ClsValueError; ClsIndexError]
    (log_message "Error updating ANALYZER_THRESHOLD" ERROR).

(** [[int(arg) for arg in args]]. *)
Fixpoint int_each (e : environment) (args : list pyvalue) : result (list Z) :=
  match args with
  | [] => Ok []
  | a :: rest =>
      result_bind (py_int e a) (fun z =>
      result_bind (int_each e rest) (fun zs => Ok (z :: zs)))
  end.

Fixpoint join (sep : string) (parts : list string) : string :=
  match parts with
  | [] => EmptyString
  | [p] => p
  | p :: rest => (p ++ sep ++ join sep rest)%string
  end.

(** [str(l)] for a list of ints. *)
Definition str_of_int_list (l : list Z) : string :=
  ("[" ++ join ", " (map str_of_int l) ++ "]")%string.

(** [change_current_sensors(address, *args)]. *)
Definition change_current_sensors (address : string) (args : list pyvalue)
    : M unit :=
  try_except
    (e <- get_env ;;
     sensors <- lift (int_each e args) ;;
     assign (set_CURRENT_SENSORS sensors) ;;
     g <- get_globals ;;
     log_message ("Changed current sensors to "
                  ++ str_of_int_list (CURRENT_SENSORS g))%string INFO)
    [ClsValueError; ClsIndexError]
    (log_message "Error changing current sensor" ERROR).

(** The dispatcher of [listen_to_osc_updates]: the handler mapped to an
    address; python-osc drops a message to any other address. *)
Definition dispatch (address : string) (args : list pyvalue) : M unit :=
  if String.eqb address "/sensors" then change_current_sensors address args
  else if String.eqb address "/analyzer_channels"
       then analyzer_update_channels address args
  else if String.eqb address "/analyzer_thresholds"
       then analyzer_update_thresholds address args
  else ret tt.

(* ================================================================= *)
(** ** Start-up *)

(** The first statements of [main()]: the sockets are connected and kept
    in [SOCKETS]; [False] is kept as the empty list, which is as false as it
    and is never read.  The result tells whether [main] goes on. *)
Definition main_connect : M bool :=
  r <- connect_and_handshake EMG_HOST EMG_PORTS ;;
  match r with
  | Sockets sockets =>
      assign (set_SOCKETS sockets) ;;
      match sockets with
      | [] =>
          log_message "Failed to establish all connections. Exiting..." ERROR ;;
          ret false
      | _ => ret true
      end
  | ReturnFalse =>
      assign (set_SOCKETS []) ;;
      log_message "Failed to establish all connections. Exiting..." ERROR ;;
      ret false
  end.

(** [main()] up to the start of the data listener thread: the sockets are
    connected, then the mode-select command goes out on the command socket.
    The result tells whether [main] goes on to start its threads; on
    [False] it has returned. *)
Definition main_startup : M bool :=
  connected <- main_connect ;;
  if negb connected
  then ret false
  else
    g <- get_globals ;;
    s0 <- socket_at (SOCKETS g) 0 ;;
    ok <- send_command s0 CONNECT_DELSYS_EMG ;;
    if negb ok
    then
      log_message "Failed to send CONNECT_DELSYS_EMG command. Exiting..." ERROR ;;
      ret false
    else ret true.

(* ================================================================= *)
(** * Vocabulary of the properties *)

(** ** Codec and command channel *)

(** A response with version 1, timestamp 1700000000123 ms and status 1. *)
Definition sample_response : bytes :=
  le_encode 4 1 ++ le_encode 8 1700000000123 ++ le_encode 4 1.

(** Whether a received buffer decodes to a response with status 1. *)
Definition response_ok (resp : bytes) : bool :=
  match interpret_response resp with
  | ResponseParsed _ _ _ status => status =? 1
  | ResponseError _ _ => false
  end.

(** Whether the [s]-th send succeeds and the [r]-th receive brings a
    response with status 1. *)
Definition round_trip_ok_at (e : environment) (s r : nat) : bool :=
  send_ok e s
  && match recv_data e r with
     | Some resp => response_ok (take 16 resp)
     | None => false
     end.

(** The outcome of the next round trip on the command channel. *)
Definition round_trip_ok (w : world) : bool :=
  round_trip_ok_at (env w) (sends w) (recvs w).

(** The line logged after a command has been sent. *)
Definition sent_message (command : Command) : string :=
  ("Sent command: " ++ Command_name command ++ " ("
   ++ str_of_int (Command_value command) ++ ")")%string.

(** An environment in which every connection and every send succeeds, the
    [k]-th receive brings [received k], [json.loads] yields [decoded], and
    no string converts to a number. *)
Definition environment_with (received : nat -> option bytes)
    (decoded : bytes -> result pyvalue) : environment :=
  mk_environment (fun _ => true) (fun _ => true) received decoded
                 (fun _ => []) (fun _ => None) (fun _ => None).

(** The world at start-up: nothing done yet, the globals as initialised. *)
Definition start_world (e : environment) : world :=
  mk_world e 0 0 0 [] [] initial_globals.

(** ** Connection manager *)

(** The events of one successful connection per port, the first socket
    being [c]. *)
Fixpoint connected_events (host : string) (ports : list Z) (c : nat)
    : list event :=
  match ports with
  | [] => []
  | port :: rest =>
      EvConnect host port (Some c)
      :: EvLog INFO ("Connected to " ++ host ++ ":" ++ str_of_int port)%string
      :: connected_events host rest (S c)
  end.

(** The connection attempts among some events: port and outcome, in order. *)
Fixpoint connections (events : list event) : list (Z * option socket) :=
  match events with
  | [] => []
  | EvConnect _ port sock :: rest => (port, sock) :: connections rest
  | _ :: rest => connections rest
  end.

(** The sockets closed among some events, in order. *)
Fixpoint closes (events : list event) : list socket :=
  match events with
  | [] => []
  | EvClose sock :: rest => sock :: closes rest
  | _ :: rest => closes rest
  end.

(** The sends and receives among some events. *)
Fixpoint exchanges (events : list event) : list event :=
  match events with
  | [] => []
  | EvSend sock data ok :: rest => EvSend sock data ok :: exchanges rest
  | EvRecv sock n data :: rest => EvRecv sock n data :: exchanges rest
  | _ :: rest => exchanges rest
  end.

(** What is left of the open sockets [open] after closing [closed]. *)
Definition without (closed open : list socket) : list socket :=
  fold_left (fun o s => filter (fun x => negb (Nat.eqb x s)) o) closed open.

(** ** Stream decoder *)

(** The frames that a listener has cut out of its buffer, in order. *)
Fixpoint frames (events : list event) : list bytes :=
  match events with
  | [] => []
  | EvFrame raw_data :: rest => raw_data :: frames rest
  | _ :: rest => frames rest
  end.

(** The telemetry messages sent, in order. *)
Fixpoint telemetry (events : list event) : list (string * pyvalue) :=
  match events with
  | [] => []
  | EvOsc address value :: rest => (address, value) :: telemetry rest
  | _ :: rest => telemetry rest
  end.

(** The receives from the [k]-th on bring [chunks], one after the other. *)
Fixpoint delivers (e : environment) (k : nat) (chunks : list bytes) : Prop :=
  match chunks with
  | [] => True
  | chunk :: rest => recv_data e k = Some chunk /\ delivers e (S k) rest
  end.

(** What the [k]-th [recv(4096)] returns, and nothing if it raises. *)
Definition chunk_at (e : environment) (k : nat) : bytes :=
  match recv_data e k with
  | Some data => take 4096 data
  | None => []
  end.

(** The bytes that the [n] receives from the [k]-th on return. *)
Definition received (e : environment) (k n : nat) : bytes :=
  List.concat (map (chunk_at e) (seq k n)).

(** A chunk that [recv(4096)] can return while the peer is connected. *)
Definition chunk_ok (chunk : bytes) : Prop := chunk <> [] /\ blen chunk <= 4096.

(** The decoder after the header test of an iteration. *)
Definition header_read (d : decoder) : decoder :=
  match expected_length d with
  | None =>
      if 16 <=? blen (buffer d)
      then match parse_data_length (take 16 (buffer d)) with
           | Some n => mk_decoder (drop 16 (buffer d)) (Some n)
           | None => d
           end
      else d
  | Some _ => d
  end.

(** A computation that leaves the environment and the receive counter as
    they are and cuts no frame: what a frame handler is. *)
Definition steady (w w' : world) : Prop :=
  env w' = env w /\ recvs w' = recvs w
  /\ frames (trace w') = frames (trace w).

Definition Steady {A : Type} (m : M A) : Prop :=
  forall w, steady w (snd (m w)).

(** Where the decoder stands while the frame [header ++ body] is arriving
    and [chunks] are still to come: in the header with fewer than 16 bytes,
    or in the body with fewer bytes than declared. *)
Definition arriving (header body : bytes) (d : decoder)
    (chunks : list bytes) : Prop :=
  (expected_length d = None /\ blen (buffer d) < 16
   /\ buffer d ++ List.concat chunks = header ++ body)
  \/ (expected_length d = Some (blen body) /\ blen (buffer d) < blen body
      /\ buffer d ++ List.concat chunks = body).

(** A stream frame whose body is the two bytes of the JSON text [{}], cut
    into three chunks, and an environment that delivers the chunks. *)
Definition sample_header : bytes := le_encode 12 0 ++ le_encode 4 2.
Definition sample_body : bytes := [x7b; x7d].
Definition sample_chunks : list bytes :=
  [take 5 sample_header;
   drop 5 sample_header ++ take 1 sample_body;
   drop 1 sample_body].
Definition sample_stream : environment :=
  environment_with (fun k => nth_error sample_chunks k)
                   (fun _ => Ok (PyDict [])).

(** A header that declares an empty body, followed by a complete frame, and
    an environment that delivers them in two chunks. *)
Definition empty_header : bytes := le_encode 12 0 ++ le_encode 4 0.
Definition stalled_stream : environment :=
  environment_with
    (fun k => nth_error [empty_header; sample_header ++ sample_body] k)
    (fun _ => Ok (PyDict [])).

(** ** Telemetry *)

(** The world after some more events, everything else being as it was. *)
Definition after (w : world) (events : list event) : world :=
  mk_world (env w) (connects w) (sends w) (recvs w) (open_sockets w)
           (trace w ++ events) (glob w).

(** The world in which [/sensors] has selected [sensors]. *)
Definition selecting (sensors : list Z) (w : world) : world :=
  snd (change_current_sensors "/sensors" (map PyInt sensors) w).








(** ** Configuration *)

(** The data sent among some events: socket and bytes, in order. *)
Fixpoint sent (events : list event) : list (socket * bytes) :=
  match events with
  | [] => []
  | EvSend sock data _ :: rest => (sock, data) :: sent rest
  | _ :: rest => sent rest
  end.

(** The packet of a command. *)
Definition command_packet (command : Command) : bytes :=
  le_encode 4 VERSION ++ le_encode 4 (Command_value command).

(** The packet of an extra-data payload. *)
Definition extra_packet (e : environment) (payload : pyvalue) : bytes :=
  le_encode 4 VERSION ++ le_encode 4 (blen (json_dumps e payload))
  ++ json_dumps e payload.

(** The four sends of the resend sequence for the descriptor [config] named
    [name], over the sockets [s0] and [s1]. *)
Definition resend_sequence (e : environment) (s0 s1 : socket) (name : string)
    (config : pyvalue) : list (socket * bytes) :=
  [(s0, command_packet REMOVE_ANALYZER);
   (s1, extra_packet e (PyDict [("analyzer", PyStr name)]));
   (s0, command_packet ADD_ANALYZER);
   (s1, extra_packet e config)].

(** How many of [n] steps in a row run when each is one round trip, the
    first using the [s]-th send and the [r]-th receive: a step runs when all
    before it succeeded. *)
Fixpoint steps_run (e : environment) (s r : nat) (n : nat) : nat :=
  match n with
  | O => O
  | S m => if round_trip_ok_at e s r then S (steps_run e (S s) (S r) m) else 1%nat
  end.

(** The channel and the threshold that the first trigger of event [i] of a
    descriptor holds. *)
Definition trigger_channel (config : pyvalue) (i : Z) : result pyvalue :=
  get_path config (trigger_path i ++ [Key "channel"]).
Definition trigger_value (config : pyvalue) (i : Z) : result pyvalue :=
  get_path config (trigger_path i ++ [Key "value"]).

(** An environment in which everything succeeds and every response is
    [sample_response], and the world after [main] has connected in it. *)
Definition obliging : environment :=
  environment_with (fun _ => Some sample_response)
                   (fun _ => Raise JSONDecodeError).
Definition connected_world : world := snd (main_connect (start_world obliging)).

(** ** Further vocabulary *)

(** A response as the server encodes it. *)
Definition encode_response (version timestamp status : Z) : bytes :=
  le_encode 4 version ++ le_encode 8 timestamp ++ le_encode 4 status.

(** An event of listening: a receive, a frame cut out, a telemetry message
    or a log line. *)
Definition is_listening (e : event) : Prop :=
  match e with
  | EvRecv _ _ _ | EvFrame _ | EvOsc _ _ | EvLog _ _ => True
  | _ => False
  end.

(** From [w] to [w'] nothing but listening happened: no connection, no send,
    no close, no change of the globals. *)
Definition listens (w w' : world) : Prop :=
  env w' = env w /\ connects w' = connects w /\ sends w' = sends w
  /\ open_sockets w' = open_sockets w /\ glob w' = glob w
  /\ exists events, trace w' = trace w ++ events /\ Forall is_listening events.

Definition Listens {A : Type} (m : M A) : Prop :=
  forall w, listens w (snd (m w)).

(** Whether a listener has left its loop. *)
Definition returned {S : Type} (c : control S) : bool :=
  match c with
  | Break => true
  | Continue _ => false
  end.

(** What a listener that was started in [w] has done by [w']: it has logged
    its banner and listened, and when it has returned it has closed its
    socket and logged [line], in this order and as the last things it did. *)
Definition listener_outcome (banner : event) (line : string) (sock : socket)
    (w : world) (has_returned : bool) (w' : world) : Prop :=
  env w' = env w /\ connects w' = connects w /\ sends w' = sends w
  /\ glob w' = glob w
  /\ exists events,
       Forall is_listening events
       /\ if has_returned
          then trace w' = trace w ++ banner :: events
                                 ++ [EvClose sock; EvLog INFO line]
               /\ open_sockets w' = without [sock] (open_sockets w)
          else trace w' = trace w ++ banner :: events
               /\ open_sockets w' = open_sockets w.

(** The world after the next [recv(4096)] on [sock]. *)
Definition heard (sock : socket) (w : world) : world :=
  mk_world (env w) (connects w) (sends w) (S (recvs w)) (open_sockets w)
           (trace w ++ [EvRecv sock 4096
                          (option_map (take 4096)
                                      (recv_data (env w) (recvs w)))])
           (glob w).

(** The world after a listener has closed [sock] and logged [line]. *)
Definition closed (sock : socket) (line : string) (w : world) : world :=
  mk_world (env w) (connects w) (sends w) (recvs w)
           (without [sock] (open_sockets w))
           (trace w ++ [EvClose sock; EvLog INFO line]) (glob w).

(** How an iteration of a listener ends once the handler of a frame has run:
    it goes on with the locals that the handler returns; on a
    [JSONDecodeError] it logs [json_line] and goes on with the locals
    [reset]; on any other exception it logs [error_line] and leaves the
    loop. *)
Definition handled {S : Type} (json_line error_line : string) (reset : S)
    (run : result S * world) : result (control S) * world :=
  match run with
  | (Ok s, w) => (Ok (Continue s), w)
  | (Raise e, w) =>
      if isinstance e ClsJSONDecodeError
      then (Ok (Continue reset), after w [EvLog ERROR json_line])
      else (Ok Break, after w [EvLog ERROR error_line])
  end.

(** The lines that the listeners log. *)
Definition data_json_line : string :=
  "JSON decode error in live data. Resetting buffer.".
Definition data_error_line : string := "Error processing data".
Definition data_closed_line : string := "Live data connection closed".
Definition analyses_json_line : string :=
  "JSON decode error in analysis data. Resetting buffer.".
Definition analyses_error_line : string := "Error processing analysis data".
Definition analyses_closed_line : string := "Live analysis connection closed".

(** The error line of a receive that raised, and nothing after a chunk. *)
Definition receive_error (line : string) (w : world) : list event :=
  match recv_data (env w) (recvs w) with
  | Some _ => []
  | None => [EvLog ERROR line]
  end.


(** The exceptions that the [except] clause of the three handlers lets
    through. *)
Definition escapes_handler (e : exn) : bool :=
  negb (existsb (isinstance e) [ClsValueError; ClsIndexError]).

(** The first line that either listener logs. *)
Definition data_banner : event :=
  EvLog INFO ("Sending live data via OSC on " ++ OSC_IP ++ ":"
              ++ str_of_int OSC_PORT)%string.
Definition analyses_banner : event :=
  EvLog INFO ("Sending live analyses via OSC on " ++ OSC_IP ++ ":"
              ++ str_of_int OSC_PORT)%string.




(** The decoder after the header test of the iteration that starts in [w]
    with the locals [d]. *)
Definition next_decoder (d : decoder) (w : world) : decoder :=
  header_read (mk_decoder (buffer d ++ chunk_at (env w) (recvs w))
                          (expected_length d)).



(** Whether a JSON array holds the string ["data"]. *)
Definition holds_data (items : list pyvalue) : bool :=
  existsb (fun x => match x with
                    | PyStr s => String.eqb s "data"
                    | _ => false
                    end) items.

(** A frame followed in its chunk by two bytes of the next, and an
    environment whose decoder of JSON rejects every body. *)
Definition garbled_stream : environment :=
  environment_with
    (fun k => nth_error [sample_header ++ sample_body ++ [x01; x02]] k)
    (fun _ => Raise JSONDecodeError).

(** An environment whose decoder rejects every body as no UTF-8. *)
Definition binary_stream : environment :=
  environment_with (fun k => nth_error [sample_header ++ sample_body] k)
                   (fun _ => Raise UnicodeDecodeError).

(** An environment that decodes every body to a JSON array. *)
Definition array_stream : environment :=
  environment_with (fun k => nth_error [sample_header ++ sample_body] k)
                   (fun _ => Ok (PyList [PyInt 1])).


(** The entries of a group of a data frame: the list under ["data"] of the
    mapping under ["data"]. *)
Definition entries_of (group : pyvalue) : option (list pyvalue) :=
  match group with
  | PyDict outer =>
      match dict_get outer "data" with
      | Some (PyDict inner) =>
          match dict_get inner "data" with
          | Some (PyList entries) => Some entries
          | _ => None
          end
      | _ => None
      end
  | _ => None
  end.

(** A data frame of two groups whose entries share the timestamp 1.0. *)
Definition two_groups : list (string * pyvalue) :=
  [("emg", PyDict [("data",
                    PyDict [("data",
                             PyList [PyList [PyFloat 1;
                                             PyList [PyFloat 0.5]]])])]);
   ("imu", PyDict [("data",
                    PyDict [("data",
                             PyList [PyList [PyFloat 1;
                                             PyList [PyFloat 2]]])])])].
(* ================================================================= *)
(** * Properties *)

(* ================================================================= *)
(** ** Codec *)


Lemma byte_val_of_Z (z : Z) : byte_val (byte_of_Z z) = z mod 256.
Proof.
  unfold byte_val, byte_of_Z.
  assert (R : 0 <= z mod 256 < 256) by (apply Z.mod_pos_bound; lia).
  destruct (Byte.of_N (Z.to_N (z mod 256))) as [b|] eqn:E.
  - apply Byte.to_of_N in E. rewrite E. lia.
  - pose proof (Byte.to_of_N_option_map (Z.to_N (z mod 256))) as H.
    rewrite E in H. simpl in H.
    destruct (N.leb_spec (Z.to_N (z mod 256)) 255); [discriminate | lia].
Qed.


Lemma le_encode_length (n : nat) (z : Z) : List.length (le_encode n z) = n.
Proof.
  revert z. induction n as [|n IH]; intro z; simpl; [reflexivity|].
  now rewrite IH.
Qed.

(** Decoding an encoding gives the value back, reduced to the width. *)
Lemma le_decode_encode (n : nat) (z : Z) :
  le_decode (le_encode n z) = z mod 256 ^ Z.of_nat n.
Proof.
  revert z. induction n as [|n IH]; intro z.
  - simpl. now rewrite Z.mod_1_r.
  - cbn [le_encode le_decode]. rewrite byte_val_of_Z, IH.
    rewrite Nat2Z.inj_succ, Z.pow_succ_r by lia.
    rewrite Z.rem_mul_r by lia. lia.
Qed.

Lemma blen_app (a b : bytes) : blen (a ++ b) = blen a + blen b.
Proof. unfold blen. rewrite length_app. lia. Qed.

Lemma blen_nonneg (b : bytes) : 0 <= blen b.
Proof. unfold blen. lia. Qed.

Lemma take_app_exact (a b : bytes) (n : Z) :
  blen a = n -> take n (a ++ b) = a.
Proof.
  unfold take, blen. intros <-. rewrite Nat2Z.id.
  rewrite firstn_app, Nat.sub_diag, firstn_all. simpl. apply app_nil_r.
Qed.

Lemma drop_app_exact (a b : bytes) (n : Z) :
  blen a = n -> drop n (a ++ b) = b.
Proof.
  unfold drop, blen. intros <-. rewrite Nat2Z.id.
  rewrite skipn_app, Nat.sub_diag, skipn_all. reflexivity.
Qed.

(** The clock fields of [gmtime_seconds] are the second of the day, split
    into hours, minutes and seconds. *)
Lemma gmtime_seconds_clock (secs : Z) :
  let tm := gmtime_seconds secs in
  0 <= tm_hour tm < 24 /\ 0 <= tm_min tm < 60 /\ 0 <= tm_sec tm < 60
  /\ tm_hour tm * 3600 + tm_min tm * 60 + tm_sec tm = secs mod 86400.
Proof.
  cbv zeta. unfold gmtime_seconds.
  destruct (civil_from_days (secs / 86400)) as [[y m] d].
  cbn [tm_hour tm_min tm_sec].
  pose proof (Z.mod_pos_bound secs 86400 ltac:(lia)) as R.
  set (r := secs mod 86400) in *.
  pose proof (Z.div_mod r 3600 ltac:(lia)) as H1.
  pose proof (Z.mod_pos_bound r 3600 ltac:(lia)) as R1.
  pose proof (Z.div_mod (r mod 3600) 60 ltac:(lia)) as H2.
  pose proof (Z.mod_pos_bound (r mod 3600) 60 ltac:(lia)) as R2.
  assert (M : r mod 60 = (r mod 3600) mod 60).
  { symmetry. apply Z.mod_mod_divide. now exists 60. }
  rewrite M.
  assert (0 <= r / 3600 < 24)
    by (split; [apply Z.div_pos; lia | apply Z.div_lt_upper_bound; lia]).
  assert (0 <= r mod 3600 / 60 < 60)
    by (split; [apply Z.div_pos; lia | apply Z.div_lt_upper_bound; lia]).
  lia.
Qed.

Lemma interpret_response_cases (response : bytes) :
  let version := le_decode (take 4 response) in
  let timestamp := le_decode (take 8 (drop 4 response)) in
  let status := le_decode (take 4 (drop 12 response)) in
  (has_error (interpret_response response) = true <->
   blen response <> 16 \/ version <> VERSION) /\
  (blen response = 16 /\ version = VERSION ->
   interpret_response response =
   ResponseParsed VERSION timestamp
     (time_strftime
        (gmtime_seconds (float_floor (float_of_int timestamp / float_of_int 1000))))
     status).
Proof.
  cbv zeta. unfold interpret_response, struct_unpack_IQI, time_gmtime.
  destruct response as [|b r].
  - cbn [orb]. split.
    + split; [intros _; left; unfold blen; simpl; lia | reflexivity].
    + intros [H _]. unfold blen in H. simpl in H. lia.
  - cbn [orb]. destruct (Z.eqb_spec (blen (b :: r)) 16) as [L|L]; cbn [negb].
    + destruct (Z.eqb_spec (le_decode (take 4 (b :: r))) VERSION) as [V|V];
        cbn [negb has_error].
      * split.
        -- split; [discriminate | intros [H|H]; contradiction].
        -- intros _. rewrite V. reflexivity.
      * split.
        -- split; [intros _; now right | reflexivity].
        -- intros [_ H]. contradiction.
    + cbn [has_error]. split.
      * split; [intros _; now left | reflexivity].
      * intros [H _]. contradiction.
Qed.



(* ================================================================= *)
(** ** Command channel *)

Ltac world_simpl :=
  cbn [env connects sends recvs open_sockets trace glob
       andb orb negb existsb isinstance option_map].

Ltac world_simpl_in E R F :=
  cbn [env connects sends recvs open_sockets trace glob] in E, R, F.

Lemma to_packet_Command (command : Command) :
  to_packet (Command_value command)
  = Some (le_encode 4 VERSION ++ le_encode 4 (Command_value command)).
Proof. destruct command; reflexivity. Qed.

(** The run of [send_command], spelled out: it never raises, returns the
    outcome of the round trip, and changes the counters and the trace only. *)
Lemma send_command_run (sock : socket) (command : Command) (w : world) :
  let packet := le_encode 4 VERSION ++ le_encode 4 (Command_value command) in
  let ok := send_ok (env w) (sends w) in
  let data := option_map (take 16) (recv_data (env w) (recvs w)) in
  exists logs,
    send_command sock command w
    = (Ok (round_trip_ok w),
       mk_world (env w) (connects w) (S (sends w))
                (if ok then S (recvs w) else recvs w) (open_sockets w)
                (trace w ++ EvSend sock packet ok
                   :: (if ok
                       then [EvLog INFO (sent_message command);
                             EvRecv sock 16 data]
                       else [])
                   ++ logs)
                (glob w))
    /\ if round_trip_ok w then logs = [] else exists msg, logs = [EvLog ERROR msg].
Proof.
  cbv zeta. unfold send_command, round_trip_ok, round_trip_ok_at, response_ok,
    sent_message.
  rewrite to_packet_Command.
  unfold bind at 1. unfold lift at 1.
  unfold try_except, bind, sendall, recv, log_message, emit, ret.
  world_simpl.
  destruct (send_ok (env w) (sends w)); world_simpl.
  - destruct (recv_data (env w) (recvs w)) as [resp|]; world_simpl.
    + destruct (interpret_response (take 16 resp)) as [err raw|v t h status];
        world_simpl.
      * eexists. split; [rewrite <- !app_assoc; reflexivity|]. eexists; reflexivity.
      * destruct (status =? 1); world_simpl.
        -- eexists. split; [rewrite <- !app_assoc; reflexivity|]. reflexivity.
        -- eexists. split; [rewrite <- !app_assoc; reflexivity|]. eexists; reflexivity.
    + eexists. split; [rewrite <- !app_assoc; reflexivity|]. eexists; reflexivity.
  - eexists. split; [rewrite <- !app_assoc; reflexivity|]. eexists; reflexivity.
Qed.

Lemma response_ok_iff (resp : bytes) :
  response_ok resp = true
  <-> exists v t h, interpret_response resp = ResponseParsed v t h 1.
Proof.
  unfold response_ok. destruct (interpret_response resp) as [e r|v t h s].
  - split; [discriminate | intros (? & ? & ? & ?); discriminate].
  - split.
    + intros H. apply Z.eqb_eq in H. subst s. now exists v, t, h.
    + intros (? & ? & ? & H). injection H as _ _ _ ->. reflexivity.
Qed.

Lemma round_trip_ok_iff (w : world) :
  round_trip_ok w = true
  <-> send_ok (env w) (sends w) = true
      /\ exists resp v t h,
           recv_data (env w) (recvs w) = Some resp
           /\ interpret_response (take 16 resp) = ResponseParsed v t h 1.
Proof.
  unfold round_trip_ok, round_trip_ok_at. rewrite andb_true_iff.
  destruct (recv_data (env w) (recvs w)) as [resp|].
  - rewrite response_ok_iff. split.
    + intros [S (v & t & h & I)]. split; [exact S|]. now exists resp, v, t, h.
    + intros [S (r & v & t & h & E & I)]. injection E as <-.
      split; [exact S|]. now exists v, t, h.
  - split; [intros [_ H]; discriminate | intros [_ (? & ? & ? & ? & E & _)]; discriminate].
Qed.

Lemma packet_fields (command : Command) :
  let packet := le_encode 4 VERSION ++ le_encode 4 (Command_value command) in
  blen packet = 8
  /\ le_decode (take 4 packet) = VERSION
  /\ le_decode (drop 4 packet) = Command_value command.
Proof.
  cbv zeta. split; [|split].
  - rewrite blen_app. unfold blen. rewrite !le_encode_length. reflexivity.
  - rewrite take_app_exact by (unfold blen; now rewrite le_encode_length).
    reflexivity.
  - rewrite drop_app_exact by (unfold blen; now rewrite le_encode_length).
    rewrite le_decode_encode. destruct command; reflexivity.
Qed.

(** C8. [send_command] sends the eight bytes made of [VERSION] and then the
    command code, each as a little-endian 32-bit field, and, when the send
    went through, reads up to 16 bytes from the same socket.  It never
    raises.  It returns [True] exactly when the send succeeded, the receive
    succeeded, and the bytes received decode to a response whose status is 1;
    whenever it returns [False] - socket error, wrong length, wrong version,
    other status - an error line has been logged. *)
Theorem send_command_spec (sock : socket) (command : Command) (w : world) :
  let packet := le_encode 4 VERSION ++ le_encode 4 (Command_value command) in
  let ok := send_ok (env w) (sends w) in
  let received := recv_data (env w) (recvs w) in
  exists (b : bool) (w' : world) (events : list event),
    to_packet (Command_value command) = Some packet
    /\ blen packet = 8
    /\ le_decode (take 4 packet) = VERSION
    /\ le_decode (drop 4 packet) = Command_value command
    /\ send_command sock command w = (Ok b, w')
    /\ trace w' = trace w ++ EvSend sock packet ok :: events
    /\ (ok = true ->
        exists logs,
          events = EvLog INFO (sent_message command)
                   :: EvRecv sock 16 (option_map (take 16) received) :: logs)
    /\ (b = true <->
        ok = true
        /\ exists resp v t h,
             received = Some resp
             /\ interpret_response (take 16 resp) = ResponseParsed v t h 1)
    /\ (b = false -> exists msg, In (EvLog ERROR msg) events).
Proof.
  cbv zeta.
  destruct (send_command_run sock command w) as (logs & Run & Logs).
  destruct (packet_fields command) as (L & V & C).
  eexists _, _, _. split; [apply to_packet_Command|].
  split; [exact L|]. split; [exact V|]. split; [exact C|].
  split; [exact Run|]. world_simpl. split; [reflexivity|].
  split; [|split].
  - intros ->. now exists logs.
  - apply round_trip_ok_iff.
  - intros F. rewrite F in Logs. destruct Logs as [msg ->]. exists msg.
    apply in_or_app. right. now left.
Qed.

(** C8 at a peer that answers the command with [sample_response]. *)
Lemma send_command_sample :
  fst (send_command 0%nat ADD_ANALYZER
         (start_world (environment_with (fun _ => Some sample_response)
                                        (fun _ => Raise JSONDecodeError))))
  = Ok true.
Proof.
  destruct (send_command_spec 0%nat ADD_ANALYZER
              (start_world (environment_with (fun _ => Some sample_response)
                                             (fun _ => Raise JSONDecodeError))))
    as (b & w' & events & _ & _ & _ & _ & Run & _ & _ & Iff & _).
  rewrite Run. cbn [fst]. f_equal. apply Iff. split; [reflexivity|].
  exists sample_response, 1, 1700000000123, "2023-11-14 22:13:20".
  split; [reflexivity | vm_compute; reflexivity].
Defined.

(* ================================================================= *)
(** ** Connection manager *)

Lemma for_each_close (sockets : list socket) (w : world) :
  for_each sockets close w
  = (Ok tt, mk_world (env w) (connects w) (sends w) (recvs w)
                     (without sockets (open_sockets w))
                     (trace w ++ map EvClose sockets) (glob w)).
Proof.
  revert w. induction sockets as [|s rest IH]; intro w.
  - cbn. rewrite app_nil_r. now destruct w.
  - cbn [for_each]. unfold bind at 1. unfold close at 1. rewrite IH.
    world_simpl. cbn [map without fold_left]. now rewrite <- app_assoc.
Qed.

Lemma connect_ports_ok (host : string) (ports : list Z) :
  forall (sockets : list socket) (w : world),
    (forall i, (i < List.length ports)%nat ->
               connect_ok (env w) (connects w + i) = true) ->
    connect_ports host ports sockets w
    = (Ok (Some (sockets ++ seq (connects w) (List.length ports))),
       mk_world (env w) (connects w + List.length ports) (sends w) (recvs w)
                (open_sockets w ++ seq (connects w) (List.length ports))
                (trace w ++ connected_events host ports (connects w))
                (glob w)).
Proof.
  induction ports as [|port rest IH]; intros sockets w H.
  - cbn. rewrite !app_nil_r, Nat.add_0_r. now destruct w.
  - cbn [connect_ports]. unfold bind at 1.
    unfold try_except, bind, create_connection, log_message, emit, ret.
    rewrite <- (Nat.add_0_r (connects w)) at 1.
    rewrite H by (cbn; lia). world_simpl.
    rewrite IH.
    + world_simpl. cbn [List.length seq connected_events].
      rewrite <- !app_assoc. cbn [app].
      now rewrite Nat.add_succ_r.
    + intros i Hi. world_simpl. cbn [Nat.add].
      rewrite <- Nat.add_succ_r. apply H. cbn. lia.
Qed.

Lemma connect_ports_fail (host : string) (good : list Z) (bad : Z)
    (rest : list Z) :
  forall (sockets : list socket) (w : world),
    (forall i, (i < List.length good)%nat ->
               connect_ok (env w) (connects w + i) = true) ->
    connect_ok (env w) (connects w + List.length good) = false ->
    let opened := seq (connects w) (List.length good) in
    connect_ports host (good ++ bad :: rest) sockets w
    = (Ok None,
       mk_world (env w) (S (connects w + List.length good)) (sends w) (recvs w)
                (without (sockets ++ opened) (open_sockets w ++ opened))
                (trace w ++ connected_events host good (connects w)
                   ++ EvConnect host bad None
                   :: EvLog ERROR ("Error connecting to " ++ host ++ ":"
                                   ++ str_of_int bad)%string
                   :: map EvClose (sockets ++ opened))
                (glob w)).
Proof.
  induction good as [|port good IH]; intros sockets w H F; cbv zeta.
  - cbn [app List.length seq connected_events connect_ports].
    rewrite Nat.add_0_r in *.
    unfold bind at 1.
    unfold try_except at 1. unfold bind at 1. unfold create_connection at 1.
    rewrite F. world_simpl.
    unfold bind at 1. unfold log_message, emit. world_simpl.
    unfold bind at 1. rewrite for_each_close. world_simpl.
    unfold ret. rewrite !app_nil_r, <- !app_assoc. reflexivity.
  - cbn [app connect_ports]. unfold bind at 1.
    unfold try_except, bind, create_connection, log_message, emit, ret.
    rewrite <- (Nat.add_0_r (connects w)) at 1.
    rewrite H by (cbn; lia). world_simpl.
    rewrite IH.
    + world_simpl. cbn [List.length seq connected_events].
      rewrite <- !app_assoc. cbn [app].
      now rewrite Nat.add_succ_r.
    + intros i Hi. world_simpl. cbn [Nat.add].
      rewrite <- Nat.add_succ_r. apply H. cbn. lia.
    + world_simpl. cbn [Nat.add]. rewrite <- Nat.add_succ_r. exact F.
Qed.

Lemma connections_app (a b : list event) :
  connections (a ++ b) = connections a ++ connections b.
Proof.
  induction a as [|e a IH]; [reflexivity|].
  destruct e; cbn [app connections]; now rewrite IH.
Qed.

Lemma closes_app (a b : list event) : closes (a ++ b) = closes a ++ closes b.
Proof.
  induction a as [|e a IH]; [reflexivity|].
  destruct e; cbn [app closes]; now rewrite IH.
Qed.

Lemma exchanges_app (a b : list event) :
  exchanges (a ++ b) = exchanges a ++ exchanges b.
Proof.
  induction a as [|e a IH]; [reflexivity|].
  destruct e; cbn [app exchanges]; now rewrite IH.
Qed.

Lemma connected_events_projections (host : string) (ports : list Z) :
  forall c,
    connections (connected_events host ports c)
    = combine ports (map Some (seq c (List.length ports)))
    /\ closes (connected_events host ports c) = []
    /\ exchanges (connected_events host ports c) = [].
Proof.
  induction ports as [|p rest IH]; intro c; [now cbn|].
  destruct (IH (S c)) as (A & B & C).
  cbn [connected_events connections closes exchanges List.length seq map combine].
  now rewrite A, B, C.
Qed.

Lemma close_events_projections (sockets : list socket) :
  connections (map EvClose sockets) = []
  /\ closes (map EvClose sockets) = sockets
  /\ exchanges (map EvClose sockets) = [].
Proof.
  induction sockets as [|s rest (A & B & C)]; [now cbn|].
  cbn [map connections closes exchanges]. now rewrite A, B, C.
Qed.

Lemma without_filter (closed open : list socket) :
  without closed open
  = filter (fun x => negb (existsb (Nat.eqb x) closed)) open.
Proof.
  unfold without. revert open.
  induction closed as [|s rest IH]; intro open; cbn [fold_left existsb].
  - cbn. induction open as [|x open IHo]; [reflexivity|]. cbn. now rewrite <- IHo.
  - rewrite IH. induction open as [|x open IHo]; [reflexivity|].
    cbn [filter]. destruct (Nat.eqb x s); cbn [negb orb filter]; now rewrite IHo.
Qed.

(** Closing the sockets [c], ..., [c + k - 1] that were opened on top of
    older ones leaves exactly the older ones open. *)
Lemma without_opened (open : list socket) (c k : nat) :
  Forall (fun s => (s < c)%nat) open ->
  without (seq c k) (open ++ seq c k) = open.
Proof.
  intro Old. rewrite without_filter, filter_app.
  assert (Keep : filter (fun x => negb (existsb (Nat.eqb x) (seq c k))) open = open).
  { induction Old as [|x open Hx _ IH]; [reflexivity|].
    cbn [filter]. rewrite IH.
    destruct (existsb (Nat.eqb x) (seq c k)) eqn:E; [|reflexivity].
    apply existsb_exists in E. destruct E as (y & Hy & Exy).
    apply Nat.eqb_eq in Exy. subst y. apply in_seq in Hy. lia. }
  assert (Gone : forall l, incl l (seq c k) ->
            filter (fun x => negb (existsb (Nat.eqb x) (seq c k))) l = []).
  { induction l as [|x l IH]; intro I; [reflexivity|].
    cbn [filter].
    assert (E : existsb (Nat.eqb x) (seq c k) = true).
    { apply existsb_exists. exists x. split; [apply I; now left | apply Nat.eqb_refl]. }
    rewrite E. cbn [negb]. apply IH. intros y Hy. apply I. now right. }
  transitivity (open ++ []); [|apply app_nil_r].
  f_equal; [exact Keep | exact (Gone _ (incl_refl _))].
Qed.

(** C6. When a connection attempt fails - the ports [good] before it having
    been connected - [connect_and_handshake] returns [False]; it has tried
    the ports in their order, one connection each, and none after the failed
    one; it has closed every socket it had opened, in the order of opening,
    so that the open sockets are those of before the call; and it has sent
    and received nothing: no handshake was attempted. *)
Theorem connect_all_or_nothing (host : string) (good : list Z) (bad : Z)
    (rest : list Z) (w : world) :
  let c := connects w in
  let opened := seq c (List.length good) in
  (forall i, (i < List.length good)%nat -> connect_ok (env w) (c + i) = true) ->
  connect_ok (env w) (c + List.length good) = false ->
  Forall (fun s => (s < c)%nat) (open_sockets w) ->
  exists (w' : world) (events : list event),
    connect_and_handshake host (good ++ bad :: rest) w = (Ok ReturnFalse, w')
    /\ trace w' = trace w ++ events
    /\ connections events = combine good (map Some opened) ++ [(bad, None)]
    /\ closes events = opened
    /\ exchanges events = []
    /\ open_sockets w' = open_sockets w
    /\ connects w' = S (c + List.length good).
Proof.
  cbv zeta. intros Good Bad Old.
  unfold connect_and_handshake, bind.
  rewrite (connect_ports_fail host good bad rest [] w Good Bad).
  unfold ret. cbn [app].
  eexists _, _. split; [reflexivity|]. world_simpl.
  split; [reflexivity|].
  destruct (connected_events_projections host good (connects w)) as (A & B & C).
  destruct (close_events_projections (seq (connects w) (List.length good)))
    as (A' & B' & C').
  rewrite connections_app, closes_app, exchanges_app.
  cbn [connections closes exchanges].
  rewrite A, B, C, A', B', C'.
  repeat split; try reflexivity.
  now apply without_opened.
Qed.

(** C6 at the four ports of the bridge when the third connection fails: the
    first two sockets are closed again and nothing is sent. *)
Lemma connect_third_of_four_fails :
  exists (w' : world) (events : list event),
    connect_and_handshake EMG_HOST EMG_PORTS
      (start_world
         (mk_environment (fun k => negb (Nat.eqb k 2)) (fun _ => true)
                         (fun _ => Some sample_response)
                         (fun _ => Raise JSONDecodeError) (fun _ => [])
                         (fun _ => None) (fun _ => None)))
    = (Ok ReturnFalse, w')
    /\ trace w' = events
    /\ connections events = [(5123, Some 0%nat); (5124, Some 1%nat); (5125, None)]
    /\ closes events = [0%nat; 1%nat]
    /\ exchanges events = []
    /\ open_sockets w' = []
    /\ connects w' = 3%nat.
Proof.
  apply (connect_all_or_nothing EMG_HOST [5123; 5124] 5125 [5126]
           (start_world
              (mk_environment (fun k => negb (Nat.eqb k 2)) (fun _ => true)
                              (fun _ => Some sample_response)
                              (fun _ => Raise JSONDecodeError) (fun _ => [])
                              (fun _ => None) (fun _ => None)))).
  - intros i Hi. cbn in Hi. cbn.
    destruct i as [|[|i]]; [reflexivity | reflexivity | lia].
  - reflexivity.
  - constructor.
Defined.



(* ================================================================= *)
(** ** Stream decoder *)

Lemma frames_app (a b : list event) : frames (a ++ b) = frames a ++ frames b.
Proof.
  induction a as [|e a IH]; [reflexivity|].
  destruct e; cbn [app frames]; now rewrite IH.
Qed.

Lemma steady_refl (w : world) : steady w w.
Proof. now repeat split. Qed.

Lemma steady_trans (w1 w2 w3 : world) :
  steady w1 w2 -> steady w2 w3 -> steady w1 w3.
Proof.
  intros (A & B & C) (A' & B' & C'). repeat split; congruence.
Qed.

Lemma Steady_ret {A : Type} (a : A) : Steady (ret a).
Proof. intro w. apply steady_refl. Qed.

Lemma Steady_lift {A : Type} (r : result A) : Steady (lift r).
Proof. intro w. apply steady_refl. Qed.

Lemma Steady_get_globals : Steady get_globals.
Proof. intro w. apply steady_refl. Qed.

Lemma Steady_get_env : Steady get_env.
Proof. intro w. apply steady_refl. Qed.

Lemma Steady_bind {A B : Type} (m : M A) (k : A -> M B) :
  Steady m -> (forall a, Steady (k a)) -> Steady (bind m k).
Proof.
  intros Hm Hk w. unfold bind. specialize (Hm w).
  destruct (m w) as [[a|e] w1]; cbn [snd] in *.
  - eapply steady_trans; [exact Hm | apply Hk].
  - exact Hm.
Qed.

Lemma Steady_try_except {A : Type} (body : M A) (cls : list exn_class)
    (handler : M A) :
  Steady body -> Steady handler -> Steady (try_except body cls handler).
Proof.
  intros Hb Hh w. unfold try_except. specialize (Hb w).
  destruct (body w) as [[a|e] w1]; cbn [snd] in *; [exact Hb|].
  destruct (existsb (isinstance e) cls); cbn [snd]; [|exact Hb].
  eapply steady_trans; [exact Hb | apply Hh].
Qed.

Lemma Steady_log_message (message : string) (lvl : level) :
  Steady (log_message message lvl).
Proof.
  intro w. unfold log_message, emit, steady. world_simpl. cbn [snd].
  world_simpl. rewrite frames_app. cbn. now rewrite app_nil_r.
Qed.

Lemma Steady_send_osc_message (address : string) (value : pyvalue) :
  Steady (send_osc_message address value).
Proof.
  intro w. unfold send_osc_message, emit, steady. cbn [snd].
  world_simpl. rewrite frames_app. cbn. now rewrite app_nil_r.
Qed.

Lemma Steady_for_each {A : Type} (xs : list A) (body : A -> M unit) :
  (forall x, Steady (body x)) -> Steady (for_each xs body).
Proof.
  intro Hb. induction xs as [|x rest IH]; cbn [for_each].
  - apply Steady_ret.
  - apply Steady_bind; [apply Hb | intros _; exact IH].
Qed.

Lemma Steady_fold_m {A S : Type} (xs : list A) (body : S -> A -> M S) :
  (forall s x, Steady (body s x)) -> forall s, Steady (fold_m xs s body).
Proof.
  intro Hb. induction xs as [|x rest IH]; intro s; cbn [fold_m].
  - apply Steady_ret.
  - apply Steady_bind; [apply Hb | intro s'; apply IH].
Qed.

Ltac steady :=
  repeat first
    [ apply Steady_ret | apply Steady_lift | apply Steady_get_globals
    | apply Steady_get_env | apply Steady_log_message
    | apply Steady_send_osc_message
    | apply Steady_bind; [|intro]
    | apply Steady_try_except
    | apply Steady_for_each; intro
    | apply Steady_fold_m; intros
    | match goal with |- Steady (if ?b then _ else _) => destruct b end
    | match goal with |- Steady (match ?x with _ => _ end) => destruct x end ].

Lemma Steady_send_channel (channels : pyvalue) (channel : Z) :
  Steady (send_channel channels channel).
Proof. unfold send_channel. steady. Qed.

Lemma Steady_process_entry (sent : list pyvalue) (entry : pyvalue) :
  Steady (process_entry sent entry).
Proof.
  unfold process_entry. steady.
Qed.

Lemma Steady_process_data_frame (sent : list pyvalue) (decoded : pyvalue) :
  Steady (process_data_frame sent decoded).
Proof.
  unfold process_data_frame, process_group. steady.
Qed.

Lemma Steady_loads (raw_data : bytes) : Steady (loads raw_data).
Proof. unfold loads. steady. Qed.

Lemma Steady_process_analysis (item : string * pyvalue) :
  Steady (process_analysis item).
Proof. unfold process_analysis. destruct item as [key analysis]. steady. Qed.

Lemma Steady_process_analyses_frame (decoded : pyvalue) :
  Steady (process_analyses_frame decoded).
Proof.
  unfold process_analyses_frame. steady. apply Steady_process_analysis.
Qed.

Lemma take_all (n : Z) (b : bytes) : blen b <= n -> take n b = b.
Proof.
  unfold take, blen. intro H. apply firstn_all2. lia.
Qed.

Lemma blen_take (n : Z) (b : bytes) :
  0 <= n <= blen b -> blen (take n b) = n.
Proof.
  unfold take, blen. intro H. rewrite length_firstn. lia.
Qed.

Lemma blen_drop (n : Z) (b : bytes) :
  0 <= n <= blen b -> blen (drop n b) = blen b - n.
Proof.
  unfold drop, blen. intro H. rewrite length_skipn. lia.
Qed.

(** On sixteen bytes the length field is always there. *)
Lemma parse_data_length_header (header : bytes) :
  blen header = 16 ->
  parse_data_length header = Some (le_decode (take 4 (drop 12 header))).
Proof.
  intro H. unfold parse_data_length, struct_unpack_I.
  rewrite blen_take; [reflexivity|]. rewrite blen_drop; lia.
Qed.

Lemma read_header_run (d : decoder) (w : world) :
  read_header d w = (Ok (header_read d), w).
Proof.
  unfold read_header, header_read.
  destruct (expected_length d); [reflexivity|].
  destruct (Z.leb_spec 16 (blen (buffer d))); [|reflexivity].
  rewrite parse_data_length_header by (apply blen_take; lia).
  reflexivity.
Qed.

Lemma Steady_data_frame (sent : list pyvalue) (raw_data : bytes)
    (d2 : decoder) :
  Steady
    (try_except
       (decoded_data <- loads raw_data ;;
        sent' <- process_data_frame sent decoded_data ;;
        ret (Continue (d2, sent')))
       [ClsJSONDecodeError]
       (log_message "JSON decode error in live data. Resetting buffer." ERROR ;;
        ret (Continue (mk_decoder [] None, sent)))).
Proof.
  steady.
Qed.

Lemma Steady_analyses_frame (raw_data : bytes) (d2 : decoder) :
  Steady
    (try_except
       (decoded_data <- loads raw_data ;;
        process_analyses_frame decoded_data ;;
        ret (Continue d2))
       [ClsJSONDecodeError]
       (log_message "JSON decode error in analysis data. Resetting buffer."
                    ERROR ;;
        ret (Continue (mk_decoder [] None)))).
Proof.
  steady. apply Steady_process_analysis.
Qed.

(** One iteration of the data listener on a chunk: it does not raise, it
    uses up one receive, and it cuts a frame exactly when one is ready
    after the header test. *)
Lemma live_data_iteration_chunk (sock : socket) (d : decoder)
    (sent : list pyvalue) (w : world) (chunk : bytes) :
  recv_data (env w) (recvs w) = Some chunk ->
  chunk_ok chunk ->
  let d1 := header_read (mk_decoder (buffer d ++ chunk) (expected_length d)) in
  exists r w',
    live_data_iteration sock (d, sent) w = (Ok r, w')
    /\ env w' = env w /\ recvs w' = S (recvs w)
    /\ match frame_ready d1 with
       | None => r = Continue (d1, sent)
                 /\ frames (trace w') = frames (trace w)
       | Some n => frames (trace w') = frames (trace w) ++ [take n (buffer d1)]
       end.
Proof.
  intros Recv [NonEmpty Small]. cbv zeta.
  unfold live_data_iteration. unfold try_except at 1. unfold bind at 1.
  unfold recv. rewrite Recv. cbn [option_map]. rewrite (take_all _ _ Small).
  destruct chunk as [|b chunk]; [contradiction|].
  unfold bind at 1. rewrite read_header_run.
  set (d1 := header_read _).
  destruct (frame_ready d1) as [n|].
  - unfold bind at 1. unfold emit at 1. world_simpl.
    match goal with
    | |- context [try_except ?body ?cls ?handler ?w1] =>
        pose proof (Steady_data_frame sent (take n (buffer d1))
                      (mk_decoder (drop n (buffer d1)) None) w1) as St;
        destruct (try_except body cls handler w1) as [[r|e] w2]
    end.
    + destruct St as (E & R & F). cbn [snd] in *. world_simpl_in E R F.
      exists r, w2. repeat split; try assumption.
      rewrite F, !frames_app. cbn [frames]. now rewrite app_nil_r.
    + destruct St as (E & R & F). cbn [snd] in *. world_simpl_in E R F.
      cbn [existsb isinstance orb].
      unfold bind, log_message, emit, ret. world_simpl.
      eexists _, _. split; [reflexivity|]. world_simpl.
      repeat split; try assumption.
      rewrite frames_app, F, !frames_app. cbn [frames]. now rewrite !app_nil_r.
  - unfold ret. eexists _, _. split; [reflexivity|]. world_simpl.
    repeat split. rewrite frames_app. cbn [frames]. now rewrite app_nil_r.
Qed.

(** The same for the analyses listener. *)
Lemma live_analyses_iteration_chunk (sock : socket) (d : decoder) (w : world)
    (chunk : bytes) :
  recv_data (env w) (recvs w) = Some chunk ->
  chunk_ok chunk ->
  let d1 := header_read (mk_decoder (buffer d ++ chunk) (expected_length d)) in
  exists r w',
    live_analyses_iteration sock d w = (Ok r, w')
    /\ env w' = env w /\ recvs w' = S (recvs w)
    /\ match frame_ready d1 with
       | None => r = Continue d1 /\ frames (trace w') = frames (trace w)
       | Some n => frames (trace w') = frames (trace w) ++ [take n (buffer d1)]
       end.
Proof.
  intros Recv [NonEmpty Small]. cbv zeta.
  unfold live_analyses_iteration. unfold try_except at 1. unfold bind at 1.
  unfold recv. rewrite Recv. cbn [option_map]. rewrite (take_all _ _ Small).
  destruct chunk as [|b chunk]; [contradiction|].
  unfold bind at 1. rewrite read_header_run.
  set (d1 := header_read _).
  destruct (frame_ready d1) as [n|].
  - unfold bind at 1. unfold emit at 1. world_simpl.
    match goal with
    | |- context [try_except ?body ?cls ?handler ?w1] =>
        pose proof (Steady_analyses_frame (take n (buffer d1))
                      (mk_decoder (drop n (buffer d1)) None) w1) as St;
        destruct (try_except body cls handler w1) as [[r|e] w2]
    end.
    + destruct St as (E & R & F). cbn [snd] in *. world_simpl_in E R F.
      exists r, w2. repeat split; try assumption.
      rewrite F, !frames_app. cbn [frames]. now rewrite app_nil_r.
    + destruct St as (E & R & F). cbn [snd] in *. world_simpl_in E R F.
      cbn [existsb isinstance orb].
      unfold bind, log_message, emit, ret. world_simpl.
      eexists _, _. split; [reflexivity|]. world_simpl.
      repeat split; try assumption.
      rewrite frames_app, F, !frames_app. cbn [frames]. now rewrite !app_nil_r.
  - unfold ret. eexists _, _. split; [reflexivity|]. world_simpl.
    repeat split. rewrite frames_app. cbn [frames]. now rewrite app_nil_r.
Qed.

Lemma chunks_exhausted (buf body : bytes) (rest : list bytes) :
  buf ++ List.concat rest = body ->
  blen body <= blen buf ->
  Forall chunk_ok rest ->
  rest = [] /\ buf = body.
Proof.
  intros E L Ok.
  assert (N : List.concat rest = []).
  { apply (f_equal blen) in E. rewrite blen_app in E.
    pose proof (blen_nonneg (List.concat rest)).
    apply length_zero_iff_nil. unfold blen in *. lia. }
  rewrite N, app_nil_r in E. split; [|exact E].
  destruct rest as [|c rest]; [reflexivity|].
  inversion Ok as [|? ? [NE _] _]. cbn [List.concat] in N.
  apply app_eq_nil in N. destruct N as [N _]. contradiction.
Qed.

Lemma header_prefix (x y header body : bytes) :
  x ++ y = header ++ body ->
  blen header = 16 ->
  16 <= blen x ->
  take 16 x = header /\ drop 16 x ++ y = body.
Proof.
  intros E H L.
  assert (T : take 16 (x ++ y) = take 16 x).
  { unfold take, blen in *. rewrite firstn_app.
    replace (Z.to_nat 16 - List.length x)%nat with 0%nat by lia.
    cbn [firstn]. apply app_nil_r. }
  assert (D : drop 16 (x ++ y) = drop 16 x ++ y).
  { unfold drop, blen in *. rewrite skipn_app.
    replace (Z.to_nat 16 - List.length x)%nat with 0%nat by lia.
    reflexivity. }
  rewrite E in T, D.
  rewrite take_app_exact in T by exact H.
  rewrite drop_app_exact in D by exact H.
  split; congruence.
Qed.

(** Reassembly, for any listener whose iteration treats a chunk as the two
    listeners do. *)
Section Reassembly.

Variable S : Type.
Variable iteration : S -> M (control S).
Variable decoder_of : S -> decoder.

Hypothesis iteration_chunk :
  forall (s : S) (w : world) (chunk : bytes),
    recv_data (env w) (recvs w) = Some chunk ->
    chunk_ok chunk ->
    let d1 := header_read (mk_decoder (buffer (decoder_of s) ++ chunk)
                                      (expected_length (decoder_of s))) in
    exists r w',
      iteration s w = (Ok r, w')
      /\ env w' = env w /\ recvs w' = Datatypes.S (recvs w)
      /\ match frame_ready d1 with
         | None => (exists s', r = Continue s' /\ decoder_of s' = d1)
                   /\ frames (trace w') = frames (trace w)
         | Some n =>
             frames (trace w') = frames (trace w) ++ [take n (buffer d1)]
         end.

Variables header body : bytes.
Hypothesis header_length : blen header = 16.
Hypothesis declared_length : parse_data_length header = Some (blen body).
Hypothesis body_not_empty : body <> [].

Lemma body_length_positive : 0 < blen body.
Proof.
  pose proof (blen_nonneg body). destruct body; [contradiction|].
  unfold blen in *. cbn [List.length] in *. lia.
Qed.

Lemma last_iteration (s : S) (w : world) (r : control S) (w' : world) :
  iteration s w = (Ok r, w') ->
  exists r', while_true 1 iteration s w = (Ok r', w').
Proof.
  intro Run. cbn [while_true]. unfold bind. rewrite Run.
  destruct r; cbn [while_true]; unfold ret; eexists; reflexivity.
Qed.

Lemma reassemble (chunks : list bytes) :
  forall (s : S) (w : world),
    arriving header body (decoder_of s) chunks ->
    Forall chunk_ok chunks ->
    delivers (env w) (recvs w) chunks ->
    exists r w',
      while_true (List.length chunks) iteration s w = (Ok r, w')
      /\ frames (trace w') = frames (trace w) ++ [body].
Proof.
  pose proof body_length_positive as Pos.
  induction chunks as [|chunk rest IH]; intros s w Arr Oks Del.
  - exfalso. unfold arriving in Arr. cbn [List.concat] in Arr.
    rewrite !app_nil_r in Arr.
    destruct Arr as [(_ & L & E) | (_ & L & E)].
    + rewrite E, blen_app in L. pose proof (blen_nonneg body). lia.
    + rewrite E in L. lia.
  - inversion Oks as [|? ? Ok1 Oks']. subst.
    destruct Del as [Recv Del].
    destruct (iteration_chunk s w chunk Recv Ok1) as (r & w1 & Run & E & R & Out).
    cbv zeta in Out. unfold arriving in Arr. cbn [List.concat] in Arr.
    rewrite !app_assoc in Arr.
    set (x := buffer (decoder_of s) ++ chunk) in *.
    assert (Final : forall buf,
               buf ++ List.concat rest = body -> blen body <= blen buf ->
               frames (trace w1) = frames (trace w) ++ [take (blen body) buf] ->
               exists r w',
                 while_true (List.length (chunk :: rest)) iteration s w = (Ok r, w')
                 /\ frames (trace w') = frames (trace w) ++ [body]).
    { intros buf Eb Lb Fr.
      destruct (chunks_exhausted buf body rest Eb Lb Oks') as [-> ->].
      destruct (last_iteration s w r w1 Run) as [r' Run'].
      exists r', w1. split; [exact Run'|].
      rewrite Fr. rewrite take_all by lia. reflexivity. }
    assert (Next : forall d1,
               arriving header body d1 rest ->
               (exists s', r = Continue s' /\ decoder_of s' = d1) ->
               frames (trace w1) = frames (trace w) ->
               exists r w',
                 while_true (List.length (chunk :: rest)) iteration s w = (Ok r, w')
                 /\ frames (trace w') = frames (trace w) ++ [body]).
    { intros d1 Arr1 (s' & -> & Ds') Fr.
      destruct (IH s' w1) as (r2 & w2 & Run2 & Fr2);
        [now rewrite Ds' | exact Oks' | now rewrite E, R |].
      exists r2, w2. split; [|now rewrite Fr2, Fr].
      cbn [List.length while_true]. unfold bind. rewrite Run. exact Run2. }
    destruct Arr as [(Exp & L & Eq) | (Exp & L & Eq)].
    + (* still in the header before this chunk *)
      unfold header_read in Out. cbn [expected_length buffer] in Out.
      rewrite Exp in Out.
      destruct (Z.leb_spec 16 (blen x)) as [Full|Short].
      * destruct (header_prefix x (List.concat rest) header body Eq header_length Full)
          as [Hd Bd].
        rewrite Hd, declared_length in Out.
        unfold frame_ready in Out. cbn [expected_length buffer] in Out.
        destruct (Z.eqb_spec (blen body) 0) as [Z0|_]; [lia|].
        cbn [negb andb] in Out.
        destruct (Z.leb_spec (blen body) (blen (drop 16 x))) as [Done|More].
        -- now apply (Final (drop 16 x)).
        -- destruct Out as [Cont Fr].
           apply (Next (mk_decoder (drop 16 x) (Some (blen body)))); auto.
           right. now cbn [expected_length buffer].
      * unfold frame_ready in Out. cbn [expected_length] in Out.
        destruct Out as [Cont Fr].
        apply (Next (mk_decoder x None)); auto.
        left. now cbn [expected_length buffer].
    + (* in the body before this chunk *)
      unfold header_read in Out. cbn [expected_length buffer] in Out.
      rewrite Exp in Out.
      unfold frame_ready in Out. cbn [expected_length buffer] in Out.
      destruct (Z.eqb_spec (blen body) 0) as [Z0|_]; [lia|].
      cbn [negb andb] in Out.
      destruct (Z.leb_spec (blen body) (blen x)) as [Done|More].
      * now apply (Final x).
      * destruct Out as [Cont Fr].
        apply (Next (mk_decoder x (Some (blen body)))); auto.
        right. now cbn [expected_length buffer].
Qed.

End Reassembly.

(** C7. A stream frame - sixteen header bytes whose field at offset 12..15
    is the length of the body, then the body, which as a JSON text has at
    least one byte - that reaches a fresh listener cut into chunks in any
    way is delivered as exactly one frame, byte for byte the body: this holds
    for the data listener and for the analyses listener, and neither
    raises. *)
Theorem frame_reassembled (sock : socket) (header body : bytes)
    (chunks : list bytes) (w : world) :
  blen header = 16 ->
  parse_data_length header = Some (blen body) ->
  body <> [] ->
  List.concat chunks = header ++ body ->
  Forall chunk_ok chunks ->
  delivers (env w) (recvs w) chunks ->
  (exists r w',
     listen_to_live_data (List.length chunks) sock w = (Ok r, w')
     /\ frames (trace w') = frames (trace w) ++ [body])
  /\ (exists r w',
        listen_to_live_analyses (List.length chunks) sock w = (Ok r, w')
        /\ frames (trace w') = frames (trace w) ++ [body]).
Proof.
  intros HL DL NE Cat Oks Del.
  assert (Start : arriving header body new_decoder chunks).
  { left. cbn [new_decoder expected_length buffer app].
    split; [reflexivity|]. split; [reflexivity | exact Cat]. }
  split.
  - unfold listen_to_live_data. unfold bind at 1.
    unfold log_message at 1. unfold emit at 1. unfold bind at 1.
    match goal with
    | |- context [while_true _ _ _ ?w0] =>
        destruct (reassemble (decoder * list pyvalue) (live_data_iteration sock)
                    fst) with (header := header) (body := body)
                              (chunks := chunks) (s := (new_decoder, @nil pyvalue))
                              (w := w0)
          as (r & w1 & Run & Fr); auto
    end.
    + intros [d sent] w0 chunk Recv Ok1. cbn [fst].
      destruct (live_data_iteration_chunk sock d sent w0 chunk Recv Ok1)
        as (r & w1 & Run & E & R & Out).
      exists r, w1. repeat split; try assumption.
      cbv zeta in Out.
      destruct (frame_ready _); [exact Out|].
      destruct Out as [-> Fr]. split; [|exact Fr]. now eexists.
    + rewrite Run.
      world_simpl_in Fr Fr Fr. rewrite frames_app in Fr. cbn [frames] in Fr.
      rewrite app_nil_r in Fr.
      destruct r as [locals|].
      * unfold ret. eexists _, _. split; [reflexivity | exact Fr].
      * unfold bind, close, log_message, emit, ret. world_simpl.
        eexists _, _. split; [reflexivity|]. world_simpl.
        rewrite !frames_app, Fr. cbn [frames]. now rewrite !app_nil_r.
  - unfold listen_to_live_analyses. unfold bind at 1.
    unfold log_message at 1. unfold emit at 1. unfold bind at 1.
    match goal with
    | |- context [while_true _ _ _ ?w0] =>
        destruct (reassemble decoder (live_analyses_iteration sock)
                    (fun d => d)) with (header := header) (body := body)
                                       (chunks := chunks) (s := new_decoder)
                                       (w := w0)
          as (r & w1 & Run & Fr); auto
    end.
    + intros d w0 chunk Recv Ok1.
      destruct (live_analyses_iteration_chunk sock d w0 chunk Recv Ok1)
        as (r & w1 & Run & E & R & Out).
      exists r, w1. repeat split; try assumption.
      cbv zeta in Out.
      destruct (frame_ready _); [exact Out|].
      destruct Out as [-> Fr]. split; [|exact Fr]. now eexists.
    + rewrite Run.
      world_simpl_in Fr Fr Fr. rewrite frames_app in Fr. cbn [frames] in Fr.
      rewrite app_nil_r in Fr.
      destruct r as [locals|].
      * unfold ret. eexists _, _. split; [reflexivity | exact Fr].
      * unfold bind, close, log_message, emit, ret. world_simpl.
        eexists _, _. split; [reflexivity|]. world_simpl.
        rewrite !frames_app, Fr. cbn [frames]. now rewrite !app_nil_r.
Qed.

(** C7 at a frame with the body [{}] that arrives in chunks of 5, 12 and 1
    bytes: both listeners deliver the one frame [{}]. *)
Lemma frame_reassembled_sample :
  (exists r w',
     listen_to_live_data 3 2%nat (start_world sample_stream) = (Ok r, w')
     /\ frames (trace w') = [sample_body])
  /\ (exists r w',
        listen_to_live_analyses 3 3%nat (start_world sample_stream) = (Ok r, w')
        /\ frames (trace w') = [sample_body]).
Proof.
  assert (Oks : Forall chunk_ok sample_chunks).
  { repeat constructor; try discriminate; vm_compute; discriminate. }
  split.
  - apply (frame_reassembled 2%nat sample_header sample_body sample_chunks
             (start_world sample_stream)); try reflexivity;
      [discriminate | exact Oks | repeat split].
  - apply (frame_reassembled 3%nat sample_header sample_body sample_chunks
             (start_world sample_stream)); try reflexivity;
      [discriminate | exact Oks | repeat split].
Defined.

(** An iteration of the data listener that starts with [expected_length]
    equal to 0: whatever is received, no frame is cut, and if the loop goes
    on, [expected_length] is still 0, the set is the same, and what was
    received is at the end of the buffer. *)
Lemma live_data_iteration_stalled (sock : socket) (d : decoder)
    (sent : list pyvalue) (w : world) :
  expected_length d = Some 0 ->
  exists r w',
    live_data_iteration sock (d, sent) w = (Ok r, w')
    /\ env w' = env w /\ recvs w' = S (recvs w)
    /\ frames (trace w') = frames (trace w)
    /\ match r with
       | Continue (d', sent') =>
           expected_length d' = Some 0 /\ sent' = sent
           /\ buffer d' = buffer d ++ chunk_at (env w) (recvs w)
       | Break => True
       end.
Proof.
  intro Exp.
  unfold live_data_iteration. unfold try_except at 1. unfold bind at 1.
  unfold recv, chunk_at.
  destruct (recv_data (env w) (recvs w)) as [data|]; cbn [option_map].
  - destruct (take 4096 data) as [|b rest] eqn:Data.
    + unfold ret. eexists _, _. split; [reflexivity|]. world_simpl.
      repeat split. rewrite frames_app. cbn [frames]. apply app_nil_r.
    + unfold bind at 1. rewrite read_header_run.
      unfold header_read, frame_ready. cbn [expected_length buffer].
      rewrite Exp. cbn [expected_length buffer Z.eqb negb andb].
      unfold ret. eexists _, _. split; [reflexivity|]. world_simpl.
      repeat split. rewrite frames_app. cbn [frames]. apply app_nil_r.
  - world_simpl. unfold bind, log_message, emit, ret. world_simpl.
    eexists _, _. split; [reflexivity|]. world_simpl.
    repeat split. rewrite !frames_app. cbn [frames]. now rewrite !app_nil_r.
Qed.

Lemma live_analyses_iteration_stalled (sock : socket) (d : decoder)
    (w : world) :
  expected_length d = Some 0 ->
  exists r w',
    live_analyses_iteration sock d w = (Ok r, w')
    /\ env w' = env w /\ recvs w' = S (recvs w)
    /\ frames (trace w') = frames (trace w)
    /\ match r with
       | Continue d' =>
           expected_length d' = Some 0
           /\ buffer d' = buffer d ++ chunk_at (env w) (recvs w)
       | Break => True
       end.
Proof.
  intro Exp.
  unfold live_analyses_iteration. unfold try_except at 1. unfold bind at 1.
  unfold recv, chunk_at.
  destruct (recv_data (env w) (recvs w)) as [data|]; cbn [option_map].
  - destruct (take 4096 data) as [|b rest] eqn:Data.
    + unfold ret. eexists _, _. split; [reflexivity|]. world_simpl.
      repeat split. rewrite frames_app. cbn [frames]. apply app_nil_r.
    + unfold bind at 1. rewrite read_header_run.
      unfold header_read, frame_ready. cbn [expected_length buffer].
      rewrite Exp. cbn [expected_length buffer Z.eqb negb andb].
      unfold ret. eexists _, _. split; [reflexivity|]. world_simpl.
      repeat split. rewrite frames_app. cbn [frames]. apply app_nil_r.
  - world_simpl. unfold bind, log_message, emit, ret. world_simpl.
    eexists _, _. split; [reflexivity|]. world_simpl.
    repeat split. rewrite !frames_app. cbn [frames]. now rewrite !app_nil_r.
Qed.

Lemma received_succ (e : environment) (k n : nat) :
  received e k (S n) = chunk_at e k ++ received e (S k) n.
Proof. reflexivity. Qed.

Lemma live_data_stalled (sock : socket) (n : nat) :
  forall (d : decoder) (sent : list pyvalue) (w : world),
    expected_length d = Some 0 ->
    exists r w',
      while_true n (live_data_iteration sock) (d, sent) w = (Ok r, w')
      /\ frames (trace w') = frames (trace w)
      /\ match r with
         | Continue (d', sent') =>
             expected_length d' = Some 0 /\ sent' = sent
             /\ buffer d' = buffer d ++ received (env w) (recvs w) n
         | Break => True
         end.
Proof.
  induction n as [|n IH]; intros d sent w Exp.
  - cbn [while_true]. unfold ret. eexists _, _. split; [reflexivity|].
    split; [reflexivity|]. split; [exact Exp|]. split; [reflexivity|].
    unfold received. cbn. now rewrite app_nil_r.
  - destruct (live_data_iteration_stalled sock d sent w Exp)
      as (r & w1 & Run & E & R & Fr & Out).
    cbn [while_true]. unfold bind. rewrite Run.
    destruct r as [[d1 sent1]|].
    + destruct Out as (Exp1 & -> & Buf).
      destruct (IH d1 sent w1 Exp1) as (r2 & w2 & Run2 & Fr2 & Out2).
      exists r2, w2. split; [exact Run2|]. split; [congruence|].
      destruct r2 as [[d2 sent2]|]; [|exact I].
      destruct Out2 as (Exp2 & -> & Buf2).
      split; [exact Exp2|]. split; [reflexivity|].
      now rewrite Buf2, Buf, E, R, received_succ, app_assoc.
    + unfold ret. eexists _, _. split; [reflexivity|]. split; [exact Fr | exact I].
Qed.

Lemma live_analyses_stalled (sock : socket) (n : nat) :
  forall (d : decoder) (w : world),
    expected_length d = Some 0 ->
    exists r w',
      while_true n (live_analyses_iteration sock) d w = (Ok r, w')
      /\ frames (trace w') = frames (trace w)
      /\ match r with
         | Continue d' =>
             expected_length d' = Some 0
             /\ buffer d' = buffer d ++ received (env w) (recvs w) n
         | Break => True
         end.
Proof.
  induction n as [|n IH]; intros d w Exp.
  - cbn [while_true]. unfold ret. eexists _, _. split; [reflexivity|].
    split; [reflexivity|]. split; [exact Exp|].
    unfold received. cbn. now rewrite app_nil_r.
  - destruct (live_analyses_iteration_stalled sock d w Exp)
      as (r & w1 & Run & E & R & Fr & Out).
    cbn [while_true]. unfold bind. rewrite Run.
    destruct r as [d1|].
    + destruct Out as (Exp1 & Buf).
      destruct (IH d1 w1 Exp1) as (r2 & w2 & Run2 & Fr2 & Out2).
      exists r2, w2. split; [exact Run2|]. split; [congruence|].
      destruct r2 as [d2|]; [|exact I].
      destruct Out2 as (Exp2 & Buf2).
      split; [exact Exp2|].
      now rewrite Buf2, Buf, E, R, received_succ, app_assoc.
    + unfold ret. eexists _, _. split; [reflexivity|]. split; [exact Fr | exact I].
Qed.

(** C9. The header test of an iteration turns a buffer that starts with a
    header declaring the length 0 into [expected_length = 0].  From any such
    state, and for any number of iterations and anything the peer sends,
    either listener cuts no frame any more, does not raise, and - for as long
    as its loop runs - keeps [expected_length = 0], so that no header is read
    again, and has every byte received since at the end of its buffer. *)
Theorem zero_length_header_stalls (sock : socket) (n : nat) (buf : bytes)
    (sent : list pyvalue) (w : world) :
  (forall header rest,
      blen header = 16 ->
      parse_data_length header = Some 0 ->
      read_header (mk_decoder (header ++ rest) None) w
      = (Ok (mk_decoder rest (Some 0)), w))
  /\ (exists r w',
        while_true n (live_data_iteration sock) (mk_decoder buf (Some 0), sent) w
        = (Ok r, w')
        /\ frames (trace w') = frames (trace w)
        /\ match r with
           | Continue (d, sent') =>
               expected_length d = Some 0 /\ sent' = sent
               /\ buffer d = buf ++ received (env w) (recvs w) n
           | Break => True
           end)
  /\ (exists r w',
        while_true n (live_analyses_iteration sock) (mk_decoder buf (Some 0)) w
        = (Ok r, w')
        /\ frames (trace w') = frames (trace w)
        /\ match r with
           | Continue d =>
               expected_length d = Some 0
               /\ buffer d = buf ++ received (env w) (recvs w) n
           | Break => True
           end).
Proof.
  split; [|split].
  - intros header rest HL Zero. rewrite read_header_run. f_equal.
    unfold header_read. cbn [expected_length buffer].
    assert (L : (16 <=? blen (header ++ rest)) = true).
    { apply Z.leb_le. rewrite blen_app. pose proof (blen_nonneg rest). lia. }
    rewrite L, take_app_exact, drop_app_exact, Zero by exact HL. reflexivity.
  - apply (live_data_stalled sock n (mk_decoder buf (Some 0)) sent w).
    reflexivity.
  - apply (live_analyses_stalled sock n (mk_decoder buf (Some 0)) w).
    reflexivity.
Qed.

(** C9 at a data listener that receives a header declaring the length 0 and
    then a complete frame: after the two iterations no frame has been cut,
    [expected_length] is 0 and the 18 bytes of the frame sit in the buffer. *)
Lemma zero_length_header_sample :
  exists w',
    listen_to_live_data 2 2%nat (start_world stalled_stream)
    = (Ok (Continue (mk_decoder (sample_header ++ sample_body) (Some 0), [])), w')
    /\ frames (trace w') = [].
Proof.
  destruct (zero_length_header_stalls 2%nat 1 [] []
              (snd (listen_to_live_data 1 2%nat (start_world stalled_stream))))
    as (_ & (r & w' & Run & Fr & Out) & _).
  exists w'. split.
  - vm_compute in Run. vm_compute. injection Run as <- <-. reflexivity.
  - rewrite Fr. reflexivity.
Defined.

(* ================================================================= *)
(** ** Telemetry *)









(** A frame without a ["data"] entry gives nothing at all, whatever else it
    holds: not a message, not an error line. *)
Lemma frame_without_data_is_silent (entries : list (string * pyvalue))
    (w : world) :
  dict_get entries "data" = None ->
  process_analyses_frame (PyDict entries) w = (Ok tt, w).
Proof.
  intro Absent. unfold process_analyses_frame, bind, lift.
  cbn [py_contains_str].
  assert (E : existsb (fun kv => String.eqb (fst kv) "data") entries = false).
  { induction entries as [|[k v] rest IH]; [reflexivity|].
    cbn [dict_get existsb fst] in *.
    destruct (String.eqb k "data"); [discriminate | now apply IH]. }
  now rewrite E.
Qed.















(* ================================================================= *)
(** ** Configuration *)

Lemma sent_app (a b : list event) : sent (a ++ b) = sent a ++ sent b.
Proof.
  induction a as [|e a IH]; [reflexivity|].
  destruct e; cbn [app sent]; now rewrite IH.
Qed.

(** One step of the resend sequence by [send_command]: what the chain of
    steps needs to know of it. *)
Lemma send_command_step (sock : socket) (command : Command) (w : world) :
  exists w' events,
    send_command sock command w = (Ok (round_trip_ok w), w')
    /\ env w' = env w /\ glob w' = glob w
    /\ sends w' = S (sends w)
    /\ (round_trip_ok w = true -> recvs w' = S (recvs w))
    /\ trace w' = trace w ++ events
    /\ sent events = [(sock, command_packet command)].
Proof.
  destruct (send_command_run sock command w) as (logs & Run & Logs).
  cbv zeta in Run. eexists _, _. split; [exact Run|]. world_simpl.
  repeat split.
  - intro Ok. unfold round_trip_ok, round_trip_ok_at in Ok.
    destruct (send_ok (env w) (sends w)); [reflexivity | discriminate].
  - cbn [sent]. rewrite sent_app.
    assert (L : sent logs = []).
    { destruct (round_trip_ok w); [now subst | now destruct Logs as [m ->]]. }
    rewrite L. now destruct (send_ok (env w) (sends w)).
Qed.

(** One step by [send_extra_data], for a payload whose JSON text fits the
    32-bit length field. *)
Lemma send_extra_data_step (sock response_sock : socket) (payload : pyvalue)
    (w : world) :
  blen (json_dumps (env w) payload) < 2 ^ 32 ->
  exists w' events,
    send_extra_data sock response_sock payload w = (Ok (round_trip_ok w), w')
    /\ env w' = env w /\ glob w' = glob w
    /\ sends w' = S (sends w)
    /\ (round_trip_ok w = true -> recvs w' = S (recvs w))
    /\ trace w' = trace w ++ events
    /\ sent events = [(sock, extra_packet (env w) payload)].
Proof.
  intro Fits. pose proof (blen_nonneg (json_dumps (env w) payload)) as NonNeg.
  unfold send_extra_data, round_trip_ok, round_trip_ok_at, response_ok,
    extra_packet.
  unfold try_except, bind, get_env, lift, struct_pack_II, uint32_ok.
  assert (B : ((0 <=? blen (json_dumps (env w) payload))
               && (blen (json_dumps (env w) payload) <? 2 ^ 32)) = true).
  { apply andb_true_iff. split; [apply Z.leb_le | apply Z.ltb_lt]; lia. }
  change ((0 <=? VERSION) && (VERSION <? 2 ^ 32)) with true.
  rewrite B. cbn [andb].
  unfold sendall, recv, log_message, emit, ret. world_simpl.
  destruct (send_ok (env w) (sends w)); world_simpl;
    [destruct (recv_data (env w) (recvs w)) as [resp|]; world_simpl;
     [destruct (interpret_response (take 16 resp)) as [err raw|v t h status];
      world_simpl; [|destruct (status =? 1); world_simpl]|]|];
    (eexists _, _; split; [reflexivity|]; world_simpl;
     repeat split; try discriminate;
     rewrite <- ?app_assoc; cbn [app sent]; rewrite <- ?app_assoc;
     reflexivity).
Qed.

(** [update_analyzer_config] rebuilds the left descriptor from the two left
    scalars: the result is the dict literal with them in place. *)
Lemma update_analyzer_config_run (w : world) (name : string) (c : Z)
    (t : pyvalue) :
  analyzer_config_left (glob w) = analyzer_config name c t ->
  update_analyzer_config w
  = (Ok tt,
     mk_world (env w) (connects w) (sends w) (recvs w) (open_sockets w)
              (trace w)
              (set_analyzer_config_left
                 (analyzer_config name (ANALYZER_LEFT_CHANNEL (glob w))
                                  (ANALYZER_LEFT_THRESHOLD (glob w)))
                 (glob w))).
Proof.
  intro Shape.
  unfold update_analyzer_config, assign_trigger_field, bind, get_globals,
    put_globals, lift.
  world_simpl. rewrite Shape. reflexivity.
Qed.

Lemma round_trip_ok_moved (w w' : world) :
  env w' = env w -> sends w' = S (sends w) -> recvs w' = S (recvs w) ->
  round_trip_ok w' = round_trip_ok_at (env w) (S (sends w)) (S (recvs w)).
Proof. unfold round_trip_ok. now intros -> -> ->. Qed.

(** [send_analyzer_config] with at least two sockets and a left descriptor
    of the shape of the literal: the descriptor is rebuilt from the left
    scalars, and the steps of the resend sequence are sent for as long as
    each succeeds.  Nothing is undone when a step fails. *)
Lemma send_analyzer_config_run (w : world) (name : string) (c : Z)
    (t : pyvalue) (s0 s1 : socket) (others : list socket) :
  SOCKETS (glob w) = s0 :: s1 :: others ->
  analyzer_config_left (glob w) = analyzer_config name c t ->
  let config := analyzer_config name (ANALYZER_LEFT_CHANNEL (glob w))
                                (ANALYZER_LEFT_THRESHOLD (glob w)) in
  blen (json_dumps (env w) (PyDict [("analyzer", PyStr name)])) < 2 ^ 32 ->
  blen (json_dumps (env w) config) < 2 ^ 32 ->
  exists w' events,
    send_analyzer_config w = (Ok tt, w')
    /\ env w' = env w
    /\ glob w' = set_analyzer_config_left config (glob w)
    /\ trace w' = trace w ++ events
    /\ sent events
       = firstn (steps_run (env w) (sends w) (recvs w) 4)
                (resend_sequence (env w) s0 s1 name config).
Proof.
  intros Socks Shape config FitsName FitsConfig.
  unfold send_analyzer_config. unfold bind at 1. unfold get_globals at 1.
  rewrite Socks. unfold bind at 1.
  rewrite (update_analyzer_config_run w name c t Shape). fold config.
  set (w0 := mk_world _ _ _ _ _ _ _).
  assert (E0 : env w0 = env w) by reflexivity.
  assert (S0 : sends w0 = sends w) by reflexivity.
  assert (R0 : recvs w0 = recvs w) by reflexivity.
  assert (T0 : trace w0 = trace w) by reflexivity.
  assert (G0 : glob w0 = set_analyzer_config_left config (glob w)) by reflexivity.
  clearbody w0.
  cbn [socket_at nth_error]. unfold bind at 1. unfold ret at 1.
  (* remove the analyzer *)
  destruct (send_command_step s0 REMOVE_ANALYZER w0)
    as (w1 & ev1 & Run1 & E1 & G1 & S1 & R1 & T1 & Se1).
  unfold bind at 1. rewrite Run1.
  assert (Ok1 : round_trip_ok w0 = round_trip_ok_at (env w) (sends w) (recvs w))
    by (unfold round_trip_ok; now rewrite E0, S0, R0).
  cbn [steps_run]. rewrite <- Ok1.
  destruct (round_trip_ok w0) eqn:B1; cbn [negb].
  2:{ unfold log_message, emit. eexists _, _. split; [reflexivity|]. world_simpl.
      split; [congruence|]. split; [congruence|].
      split; [rewrite T1, T0, <- app_assoc; reflexivity|].
      rewrite sent_app, Se1. reflexivity. }
  specialize (R1 eq_refl).
  (* push the name *)
  unfold bind at 1. unfold ret at 1. unfold bind at 1. unfold ret at 1.
  unfold bind at 1. unfold get_globals at 1.
  rewrite G1, G0. cbn [analyzer_config_left set_analyzer_config_left].
  unfold bind at 1. unfold lift at 1.
  change (py_getitem_str config "name") with (@Ok pyvalue (PyStr name)).
  destruct (send_extra_data_step s1 s0 (PyDict [("analyzer", PyStr name)]) w1)
    as (w2 & ev2 & Run2 & E2 & G2 & S2 & R2 & T2 & Se2);
    [now rewrite E1, E0|].
  unfold bind at 1. rewrite Run2.
  rewrite (round_trip_ok_moved w0 w1 E1 S1 R1), E0, S0, R0.
  destruct (round_trip_ok_at (env w) (S (sends w)) (S (recvs w))) eqn:B2;
    cbn [negb].
  2:{ unfold log_message, emit. eexists _, _. split; [reflexivity|]. world_simpl.
      split; [congruence|]. split; [congruence|].
      split; [rewrite T2, T1, T0, <- !app_assoc; reflexivity|].
      rewrite !sent_app, Se1, Se2, E1, E0. reflexivity. }
  assert (B2' : round_trip_ok w1 = true)
    by (now rewrite (round_trip_ok_moved w0 w1 E1 S1 R1), E0, S0, R0).
  specialize (R2 B2').
  (* add the analyzer *)
  unfold bind at 1. unfold ret at 1.
  destruct (send_command_step s0 ADD_ANALYZER w2)
    as (w3 & ev3 & Run3 & E3 & G3 & S3 & R3 & T3 & Se3).
  unfold bind at 1. rewrite Run3.
  rewrite (round_trip_ok_moved w1 w2 E2 S2 R2), E1, E0, S1, R1, S0, R0.
  destruct (round_trip_ok_at (env w) (S (S (sends w))) (S (S (recvs w)))) eqn:B3;
    cbn [negb].
  2:{ unfold log_message, emit. eexists _, _. split; [reflexivity|]. world_simpl.
      split; [congruence|]. split; [congruence|].
      split; [rewrite T3, T2, T1, T0, <- !app_assoc; reflexivity|].
      rewrite !sent_app, Se1, Se2, Se3, E1, E0. reflexivity. }
  assert (B3' : round_trip_ok w2 = true)
    by (now rewrite (round_trip_ok_moved w1 w2 E2 S2 R2), E1, E0, S1, R1, S0, R0).
  specialize (R3 B3').
  (* push the descriptor *)
  unfold bind at 1. unfold ret at 1. unfold bind at 1. unfold ret at 1.
  unfold bind at 1. unfold get_globals at 1.
  rewrite G3, G2, G1, G0. cbn [analyzer_config_left set_analyzer_config_left].
  destruct (send_extra_data_step s1 s0 config w3)
    as (w4 & ev4 & Run4 & E4 & G4 & S4 & R4 & T4 & Se4);
    [now rewrite E3, E2, E1, E0|].
  unfold bind at 1. rewrite Run4.
  rewrite (round_trip_ok_moved w2 w3 E3 S3 R3), E2, E1, E0, S2, R2, S1, R1, S0, R0.
  unfold log_message, emit.
  destruct (round_trip_ok_at (env w) (S (S (S (sends w)))) (S (S (S (recvs w)))));
    cbn [negb];
    (eexists _, _; split; [reflexivity|]; world_simpl;
     split; [congruence|]; split; [congruence|];
     split; [rewrite T4, T3, T2, T1, T0, <- !app_assoc; reflexivity|];
     rewrite !sent_app, Se1, Se2, Se3, Se4, E3, E2, E1, E0; reflexivity).
Qed.

(** With fewer than two sockets [send_analyzer_config] logs the error and
    does nothing else: no descriptor is touched, nothing is sent. *)
Lemma send_analyzer_config_without_sockets (w : world) :
  (List.length (SOCKETS (glob w)) < 2)%nat ->
  send_analyzer_config w
  = (Ok tt,
     after w [EvLog ERROR
                "Sockets not initialized, cannot send analyzer configuration."]).
Proof.
  intro Few. unfold send_analyzer_config. unfold bind at 1.
  unfold get_globals at 1.
  destruct (SOCKETS (glob w)) as [|s0 [|s1 others]]; try reflexivity.
  cbn [List.length] in Few. lia.
Qed.

(** C1, as the code has it.  Let [SOCKETS] hold at least two sockets and
    the left descriptor have the shape of its literal.  A channel-pair update
    with two integers stores both in the channel scalars, a threshold-pair
    update with two floats stores both in the threshold scalars; either one
    then rewrites the trigger channel fields (the left channel minus 1) and
    the trigger threshold fields of the left descriptor from the left
    scalars, and runs one resend sequence for the left descriptor: remove
    analyzer, push the name alone, add analyzer, push the whole descriptor,
    each step being sent only if all before it succeeded.  The handler does
    not raise, and the descriptor stays rewritten whichever step fails. *)
Theorem analyzer_update_resends (w : world) (name : string) (c : Z)
    (t : pyvalue) (s0 s1 : socket) (others : list socket) :
  SOCKETS (glob w) = s0 :: s1 :: others ->
  analyzer_config_left (glob w) = analyzer_config name c t ->
  (forall payload, blen (json_dumps (env w) payload) < 2 ^ 32) ->
  (forall left right : Z,
      let config := analyzer_config name left (ANALYZER_LEFT_THRESHOLD (glob w)) in
      exists w' events,
        analyzer_update_channels "/analyzer_channels" [PyInt left; PyInt right] w
        = (Ok tt, w')
        /\ ANALYZER_LEFT_CHANNEL (glob w') = left
        /\ ANALYZER_RIGHT_CHANNEL (glob w') = right
        /\ analyzer_config_left (glob w') = config
        /\ trigger_channel config 0 = Ok (PyInt (left - 1))
        /\ trigger_channel config 1 = Ok (PyInt (left - 1))
        /\ trace w' = trace w ++ events
        /\ sent events
           = firstn (steps_run (env w) (sends w) (recvs w) 4)
                    (resend_sequence (env w) s0 s1 name config))
  /\ (forall left right : float,
        let config := analyzer_config name (ANALYZER_LEFT_CHANNEL (glob w))
                                      (PyFloat left) in
        exists w' events,
          analyzer_update_thresholds "/analyzer_thresholds"
            [PyFloat left; PyFloat right] w
          = (Ok tt, w')
          /\ ANALYZER_LEFT_THRESHOLD (glob w') = PyFloat left
          /\ ANALYZER_RIGHT_THRESHOLD (glob w') = PyFloat right
          /\ analyzer_config_left (glob w') = config
          /\ trigger_value config 0 = Ok (PyFloat left)
          /\ trigger_value config 1 = Ok (PyFloat left)
          /\ trace w' = trace w ++ events
          /\ sent events
             = firstn (steps_run (env w) (sends w) (recvs w) 4)
                      (resend_sequence (env w) s0 s1 name config)).
Proof.
  intros Socks Shape Fits. split.
  - intros left right config.
    unfold analyzer_update_channels, try_except, assign, arg.
    unfold bind, get_env, lift, get_globals, put_globals, ret.
    cbn [nth_error py_int]. world_simpl.
    match goal with
    | |- context [send_analyzer_config ?w2] =>
        destruct (send_analyzer_config_run w2 name c t s0 s1 others)
          as (w' & events & Run & E & G & T & Se);
          [exact Socks | exact Shape | apply Fits | apply Fits |]
    end.
    rewrite Run. unfold log_message, emit.
    cbn [glob env sends recvs trace ANALYZER_LEFT_CHANNEL ANALYZER_LEFT_THRESHOLD
         set_ANALYZER_LEFT_CHANNEL set_ANALYZER_RIGHT_CHANNEL] in G, E, T, Se.
    eexists _, _. split; [reflexivity|]. world_simpl. rewrite G.
    cbn [set_analyzer_config_left set_ANALYZER_LEFT_CHANNEL
         set_ANALYZER_RIGHT_CHANNEL ANALYZER_LEFT_CHANNEL ANALYZER_RIGHT_CHANNEL
         analyzer_config_left].
    repeat (split; [reflexivity|]).
    split; [rewrite T, <- app_assoc; reflexivity|].
    rewrite sent_app, Se. cbn [sent]. now rewrite app_nil_r.
  - intros left right config.
    unfold analyzer_update_thresholds, try_except, assign, arg.
    unfold bind, get_env, lift, get_globals, put_globals, ret.
    cbn [nth_error py_float]. world_simpl.
    match goal with
    | |- context [send_analyzer_config ?w2] =>
        destruct (send_analyzer_config_run w2 name c t s0 s1 others)
          as (w' & events & Run & E & G & T & Se);
          [exact Socks | exact Shape | apply Fits | apply Fits |]
    end.
    rewrite Run. unfold log_message, emit.
    cbn [glob env sends recvs trace ANALYZER_LEFT_CHANNEL ANALYZER_LEFT_THRESHOLD
         set_ANALYZER_LEFT_THRESHOLD set_ANALYZER_RIGHT_THRESHOLD] in G, E, T, Se.
    eexists _, _. split; [reflexivity|]. world_simpl. rewrite G.
    cbn [set_analyzer_config_left set_ANALYZER_LEFT_THRESHOLD
         set_ANALYZER_RIGHT_THRESHOLD ANALYZER_LEFT_THRESHOLD
         ANALYZER_RIGHT_THRESHOLD analyzer_config_left].
    repeat (split; [reflexivity|]).
    split; [rewrite T, <- app_assoc; reflexivity|].
    rewrite sent_app, Se. cbn [sent]. now rewrite app_nil_r.
Qed.

(** C1 after start-up at an obliging peer: the update to the channels 7 and
    8 rewrites the left descriptor to the channel 7 and sends the four steps
    of the sequence. *)
Lemma analyzer_update_sample :
  let config := analyzer_config "foot_cycle_left" 7 (PyInt 5) in
  exists w' events,
    analyzer_update_channels "/analyzer_channels" [PyInt 7; PyInt 8]
      connected_world
    = (Ok tt, w')
    /\ analyzer_config_left (glob w') = config
    /\ trigger_channel config 0 = Ok (PyInt 6)
    /\ trace w' = trace connected_world ++ events
    /\ sent events = resend_sequence obliging 0%nat 1%nat "foot_cycle_left" config.
Proof.
  cbv zeta.
  destruct (analyzer_update_resends connected_world "foot_cycle_left" 13
              (PyInt 5) 0%nat 1%nat [2%nat; 3%nat])
    as [Channels _]; [reflexivity | reflexivity | intro; reflexivity |].
  destruct (Channels 7 8) as (w' & events & Run & _ & _ & Cfg & Ch & _ & T & Se).
  exists w', events. split; [exact Run|]. split; [exact Cfg|].
  split; [exact Ch|]. split; [exact T | exact Se].
Defined.

(** C1 as stated fails: after the same update the right descriptor still
    holds the channel 13 of its literal in both triggers, although the right
    scalar is 8 and the four steps were sent. *)
Lemma right_descriptor_is_not_updated :
  let w' := snd (analyzer_update_channels "/analyzer_channels"
                   [PyInt 7; PyInt 8] connected_world) in
  ANALYZER_RIGHT_CHANNEL (glob w') = 8
  /\ trigger_channel (analyzer_config_right (glob w')) 0 = Ok (PyInt 13)
  /\ trigger_channel (analyzer_config_right (glob w')) 1 = Ok (PyInt 13)
  /\ trigger_channel (analyzer_config_left (glob w')) 0 = Ok (PyInt 6)
  /\ List.length (sent (trace w')) = 5%nat.
Proof. vm_compute. repeat split. Qed.

(** The selection handler is all-or-nothing: when an argument does not
    convert, the error is logged and the world is otherwise as before. *)
Lemma change_current_sensors_rejects (args : list pyvalue) (w : world) :
  int_each (env w) args = Raise ValueError ->
  change_current_sensors "/sensors" args w
  = (Ok tt, after w [EvLog ERROR "Error changing current sensor"]).
Proof.
  intro Bad. unfold change_current_sensors, try_except.
  unfold bind at 1. unfold get_env at 1. unfold bind at 1. unfold lift at 1.
  rewrite Bad. reflexivity.
Qed.

(** A pair update whose first argument does not convert, or that has no
    argument: the error is logged and the world is otherwise as before. *)
Lemma analyzer_update_channels_first_fails (args : list pyvalue) (w : world) :
  match args with
  | [] => True
  | first :: _ => py_int (env w) first = Raise ValueError
  end ->
  analyzer_update_channels "/analyzer_channels" args w
  = (Ok tt, after w [EvLog ERROR "Error updating ANALYZER_CHANNEL"]).
Proof.
  intro Bad. unfold analyzer_update_channels, try_except, assign, arg.
  unfold bind, get_env, lift, get_globals, put_globals, ret.
  destruct args as [|first rest]; cbn [nth_error]; [reflexivity|].
  rewrite Bad. reflexivity.
Qed.

(** A pair update whose first argument converts and whose second does not:
    the left scalar has the new value, the right scalar the old one, and
    nothing was sent. *)
Lemma analyzer_update_channels_second_fails (left : Z) (second : pyvalue)
    (w : world) :
  py_int (env w) second = Raise ValueError ->
  analyzer_update_channels "/analyzer_channels" [PyInt left; second] w
  = (Ok tt,
     mk_world (env w) (connects w) (sends w) (recvs w) (open_sockets w)
              (trace w ++ [EvLog ERROR "Error updating ANALYZER_CHANNEL"])
              (set_ANALYZER_LEFT_CHANNEL left (glob w))).
Proof.
  intro Bad. unfold analyzer_update_channels, try_except, assign, arg.
  unfold bind, get_env, lift, get_globals, put_globals, ret.
  cbn [nth_error py_int]. world_simpl. rewrite Bad. reflexivity.
Qed.

(** C2 fails on the code, at the globals of start-up (channels 13 and 14,
    thresholds 5 and 5) and with no string convertible: a channel-pair update
    with the arguments 7 and "abc", a channel-pair update with the single
    argument 7, and a threshold-pair update with the arguments 2.5 and "abc"
    each log the error and return, but each has stored its first argument in
    the left scalar; only the right scalar is as it was. *)
Theorem pair_update_is_applied_by_halves :
  let w := start_world sample_stream in
  let bad_channel :=
    analyzer_update_channels "/analyzer_channels" [PyInt 7; PyStr "abc"] w in
  let short_channel :=
    analyzer_update_channels "/analyzer_channels" [PyInt 7] w in
  let bad_threshold :=
    analyzer_update_thresholds "/analyzer_thresholds"
      [PyFloat 2.5; PyStr "abc"] w in
  (ANALYZER_LEFT_CHANNEL (glob w), ANALYZER_RIGHT_CHANNEL (glob w)) = (13, 14)
  /\ (ANALYZER_LEFT_THRESHOLD (glob w), ANALYZER_RIGHT_THRESHOLD (glob w))
     = (PyInt 5, PyInt 5)
  /\ fst bad_channel = Ok tt
  /\ trace (snd bad_channel) = [EvLog ERROR "Error updating ANALYZER_CHANNEL"]
  /\ (ANALYZER_LEFT_CHANNEL (glob (snd bad_channel)),
      ANALYZER_RIGHT_CHANNEL (glob (snd bad_channel))) = (7, 14)
  /\ fst short_channel = Ok tt
  /\ trace (snd short_channel) = [EvLog ERROR "Error updating ANALYZER_CHANNEL"]
  /\ (ANALYZER_LEFT_CHANNEL (glob (snd short_channel)),
      ANALYZER_RIGHT_CHANNEL (glob (snd short_channel))) = (7, 14)
  /\ fst bad_threshold = Ok tt
  /\ trace (snd bad_threshold)
     = [EvLog ERROR "Error updating ANALYZER_THRESHOLD"]
  /\ (ANALYZER_LEFT_THRESHOLD (glob (snd bad_threshold)),
      ANALYZER_RIGHT_THRESHOLD (glob (snd bad_threshold)))
     = (PyFloat 2.5, PyInt 5).
Proof. vm_compute. repeat split. Qed.

(* ================================================================= *)
(** * Further properties *)

(** ** Codec *)

Lemma le_encode_blen (n : nat) (z : Z) : blen (le_encode n z) = Z.of_nat n.
Proof. unfold blen. now rewrite le_encode_length. Qed.

(** X1. [to_packet] is defined exactly on the unsigned 32-bit command
    codes, where [struct.pack] does not raise.  There it gives eight bytes
    that decode, as two little-endian fields, to [VERSION] and to the code
    itself; so two codes with the same packet are the same code. *)
Theorem to_packet_round_trip (command_int : Z) :
  (0 <= command_int < 2 ^ 32 ->
   exists packet,
     to_packet command_int = Some packet
     /\ blen packet = 8
     /\ le_decode (take 4 packet) = VERSION
     /\ le_decode (drop 4 packet) = command_int)
  /\ (to_packet command_int = None <-> command_int < 0 \/ 2 ^ 32 <= command_int)
  /\ (forall other,
        0 <= command_int < 2 ^ 32 ->
        to_packet other = to_packet command_int -> other = command_int).
Proof.
  assert (Def : forall z, 0 <= z < 2 ^ 32 ->
            to_packet z = Some (le_encode 4 VERSION ++ le_encode 4 z)).
  { intros z R. unfold to_packet, struct_pack_II, uint32_ok.
    destruct (Z.leb_spec 0 z); [|lia].
    destruct (Z.ltb_spec z (2 ^ 32)); [|lia]. reflexivity. }
  assert (Undef : forall z, z < 0 \/ 2 ^ 32 <= z -> to_packet z = None).
  { intros z R. unfold to_packet, struct_pack_II, uint32_ok.
    destruct (Z.leb_spec 0 z); destruct (Z.ltb_spec z (2 ^ 32));
      try reflexivity; lia. }
  assert (Code : forall z, 0 <= z < 2 ^ 32 ->
            le_decode (drop 4 (le_encode 4 VERSION ++ le_encode 4 z)) = z).
  { intros z R. rewrite drop_app_exact by apply le_encode_blen.
    rewrite le_decode_encode. apply Z.mod_small.
    change (256 ^ Z.of_nat 4) with (2 ^ 32). exact R. }
  split; [|split].
  - intro R. eexists. split; [apply (Def _ R)|].
    split; [rewrite blen_app, !le_encode_blen; reflexivity|].
    split; [|apply (Code _ R)].
    rewrite take_app_exact by apply le_encode_blen. reflexivity.
  - split.
    + intro N. destruct (Z.lt_ge_cases command_int 0) as [|P]; [now left|].
      destruct (Z.lt_ge_cases command_int (2 ^ 32)) as [L|]; [|now right].
      rewrite Def in N by lia. discriminate.
    + apply Undef.
  - intros other R Same. rewrite (Def _ R) in Same.
    destruct (Z.lt_ge_cases other 0) as [|P];
      [rewrite Undef in Same by (now left); discriminate|].
    destruct (Z.lt_ge_cases other (2 ^ 32)) as [L|];
      [|rewrite Undef in Same by (now right); discriminate].
    rewrite Def in Same by lia.
    apply (f_equal (fun o => match o with
                             | Some p => le_decode (drop 4 p)
                             | None => 0
                             end)) in Same.
    cbv beta iota in Same. now rewrite !Code in Same by lia.
Qed.

(** X1 at the code 51 of [REMOVE_ANALYZER] and at a code of 33 bits. *)
Lemma to_packet_samples :
  (exists packet,
     to_packet 51 = Some packet /\ blen packet = 8
     /\ le_decode (take 4 packet) = 1 /\ le_decode (drop 4 packet) = 51)
  /\ to_packet (2 ^ 32) = None.
Proof.
  split.
  - apply (proj1 (to_packet_round_trip 51)). lia.
  - apply (proj1 (proj2 (to_packet_round_trip (2 ^ 32)))). right. lia.
Defined.

(** X2. Decoding is the inverse of the server's encoding: a response made
    of a version, a timestamp of 64 bits and a status of 32 bits decodes to
    exactly that timestamp and status when the version is [VERSION], and to
    the error dict when it is any other 32-bit version. *)
Theorem interpret_response_round_trip (version timestamp status : Z) :
  0 <= version < 2 ^ 32 ->
  0 <= timestamp < 2 ^ 64 ->
  0 <= status < 2 ^ 32 ->
  (version = VERSION ->
   interpret_response (encode_response version timestamp status)
   = ResponseParsed VERSION timestamp
       (time_strftime
          (gmtime_seconds
             (float_floor (float_of_int timestamp / float_of_int 1000))))
       status)
  /\ (has_error (interpret_response (encode_response version timestamp status))
      = negb (version =? VERSION)).
Proof.
  intros RV RT RS.
  assert (L : blen (encode_response version timestamp status) = 16).
  { unfold encode_response. rewrite !blen_app, !le_encode_blen. reflexivity. }
  assert (V : le_decode (take 4 (encode_response version timestamp status))
              = version).
  { unfold encode_response. rewrite take_app_exact by apply le_encode_blen.
    rewrite le_decode_encode. apply Z.mod_small.
    change (256 ^ Z.of_nat 4) with (2 ^ 32). exact RV. }
  assert (T : le_decode (take 8 (drop 4 (encode_response version timestamp status)))
              = timestamp).
  { unfold encode_response. rewrite drop_app_exact by apply le_encode_blen.
    rewrite take_app_exact by apply le_encode_blen.
    rewrite le_decode_encode. apply Z.mod_small.
    change (256 ^ Z.of_nat 8) with (2 ^ 64). exact RT. }
  assert (S : le_decode (take 4 (drop 12 (encode_response version timestamp status)))
              = status).
  { unfold encode_response. rewrite app_assoc.
    rewrite drop_app_exact
      by (rewrite blen_app, !le_encode_blen; reflexivity).
    rewrite take_all by (rewrite le_encode_blen; reflexivity).
    rewrite le_decode_encode. apply Z.mod_small.
    change (256 ^ Z.of_nat 4) with (2 ^ 32). exact RS. }
  pose proof (interpret_response_cases (encode_response version timestamp status))
    as [Err Parsed].
  cbv zeta in Err, Parsed. rewrite V in Err, Parsed. rewrite T, S in Parsed.
  split.
  - intro E. apply Parsed. now split.
  - destruct (Z.eqb_spec version VERSION) as [E|N]; cbn [negb].
    + rewrite Parsed by now split. reflexivity.
    + apply Err. now right.
Qed.

(** X2 at the timestamp 1700000000123 with status 0, and at version 2. *)
Lemma interpret_response_round_trip_sample :
  interpret_response (encode_response 1 1700000000123 0)
  = ResponseParsed 1 1700000000123 "2023-11-14 22:13:20" 0
  /\ has_error (interpret_response (encode_response 2 1700000000123 0)) = true.
Proof.
  split.
  - rewrite (proj1 (interpret_response_round_trip 1 1700000000123 0
                      ltac:(lia) ltac:(lia) ltac:(lia)) eq_refl).
    vm_compute. reflexivity.
  - rewrite (proj2 (interpret_response_round_trip 2 1700000000123 0
                      ltac:(lia) ltac:(lia) ltac:(lia))).
    reflexivity.
Defined.

(** X3. [parse_data_length] raises exactly on fewer than 16 bytes.  On
    anything longer it reads the four bytes at offset 12..15 and nothing
    else: whatever the first twelve bytes and the bytes after the sixteenth
    are, a length written there as an unsigned 32-bit little-endian field is
    read back unchanged. *)
Theorem parse_data_length_spec (data : bytes) :
  (parse_data_length data = None <-> blen data < 16)
  /\ (forall prefix n rest,
        blen prefix = 12 ->
        0 <= n < 2 ^ 32 ->
        parse_data_length (prefix ++ le_encode 4 n ++ rest) = Some n).
Proof.
  split.
  - unfold parse_data_length. pose proof (blen_nonneg data) as NonNeg.
    destruct (Z.lt_ge_cases (blen data) 16) as [Short|Long].
    + assert (F : blen (take 4 (drop 12 data)) < 4).
      { unfold take, drop, blen in *. rewrite length_firstn, length_skipn. lia. }
      destruct (Z.eqb_spec (blen (take 4 (drop 12 data))) 4); [lia|].
      now split.
    + rewrite blen_take by (rewrite blen_drop; lia). cbn [Z.eqb Pos.eqb].
      split; [discriminate | lia].
  - intros prefix n rest P R. unfold parse_data_length, struct_unpack_I.
    rewrite drop_app_exact by exact P.
    rewrite take_app_exact by apply le_encode_blen.
    rewrite le_encode_blen. cbn [Z.of_nat Pos.of_succ_nat Pos.succ Z.eqb Pos.eqb].
    rewrite le_decode_encode. f_equal. apply Z.mod_small.
    change (256 ^ Z.of_nat 4) with (2 ^ 32). exact R.
Qed.

(** X3 at a header that declares 300 bytes, and at a buffer of 15 bytes. *)
Lemma parse_data_length_samples :
  parse_data_length (le_encode 12 (-1) ++ le_encode 4 300 ++ [x7b]) = Some 300
  /\ parse_data_length (le_encode 15 0) = None.
Proof.
  split.
  - apply (proj2 (parse_data_length_spec [])); [reflexivity | lia].
  - apply (proj1 (parse_data_length_spec (le_encode 15 0))). reflexivity.
Defined.

(** ** Command channel and start-up *)

(** X4. [send_extra_data] sends one packet on [sock]: [VERSION] and the
    length of the JSON text as two little-endian 32-bit fields, then the
    text; the text can be cut out again by that length.  When the send went
    through it reads up to 16 bytes from [response_sock], not from [sock].
    It returns [True] exactly when both went through and the response
    decodes with status 1, and an error line is logged on every [False].  It
    closes neither socket and leaves the globals alone.  A JSON text of
    2^32 bytes or more makes it raise [struct.error] before anything is
    sent: the [except] clause catches socket errors only. *)
Theorem send_extra_data_spec (sock response_sock : socket) (payload : pyvalue)
    (w : world) :
  let text := json_dumps (env w) payload in
  let packet := le_encode 4 VERSION ++ le_encode 4 (blen text) ++ text in
  let ok := send_ok (env w) (sends w) in
  let received := recv_data (env w) (recvs w) in
  (blen text < 2 ^ 32 ->
   exists (b : bool) (w' : world) (events : list event),
     send_extra_data sock response_sock payload w = (Ok b, w')
     /\ trace w' = trace w ++ EvSend sock packet ok :: events
     /\ le_decode (take 4 (drop 4 packet)) = blen text
     /\ take (blen text) (drop 8 packet) = text
     /\ (ok = true ->
         exists logs,
           events = EvRecv response_sock 16 (option_map (take 16) received)
                    :: logs)
     /\ (b = true <->
         ok = true
         /\ exists resp v t h,
              received = Some resp
              /\ interpret_response (take 16 resp) = ResponseParsed v t h 1)
     /\ (b = false -> exists msg, In (EvLog ERROR msg) events)
     /\ closes events = []
     /\ open_sockets w' = open_sockets w
     /\ glob w' = glob w)
  /\ (2 ^ 32 <= blen text ->
      send_extra_data sock response_sock payload w = (Raise StructError, w)).
Proof.
  cbv zeta. pose proof (blen_nonneg (json_dumps (env w) payload)) as NonNeg.
  split.
  - intro Fits.
    assert (Len : le_decode (take 4 (drop 4
                    (le_encode 4 VERSION
                     ++ le_encode 4 (blen (json_dumps (env w) payload))
                     ++ json_dumps (env w) payload)))
                  = blen (json_dumps (env w) payload)).
    { rewrite drop_app_exact by apply le_encode_blen.
      rewrite take_app_exact by apply le_encode_blen.
      rewrite le_decode_encode. apply Z.mod_small.
      change (256 ^ Z.of_nat 4) with (2 ^ 32). lia. }
    assert (Text : take (blen (json_dumps (env w) payload))
                     (drop 8 (le_encode 4 VERSION
                              ++ le_encode 4 (blen (json_dumps (env w) payload))
                              ++ json_dumps (env w) payload))
                   = json_dumps (env w) payload).
    { rewrite app_assoc.
      rewrite drop_app_exact by (rewrite blen_app, !le_encode_blen; reflexivity).
      apply take_all. lia. }
    unfold send_extra_data.
    unfold try_except, bind, get_env, lift, struct_pack_II, uint32_ok.
    assert (B : ((0 <=? blen (json_dumps (env w) payload))
                 && (blen (json_dumps (env w) payload) <? 2 ^ 32)) = true).
    { apply andb_true_iff. split; [apply Z.leb_le | apply Z.ltb_lt]; lia. }
    change ((0 <=? VERSION) && (VERSION <? 2 ^ 32)) with true.
    rewrite B. cbn [andb].
    unfold sendall, recv, log_message, emit, ret. world_simpl.
    rewrite <- !app_assoc.
    destruct (send_ok (env w) (sends w)); world_simpl;
      [destruct (recv_data (env w) (recvs w)) as [resp|]; world_simpl;
       [destruct (interpret_response (take 16 resp)) as [err raw|v t h status] eqn:I;
        world_simpl; [|destruct (Z.eqb_spec status 1) as [S1|S1]; world_simpl]|]|];
      (eexists _, _, _; split; [reflexivity|]; world_simpl;
       split; [rewrite <- ?app_assoc; cbn [app]; reflexivity|];
       split; [exact Len|]; split; [exact Text|]).
    + split; [intros _; eexists; reflexivity|].
      split; [split; [discriminate | intros [_ (r & v & t & h & E & I')]];
              injection E as <-; rewrite I in I'; discriminate|].
      split; [intros _; eexists; right; left; reflexivity|]. now repeat split.
    + subst status.
      split; [intros _; eexists; reflexivity|].
      split; [split; [intros _; split; [reflexivity|];
                      now exists resp, v, t, h | reflexivity]|].
      split; [discriminate|]. now repeat split.
    + split; [intros _; eexists; reflexivity|].
      split; [split; [discriminate | intros [_ (r & v' & t' & h' & E & I')]];
              injection E as <-; rewrite I in I'; injection I' as _ _ _ ->;
              contradiction|].
      split; [intros _; eexists; right; left; reflexivity|]. now repeat split.
    + split; [intros _; eexists; reflexivity|].
      split; [split; [discriminate | intros [_ (r & v & t & h & E & _)]];
              discriminate|].
      split; [intros _; eexists; right; left; reflexivity|]. now repeat split.
    + split; [discriminate|].
      split; [split; [discriminate | intros [E _]; discriminate]|].
      split; [intros _; eexists; left; reflexivity|]. now repeat split.
  - intro Big. unfold send_extra_data.
    unfold try_except, bind, get_env, lift, struct_pack_II, uint32_ok.
    destruct (Z.ltb_spec (blen (json_dumps (env w) payload)) (2 ^ 32)); [lia|].
    rewrite andb_false_r. reflexivity.
Qed.

(** X4 at an obliging peer and the payload of the name-only push. *)
Lemma send_extra_data_sample :
  exists w',
    send_extra_data 1%nat 0%nat (PyDict [("analyzer", PyStr "foot_cycle_left")])
      connected_world
    = (Ok true, w')
    /\ open_sockets w' = [0; 1; 2; 3]%nat.
Proof.
  destruct (proj1 (send_extra_data_spec 1%nat 0%nat
                     (PyDict [("analyzer", PyStr "foot_cycle_left")])
                     connected_world) ltac:(reflexivity))
    as (b & w' & events & Run & _ & _ & _ & _ & Iff & _ & _ & Open & _).
  exists w'. rewrite Run. split; [|exact Open].
  do 2 f_equal. apply Iff. split; [reflexivity|].
  exists sample_response, 1, 1700000000123, "2023-11-14 22:13:20".
  split; [reflexivity | vm_compute; reflexivity].
Defined.

(** X5. When every connection opens but the handshake packet cannot be sent,
    or the response cannot be received, [connect_and_handshake] does not
    return [False]: the socket error leaves the function as an exception.  No
    socket is closed on the way, so the sockets opened by the call stay
    open. *)
Theorem handshake_socket_error_escapes (host : string) (ports : list Z)
    (w : world) :
  let c := connects w in
  let opened := seq c (List.length ports) in
  ports <> [] ->
  (forall i, (i < List.length ports)%nat -> connect_ok (env w) (c + i) = true) ->
  send_ok (env w) (sends w) = false \/ recv_data (env w) (recvs w) = None ->
  exists (w' : world) (events : list event),
    connect_and_handshake host ports w = (Raise OSError, w')
    /\ trace w' = trace w ++ events
    /\ connections events = combine ports (map Some opened)
    /\ closes events = []
    /\ open_sockets w' = open_sockets w ++ opened.
Proof.
  cbv zeta. intros NonEmpty Good Fail.
  unfold connect_and_handshake. unfold bind at 1.
  rewrite (connect_ports_ok host ports [] w Good). cbn [app].
  rewrite length_seq, Nat.eqb_refl.
  destruct ports as [|p ports]; [contradiction|].
  cbn [List.length seq].
  unfold bind, lift, socket_at, sendall, recv, log_message, emit, ret.
  cbn [to_packet struct_pack_II nth_error]. world_simpl.
  destruct (connected_events_projections host (p :: ports) (connects w))
    as (A & B & C).
  cbn [List.length seq] in A.
  destruct (send_ok (env w) (sends w)) eqn:Send; world_simpl.
  - destruct Fail as [F|F]; [discriminate|]. rewrite F. world_simpl.
    eexists _, _. split; [reflexivity|]. world_simpl.
    split; [rewrite <- !app_assoc; reflexivity|].
    rewrite !connections_app, !closes_app, A, B.
    cbn [connections closes app]. rewrite !app_nil_r. repeat split.
  - eexists _, _. split; [reflexivity|]. world_simpl.
    split; [rewrite <- !app_assoc; reflexivity|].
    rewrite !connections_app, !closes_app, A, B.
    cbn [connections closes app]. rewrite !app_nil_r. repeat split.
Qed.

(** X5 at the four ports of the bridge and a peer that accepts the
    connections and then never answers. *)
Lemma handshake_socket_error_sample :
  exists w' events,
    connect_and_handshake EMG_HOST EMG_PORTS
      (start_world (environment_with (fun _ => None)
                                     (fun _ => Raise JSONDecodeError)))
    = (Raise OSError, w')
    /\ trace w' = events
    /\ closes events = []
    /\ open_sockets w' = [0; 1; 2; 3]%nat.
Proof.
  destruct (handshake_socket_error_escapes EMG_HOST EMG_PORTS
              (start_world (environment_with (fun _ => None)
                                             (fun _ => Raise JSONDecodeError))))
    as (w' & events & Run & T & _ & Cl & Op);
    [discriminate | reflexivity | now right |].
  exists w', events. repeat split; assumption.
Defined.

Lemma main_connect_run (w : world) (resp : bytes) :
  (forall i, (i < 4)%nat -> connect_ok (env w) (connects w + i) = true) ->
  send_ok (env w) (sends w) = true ->
  recv_data (env w) (recvs w) = Some resp ->
  has_error (interpret_response (take 16 resp)) = false ->
  exists events,
    main_connect w
    = (Ok true,
       mk_world (env w) (connects w + 4) (S (sends w)) (S (recvs w))
                (open_sockets w ++ seq (connects w) 4) (trace w ++ events)
                (set_SOCKETS (seq (connects w) 4) (glob w)))
    /\ closes events = [] /\ List.length (sent events) = 1%nat.
Proof.
  intros Good Send Recv Decodes.
  unfold main_connect, connect_and_handshake, assign.
  rewrite to_packet_Command. unfold bind at 1. unfold bind at 1.
  rewrite (connect_ports_ok EMG_HOST EMG_PORTS [] w Good). cbn [app].
  cbn [EMG_PORTS List.length seq Nat.eqb].
  unfold bind, lift, socket_at, sendall, recv, log_message, emit, ret,
    get_globals, put_globals.
  cbn [nth_error]. world_simpl.
  rewrite Send, Recv. world_simpl. rewrite Decodes. world_simpl.
  destruct (connected_events_projections EMG_HOST [5123; 5124; 5125; 5126]
              (connects w)) as (_ & B & C).
  eexists. split; [rewrite <- !app_assoc; reflexivity|].
  rewrite !closes_app, !sent_app.
  assert (Sn : sent (connected_events EMG_HOST [5123; 5124; 5125; 5126]
                       (connects w)) = []) by reflexivity.
  fold EMG_PORTS in B, Sn. rewrite B, Sn. now cbn.
Qed.

(** X6. Start-up does not clean up after a refused mode-select command.
    When the four connections open and the handshake response decodes, but
    the round trip of [CONNECT_DELSYS_EMG] fails - the command cannot be
    sent, no response comes, or the response is not an OK - [main] logs the
    failure and returns: [SOCKETS] holds the four sockets, and none of them
    has been closed. *)
Theorem main_leaves_sockets_open (w : world) (resp : bytes) :
  (forall i, (i < 4)%nat -> connect_ok (env w) (connects w + i) = true) ->
  send_ok (env w) (sends w) = true ->
  recv_data (env w) (recvs w) = Some resp ->
  has_error (interpret_response (take 16 resp)) = false ->
  round_trip_ok_at (env w) (S (sends w)) (S (recvs w)) = false ->
  exists w' events,
    main_startup w = (Ok false, w')
    /\ trace w' = trace w ++ events
    /\ SOCKETS (glob w') = seq (connects w) 4
    /\ open_sockets w' = open_sockets w ++ seq (connects w) 4
    /\ closes events = []
    /\ List.length (sent events) = 2%nat
    /\ In (EvLog ERROR "Failed to send CONNECT_DELSYS_EMG command. Exiting...")
          events.
Proof.
  intros Good Send Recv Decodes Refused.
  destruct (main_connect_run w resp Good Send Recv Decodes)
    as (ev0 & Run0 & Cl0 & Se0).
  unfold main_startup. unfold bind at 1. rewrite Run0. cbn [negb].
  unfold bind at 1. unfold get_globals at 1. world_simpl.
  cbn [set_SOCKETS SOCKETS seq socket_at nth_error].
  unfold bind at 1. unfold ret at 1. unfold bind at 1.
  match goal with
  | |- context [send_command ?s ?cmd ?w1] =>
      destruct (send_command_run s cmd w1) as (logs & Run1 & Logs)
  end.
  cbv zeta in Run1. rewrite Run1.
  unfold round_trip_ok in *. world_simpl. world_simpl_in Logs Logs Logs.
  rewrite Refused in *. cbn [negb].
  unfold bind, log_message, emit, ret. world_simpl.
  eexists _, _. split; [reflexivity|]. world_simpl.
  split; [rewrite <- !app_assoc; reflexivity|].
  cbn [set_SOCKETS SOCKETS].
  split; [reflexivity|]. split; [reflexivity|].
  destruct Logs as [msg ->].
  rewrite !closes_app, !sent_app, Cl0.
  split; [|split].
  - cbn [closes app]. destruct (send_ok (env w) (S (sends w))); reflexivity.
  - rewrite !length_app, Se0. cbn [sent List.length].
    destruct (send_ok (env w) (S (sends w))); reflexivity.
  - repeat (rewrite in_app_iff || cbn [In]). intuition.
Qed.

(** X6 at a peer whose handshake response is fine and whose answer to the
    mode-select command has status 0. *)
Lemma main_leaves_sockets_open_sample :
  exists w',
    main_startup
      (start_world
         (environment_with
            (fun k => if Nat.eqb k 0 then Some sample_response
                      else Some (encode_response 1 0 0))
            (fun _ => Raise JSONDecodeError)))
    = (Ok false, w')
    /\ SOCKETS (glob w') = [0; 1; 2; 3]%nat
    /\ open_sockets w' = [0; 1; 2; 3]%nat.
Proof.
  destruct (main_leaves_sockets_open
              (start_world
                 (environment_with
                    (fun k => if Nat.eqb k 0 then Some sample_response
                              else Some (encode_response 1 0 0))
                    (fun _ => Raise JSONDecodeError)))
              sample_response)
    as (w' & events & Run & _ & So & Op & _);
    [reflexivity | reflexivity | reflexivity | reflexivity | reflexivity |].
  exists w'. repeat split; assumption.
Defined.

(** ** Inbound handlers *)

Lemma int_each_ints (e : environment) (zs : list Z) :
  int_each e (map PyInt zs) = Ok zs.
Proof.
  induction zs as [|z zs IH]; [reflexivity|].
  cbn [map int_each py_int result_bind]. now rewrite IH.
Qed.

(** X7. [change_current_sensors] replaces the selection or leaves it alone,
    never anything in between: it converts every argument before it assigns.
    When all convert, the selection becomes exactly the converted list - the
    old selection plays no part, integers pass unchanged, no argument gives
    the empty selection - and the new list is logged.  When one raises
    [ValueError] the error is logged and the world is otherwise as before;
    any other exception leaves the handler with the world untouched. *)
Theorem change_current_sensors_spec (address : string) (args : list pyvalue)
    (w : world) :
  match int_each (env w) args with
  | Ok sensors =>
      change_current_sensors address args w
      = (Ok tt,
         mk_world (env w) (connects w) (sends w) (recvs w) (open_sockets w)
                  (trace w ++ [EvLog INFO ("Changed current sensors to "
                                           ++ str_of_int_list sensors)%string])
                  (set_CURRENT_SENSORS sensors (glob w)))
  | Raise e =>
      change_current_sensors address args w
      = if escapes_handler e then (Raise e, w)
        else (Ok tt, after w [EvLog ERROR "Error changing current sensor"])
  end
  /\ (forall zs, int_each (env w) (map PyInt zs) = Ok zs)
  /\ (forall first rest e,
        py_int (env w) first = Raise e ->
        int_each (env w) (first :: rest) = Raise e)
  /\ (forall z rest e,
        int_each (env w) rest = Raise e ->
        int_each (env w) (PyInt z :: rest) = Raise e).
Proof.
  split; [|split; [|split]].
  - unfold change_current_sensors, try_except, assign, escapes_handler.
    unfold bind, get_env, lift, get_globals, put_globals, log_message, emit.
    world_simpl.
    destruct (int_each (env w) args) as [sensors|e]; [reflexivity|].
    destruct e; reflexivity.
  - apply int_each_ints.
  - intros first rest e Bad. cbn [int_each]. now rewrite Bad.
  - intros z rest e Bad. cbn [int_each py_int result_bind]. now rewrite Bad.
Qed.

(** X7 after a selection of the channels 1 and 2: the arguments 3 and 7
    select exactly 3 and 7, a string among them changes nothing, and [None]
    among them makes the handler raise. *)
Lemma change_current_sensors_samples :
  let w := selecting [1; 2] (start_world sample_stream) in
  CURRENT_SENSORS (glob (snd (change_current_sensors "/sensors"
                                [PyInt 3; PyInt 7] w))) = [3; 7]
  /\ change_current_sensors "/sensors" [PyInt 3; PyStr "x"] w
     = (Ok tt, after w [EvLog ERROR "Error changing current sensor"])
  /\ change_current_sensors "/sensors" [PyInt 3; PyNone] w = (Raise TypeError, w).
Proof.
  cbv zeta. split; [|split].
  - pose proof (proj1 (change_current_sensors_spec "/sensors" [PyInt 3; PyInt 7]
                         (selecting [1; 2] (start_world sample_stream)))) as H.
    cbn [int_each py_int result_bind] in H. rewrite H. reflexivity.
  - pose proof (proj1 (change_current_sensors_spec "/sensors" [PyInt 3; PyStr "x"]
                         (selecting [1; 2] (start_world sample_stream)))) as H.
    exact H.
  - pose proof (proj1 (change_current_sensors_spec "/sensors" [PyInt 3; PyNone]
                         (selecting [1; 2] (start_world sample_stream)))) as H.
    exact H.
Defined.

(** X8. An update that arrives while [SOCKETS] holds fewer than two sockets
    - before start-up has connected, or after it failed - is stored and goes
    nowhere: the two channel scalars take the new values, the guard of
    [send_analyzer_config] logs its error, the left descriptor is not
    rewritten and nothing is sent; the handler logs its "Updated" line all
    the same. *)
Theorem update_without_sockets (address : string) (left right : Z)
    (w : world) :
  (List.length (SOCKETS (glob w)) < 2)%nat ->
  analyzer_update_channels address [PyInt left; PyInt right] w
  = (Ok tt,
     mk_world (env w) (connects w) (sends w) (recvs w) (open_sockets w)
              (trace w
               ++ [EvLog ERROR
                     "Sockets not initialized, cannot send analyzer configuration.";
                   EvLog INFO ("Updated ANALYZER_CHANNELS: " ++ str_of_int left
                               ++ ", " ++ str_of_int right)%string])
              (set_ANALYZER_RIGHT_CHANNEL right
                 (set_ANALYZER_LEFT_CHANNEL left (glob w)))).
Proof.
  intro Few.
  unfold analyzer_update_channels, try_except, assign, arg.
  unfold bind, get_env, lift, get_globals, put_globals, ret.
  cbn [nth_error py_int]. world_simpl.
  rewrite send_analyzer_config_without_sockets
    by (world_simpl; cbn [set_ANALYZER_RIGHT_CHANNEL set_ANALYZER_LEFT_CHANNEL
                           SOCKETS]; exact Few).
  unfold after, log_message, emit. world_simpl.
  cbn [set_ANALYZER_RIGHT_CHANNEL set_ANALYZER_LEFT_CHANNEL
       ANALYZER_LEFT_CHANNEL ANALYZER_RIGHT_CHANNEL].
  now rewrite <- app_assoc.
Qed.

(** X8 before start-up: the update to the channels 7 and 8 leaves the left
    descriptor at the channel 12 of its literal. *)
Lemma update_without_sockets_sample :
  let w' := snd (analyzer_update_channels "/analyzer_channels"
                   [PyInt 7; PyInt 8] (start_world obliging)) in
  ANALYZER_LEFT_CHANNEL (glob w') = 7
  /\ trigger_channel (analyzer_config_left (glob w')) 0 = Ok (PyInt 12)
  /\ sent (trace w') = [].
Proof.
  cbv zeta.
  rewrite (update_without_sockets "/analyzer_channels" 7 8 (start_world obliging))
    by (cbn; lia).
  repeat split.
Defined.

(** X9. [update_analyzer_config] writes four fields and nothing else.  On a
    left descriptor of the shape of its literal it sets the channel and the
    threshold of both triggers from the left scalars, keeps the name and
    every other entry of the descriptor, leaves the right descriptor and all
    other globals alone, sends and logs nothing, and doing it again changes
    nothing more. *)
Theorem update_analyzer_config_spec (w : world) (name : string) (c : Z)
    (t : pyvalue) :
  analyzer_config_left (glob w) = analyzer_config name c t ->
  exists w',
    update_analyzer_config w = (Ok tt, w')
    /\ update_analyzer_config w' = (Ok tt, w')
    /\ analyzer_config_left (glob w')
       = analyzer_config name (ANALYZER_LEFT_CHANNEL (glob w))
                         (ANALYZER_LEFT_THRESHOLD (glob w))
    /\ trigger_channel (analyzer_config_left (glob w')) 0
       = Ok (PyInt (ANALYZER_LEFT_CHANNEL (glob w) - 1))
    /\ trigger_channel (analyzer_config_left (glob w')) 1
       = Ok (PyInt (ANALYZER_LEFT_CHANNEL (glob w) - 1))
    /\ trigger_value (analyzer_config_left (glob w')) 0
       = Ok (ANALYZER_LEFT_THRESHOLD (glob w))
    /\ trigger_value (analyzer_config_left (glob w')) 1
       = Ok (ANALYZER_LEFT_THRESHOLD (glob w))
    /\ analyzer_config_right (glob w') = analyzer_config_right (glob w)
    /\ set_analyzer_config_left (analyzer_config_left (glob w)) (glob w')
       = glob w
    /\ trace w' = trace w
    /\ sends w' = sends w.
Proof.
  intro Shape. eexists. split; [apply (update_analyzer_config_run w name c t Shape)|].
  split.
  - erewrite update_analyzer_config_run by reflexivity. reflexivity.
  - world_simpl. cbn [set_analyzer_config_left analyzer_config_left
                      analyzer_config_right].
    repeat (split; [reflexivity|]). split; [now destruct (glob w)|now split].
Qed.

(** X9 at the globals of start-up after the left channel was set to 7. *)
Lemma update_analyzer_config_sample :
  let w := snd (assign (set_ANALYZER_LEFT_CHANNEL 7) (start_world obliging)) in
  exists w',
    update_analyzer_config w = (Ok tt, w')
    /\ trigger_channel (analyzer_config_left (glob w')) 1 = Ok (PyInt 6)
    /\ trigger_channel (analyzer_config_right (glob w')) 1 = Ok (PyInt 13).
Proof.
  cbv zeta.
  destruct (update_analyzer_config_spec
              (snd (assign (set_ANALYZER_LEFT_CHANNEL 7) (start_world obliging)))
              "foot_cycle_left" 13 (PyInt 5) eq_refl)
    as (w' & Run & _ & _ & _ & Ch & _ & _ & Right & _).
  exists w'. split; [exact Run|]. split; [exact Ch|]. now rewrite Right.
Defined.

(** X10. The pair handlers catch [ValueError] and [IndexError] only.  An
    argument on which [int] raises something else - [None], a list, an
    infinite float - makes [analyzer_update_channels] raise, with nothing
    logged: as first argument with the world untouched, as second argument
    with the left scalar already stored. *)
Theorem pair_handler_lets_errors_through (address : string)
    (first second : pyvalue) (rest : list pyvalue) (e : exn) (w : world) :
  escapes_handler e = true ->
  (py_int (env w) first = Raise e ->
   analyzer_update_channels address (first :: rest) w = (Raise e, w))
  /\ (forall left,
        py_int (env w) first = Ok left ->
        py_int (env w) second = Raise e ->
        analyzer_update_channels address (first :: second :: rest) w
        = (Raise e,
           mk_world (env w) (connects w) (sends w) (recvs w) (open_sockets w)
                    (trace w) (set_ANALYZER_LEFT_CHANNEL left (glob w)))).
Proof.
  intro Escapes. unfold escapes_handler in Escapes.
  apply negb_true_iff in Escapes.
  split.
  - intro Bad. unfold analyzer_update_channels, try_except, assign, arg.
    unfold bind, get_env, lift, get_globals, put_globals, ret.
    cbn [nth_error]. rewrite Bad. cbv beta iota. rewrite Escapes. reflexivity.
  - intros left Good Bad.
    unfold analyzer_update_channels, try_except, assign, arg.
    unfold bind, get_env, lift, get_globals, put_globals, ret.
    cbn [nth_error]. world_simpl. rewrite Good. world_simpl.
    rewrite Bad. cbv beta iota.
    destruct e; try discriminate Escapes; reflexivity.
Qed.

(** X10 at the arguments 7 and [None], and at an infinite first argument. *)
Lemma pair_handler_errors_sample :
  let w := start_world obliging in
  fst (analyzer_update_channels "/analyzer_channels" [PyInt 7; PyNone] w)
  = Raise TypeError
  /\ ANALYZER_LEFT_CHANNEL
       (glob (snd (analyzer_update_channels "/analyzer_channels"
                     [PyInt 7; PyNone] w))) = 7
  /\ analyzer_update_channels "/analyzer_channels" [PyFloat infinity; PyInt 8] w
     = (Raise OverflowError, w).
Proof.
  cbv zeta. split; [|split].
  - rewrite (proj2 (pair_handler_lets_errors_through "/analyzer_channels"
                      (PyInt 7) PyNone [] TypeError (start_world obliging)
                      eq_refl) 7 eq_refl eq_refl).
    reflexivity.
  - rewrite (proj2 (pair_handler_lets_errors_through "/analyzer_channels"
                      (PyInt 7) PyNone [] TypeError (start_world obliging)
                      eq_refl) 7 eq_refl eq_refl).
    reflexivity.
  - apply (proj1 (pair_handler_lets_errors_through "/analyzer_channels"
                    (PyFloat infinity) (PyInt 8) [PyInt 8] OverflowError
                    (start_world obliging) eq_refl)).
    reflexivity.
Defined.

(** ** The listeners as a whole *)

Lemma listens_refl (w : world) : listens w w.
Proof.
  repeat split. exists []. split; [now rewrite app_nil_r | constructor].
Qed.

Lemma listens_trans (w1 w2 w3 : world) :
  listens w1 w2 -> listens w2 w3 -> listens w1 w3.
Proof.
  intros (A & B & C & D & E & ev1 & T1 & F1) (A' & B' & C' & D' & E' & ev2 & T2 & F2).
  repeat split; try congruence.
  exists (ev1 ++ ev2). split.
  - now rewrite T2, T1, app_assoc.
  - apply Forall_app. now split.
Qed.

Lemma Listens_ret {A : Type} (a : A) : Listens (ret a).
Proof. intro w. apply listens_refl. Qed.

Lemma Listens_lift {A : Type} (r : result A) : Listens (lift r).
Proof. intro w. apply listens_refl. Qed.

Lemma Listens_get_globals : Listens get_globals.
Proof. intro w. apply listens_refl. Qed.

Lemma Listens_get_env : Listens get_env.
Proof. intro w. apply listens_refl. Qed.

Lemma Listens_emit (e : event) : is_listening e -> Listens (emit e).
Proof.
  intros L w. unfold emit, listens. cbn [snd]. world_simpl.
  repeat split. exists [e]. split; [reflexivity | now constructor].
Qed.

Lemma Listens_log_message (message : string) (lvl : level) :
  Listens (log_message message lvl).
Proof. apply Listens_emit. exact I. Qed.

Lemma Listens_send_osc_message (address : string) (value : pyvalue) :
  Listens (send_osc_message address value).
Proof. apply Listens_emit. exact I. Qed.

Lemma Listens_recv (sock : socket) (bufsize : Z) : Listens (recv sock bufsize).
Proof.
  intro w. unfold recv, listens. cbn [snd]. world_simpl.
  repeat split. eexists [_]. split; [reflexivity | now constructor].
Qed.

Lemma Listens_bind {A B : Type} (m : M A) (k : A -> M B) :
  Listens m -> (forall a, Listens (k a)) -> Listens (bind m k).
Proof.
  intros Hm Hk w. unfold bind. specialize (Hm w).
  destruct (m w) as [[a|e] w1]; cbn [snd] in *.
  - eapply listens_trans; [exact Hm | apply Hk].
  - exact Hm.
Qed.

Lemma Listens_try_except {A : Type} (body : M A) (cls : list exn_class)
    (handler : M A) :
  Listens body -> Listens handler -> Listens (try_except body cls handler).
Proof.
  intros Hb Hh w. unfold try_except. specialize (Hb w).
  destruct (body w) as [[a|e] w1]; cbn [snd] in *; [exact Hb|].
  destruct (existsb (isinstance e) cls); cbn [snd]; [|exact Hb].
  eapply listens_trans; [exact Hb | apply Hh].
Qed.

Lemma Listens_for_each {A : Type} (xs : list A) (body : A -> M unit) :
  (forall x, Listens (body x)) -> Listens (for_each xs body).
Proof.
  intro Hb. induction xs as [|x rest IH]; cbn [for_each].
  - apply Listens_ret.
  - apply Listens_bind; [apply Hb | intros _; exact IH].
Qed.

Lemma Listens_fold_m {A S : Type} (xs : list A) (body : S -> A -> M S) :
  (forall s x, Listens (body s x)) -> forall s, Listens (fold_m xs s body).
Proof.
  intro Hb. induction xs as [|x rest IH]; intro s; cbn [fold_m].
  - apply Listens_ret.
  - apply Listens_bind; [apply Hb | intro s'; apply IH].
Qed.

Lemma Listens_read_header (d : decoder) : Listens (read_header d).
Proof. intro w. rewrite read_header_run. apply listens_refl. Qed.

Ltac listening :=
  repeat first
    [ apply Listens_ret | apply Listens_lift | apply Listens_get_globals
    | apply Listens_get_env | apply Listens_log_message
    | apply Listens_send_osc_message | apply Listens_recv
    | apply Listens_read_header
    | apply Listens_emit; exact I
    | apply Listens_bind; [|intro]
    | apply Listens_try_except
    | apply Listens_for_each; intro
    | apply Listens_fold_m; intros
    | match goal with |- Listens (if ?b then _ else _) => destruct b end
    | match goal with |- Listens (let '(_, _) := ?x in _) => destruct x end
    | match goal with |- Listens (match ?x with _ => _ end) => destruct x end ].

Lemma Listens_live_data_iteration (sock : socket)
    (locals : decoder * list pyvalue) :
  Listens (live_data_iteration sock locals).
Proof.
  unfold live_data_iteration. destruct locals as [d sent].
  unfold loads, process_data_frame, process_group, process_entry, send_channel.
  listening.
Qed.

Lemma Listens_live_analyses_iteration (sock : socket) (d : decoder) :
  Listens (live_analyses_iteration sock d).
Proof.
  unfold live_analyses_iteration.
  unfold loads, process_analyses_frame, process_analysis.
  listening.
Qed.

Lemma Listens_while_true {S : Type} (iteration : S -> M (control S)) :
  (forall s, Listens (iteration s)) ->
  forall n s, Listens (while_true n iteration s).
Proof.
  intros It n. induction n as [|n IH]; intro s; cbn [while_true].
  - apply Listens_ret.
  - apply Listens_bind; [apply It|]. intros [s'|]; [apply IH | apply Listens_ret].
Qed.

(** [except Exception] with a handler that logs and breaks: the iteration
    does not raise. *)
Lemma caught {S : Type} (body : M (control S)) (line : string) (w : world) :
  exists r,
    fst (try_except body [ClsException] (log_message line ERROR ;; ret Break) w)
    = Ok r.
Proof.
  unfold try_except. destruct (body w) as [[a|e] w1]; cbn [fst].
  - now exists a.
  - cbn [existsb isinstance orb]. exists Break. reflexivity.
Qed.

Lemma while_true_never_raises {S : Type} (iteration : S -> M (control S)) :
  (forall s w, exists r, fst (iteration s w) = Ok r) ->
  forall n s w, exists r, fst (while_true n iteration s w) = Ok r.
Proof.
  intros It n. induction n as [|n IH]; intros s w; cbn [while_true].
  - exists (Continue s). reflexivity.
  - unfold bind. destruct (It s w) as [r Run].
    destruct (iteration s w) as [[c|e] w1]; cbn [fst] in Run; [|discriminate].
    destruct c as [s'|]; [apply IH | exists Break; reflexivity].
Qed.

Lemma while_true_step {S : Type} (iteration : S -> M (control S)) (n : nat)
    (s : S) (w : world) :
  while_true (Datatypes.S n) iteration s w
  = match iteration s w with
    | (Ok (Continue s'), w') => while_true n iteration s' w'
    | (Ok Break, w') => (Ok Break, w')
    | (Raise e, w') => (Raise e, w')
    end.
Proof.
  cbn [while_true]. unfold bind, ret.
  destruct (iteration s w) as [[[s'|]|e] w1]; reflexivity.
Qed.

(** The loop, one iteration further. *)
Lemma while_true_succ {S : Type} (iteration : S -> M (control S)) (n : nat) :
  forall s w,
    while_true (Datatypes.S n) iteration s w
    = match while_true n iteration s w with
      | (Ok (Continue s'), w') => iteration s' w'
      | (Ok Break, w') => (Ok Break, w')
      | (Raise e, w') => (Raise e, w')
      end.
Proof.
  induction n as [|n IH]; intros s w.
  - cbn [while_true]. unfold bind, ret.
    destruct (iteration s w) as [[[s'|]|e] w1]; reflexivity.
  - rewrite (while_true_step iteration (Datatypes.S n) s w).
    rewrite (while_true_step iteration n s w).
    destruct (iteration s w) as [[[s'|]|e] w1]; try reflexivity.
    apply IH.
Qed.

Lemma listener_run {S : Type} (iteration : S -> M (control S)) (start : S)
    (banner : string) (line : string) (n : nat) (sock : socket) (w : world) :
  (forall s, Listens (iteration s)) ->
  (forall s w, exists r, fst (iteration s w) = Ok r) ->
  exists r w',
    (log_message banner INFO ;;
     c <- while_true n iteration start ;;
     match c with
     | Continue locals => ret (Continue locals)
     | Break => close sock ;; log_message line INFO ;; ret Break
     end) w = (Ok r, w')
    /\ listener_outcome (EvLog INFO banner) line sock w (returned r) w'.
Proof.
  intros Lis Tot. unfold bind at 1. unfold log_message at 1, emit at 1.
  unfold bind at 1.
  match goal with
  | |- context [while_true n iteration start ?w1] =>
      destruct (while_true_never_raises iteration Tot n start w1) as [c Run];
      pose proof (Listens_while_true iteration Lis n start w1) as L;
      destruct (while_true n iteration start w1) as [r w2]
  end.
  cbn [fst snd] in *. subst r.
  destruct L as (A & B & C & D & E & events & T & F). world_simpl_in A B C.
  cbn [open_sockets glob trace] in D, E, T.
  destruct c as [locals|].
  - unfold ret. eexists _, _. split; [reflexivity|].
    unfold listener_outcome. cbn [returned].
    repeat split; try assumption. exists events. split; [exact F|].
    split; [|exact D]. rewrite T, <- app_assoc. reflexivity.
  - unfold bind, close, log_message, emit, ret. world_simpl.
    eexists _, _. split; [reflexivity|].
    unfold listener_outcome. cbn [returned]. world_simpl.
    repeat split; try assumption. exists events. split; [exact F|].
    split.
    + rewrite T, <- !app_assoc. reflexivity.
    + rewrite D. reflexivity.
Qed.

(** X11. Neither listener ever raises, and neither does anything but listen:
    observed after any number of iterations, under any behaviour of the peer
    and of the decoder of JSON, [listen_to_live_data] and
    [listen_to_live_analyses] have logged their banner and then only
    received, cut frames, sent telemetry and logged - no connection, no send
    on a socket, no change of a global.  While the loop runs the socket stays
    open; when the function has returned, closing the socket and logging the
    closing line are the last two things it did. *)
Theorem listeners_only_listen (n : nat) (sock : socket) (w : world) :
  (exists r w',
     listen_to_live_data n sock w = (Ok r, w')
     /\ listener_outcome data_banner data_closed_line sock w (returned r) w')
  /\ (exists r w',
        listen_to_live_analyses n sock w = (Ok r, w')
        /\ listener_outcome analyses_banner analyses_closed_line sock w
                            (returned r) w').
Proof.
  split.
  - apply (listener_run (live_data_iteration sock)).
    + apply Listens_live_data_iteration.
    + intros [d sent] w0. apply caught.
  - apply (listener_run (live_analyses_iteration sock)).
    + apply Listens_live_analyses_iteration.
    + intros d w0. apply caught.
Qed.

(** An iteration of the analyses listener on a chunk, by what the handler of
    the frame does. *)
Lemma live_analyses_iteration_run (sock : socket) (d : decoder) (w : world) :
  chunk_at (env w) (recvs w) <> [] ->
  let d1 := header_read (mk_decoder (buffer d ++ chunk_at (env w) (recvs w))
                                    (expected_length d)) in
  live_analyses_iteration sock d w
  = match frame_ready d1 with
    | None => (Ok (Continue d1), heard sock w)
    | Some n =>
        handled analyses_json_line analyses_error_line (mk_decoder [] None)
          ((decoded_data <- loads (take n (buffer d1)) ;;
            process_analyses_frame decoded_data ;;
            ret (mk_decoder (drop n (buffer d1)) None))
             (after (heard sock w) [EvFrame (take n (buffer d1))]))
    end.
Proof.
  unfold chunk_at. intro Chunk. cbv zeta.
  unfold live_analyses_iteration. unfold try_except at 1. unfold bind at 1.
  unfold recv, heard.
  destruct (recv_data (env w) (recvs w)) as [data|]; [|contradiction].
  cbn [option_map].
  destruct (take 4096 data) as [|b chunk] eqn:Take; [contradiction|].
  unfold bind at 1. rewrite read_header_run.
  set (d1 := header_read _).
  destruct (frame_ready d1) as [n|]; [|reflexivity].
  unfold bind at 1. unfold emit at 1. world_simpl.
  unfold handled, after, try_except, loads.
  unfold bind, get_env, lift, ret. world_simpl.
  destruct (json_loads (env w) (take n (buffer d1))) as [decoded|e].
  - match goal with
    | |- context [process_analyses_frame decoded ?w1] =>
        destruct (process_analyses_frame decoded w1) as [[u|e] w2]
    end; [reflexivity|].
    destruct e; reflexivity.
  - destruct e; reflexivity.
Qed.

(** The same for the data listener. *)
Lemma live_data_iteration_run (sock : socket) (d : decoder)
    (sent : list pyvalue) (w : world) :
  chunk_at (env w) (recvs w) <> [] ->
  let d1 := header_read (mk_decoder (buffer d ++ chunk_at (env w) (recvs w))
                                    (expected_length d)) in
  live_data_iteration sock (d, sent) w
  = match frame_ready d1 with
    | None => (Ok (Continue (d1, sent)), heard sock w)
    | Some n =>
        handled data_json_line data_error_line (mk_decoder [] None, sent)
          ((decoded_data <- loads (take n (buffer d1)) ;;
            sent' <- process_data_frame sent decoded_data ;;
            ret (mk_decoder (drop n (buffer d1)) None, sent'))
             (after (heard sock w) [EvFrame (take n (buffer d1))]))
    end.
Proof.
  unfold chunk_at. intro Chunk. cbv zeta.
  unfold live_data_iteration. unfold try_except at 1. unfold bind at 1.
  unfold recv, heard.
  destruct (recv_data (env w) (recvs w)) as [data|]; [|contradiction].
  cbn [option_map].
  destruct (take 4096 data) as [|b chunk] eqn:Take; [contradiction|].
  unfold bind at 1. rewrite read_header_run.
  set (d1 := header_read _).
  destruct (frame_ready d1) as [n|]; [|reflexivity].
  unfold bind at 1. unfold emit at 1. world_simpl.
  unfold handled, after, try_except, loads.
  unfold bind, get_env, lift, ret. world_simpl.
  destruct (json_loads (env w) (take n (buffer d1))) as [decoded|e].
  - match goal with
    | |- context [process_data_frame sent decoded ?w1] =>
        destruct (process_data_frame sent decoded w1) as [[u|e] w2]
    end; [reflexivity|].
    destruct e; reflexivity.
  - destruct e; reflexivity.
Qed.

(** An iteration on a receive that brings nothing: the loop is left, after
    the error line when the receive raised. *)
Lemma live_analyses_iteration_end (sock : socket) (d : decoder) (w : world) :
  chunk_at (env w) (recvs w) = [] ->
  live_analyses_iteration sock d w
  = (Ok Break, after (heard sock w) (receive_error analyses_error_line w)).
Proof.
  unfold chunk_at, receive_error. intro Chunk.
  unfold live_analyses_iteration. unfold try_except at 1. unfold bind at 1.
  unfold recv, heard, after.
  destruct (recv_data (env w) (recvs w)) as [data|]; cbn [option_map].
  - rewrite Chunk. unfold ret. world_simpl. now rewrite app_nil_r.
  - reflexivity.
Qed.

Lemma live_data_iteration_end (sock : socket) (d : decoder)
    (sent : list pyvalue) (w : world) :
  chunk_at (env w) (recvs w) = [] ->
  live_data_iteration sock (d, sent) w
  = (Ok Break, after (heard sock w) (receive_error data_error_line w)).
Proof.
  unfold chunk_at, receive_error. intro Chunk.
  unfold live_data_iteration. unfold try_except at 1. unfold bind at 1.
  unfold recv, heard, after.
  destruct (recv_data (env w) (recvs w)) as [data|]; cbn [option_map].
  - rewrite Chunk. unfold ret. world_simpl. now rewrite app_nil_r.
  - reflexivity.
Qed.

Lemma frames_after (w : world) (events : list event) :
  frames (trace (after w events)) = frames (trace w) ++ frames events.
Proof. unfold after. cbn [trace]. apply frames_app. Qed.

(** A listener, by what its loop does. *)
Lemma listen_to_live_data_run (n : nat) (sock : socket) (w : world) :
  listen_to_live_data n sock w
  = match while_true n (live_data_iteration sock) (new_decoder, [])
                     (after w [data_banner]) with
    | (Ok (Continue locals), w1) => (Ok (Continue locals), w1)
    | (Ok Break, w1) => (Ok Break, closed sock data_closed_line w1)
    | (Raise e, w1) => (Raise e, w1)
    end.
Proof.
  unfold listen_to_live_data.
  unfold bind at 1. unfold log_message at 1, emit at 1. unfold bind at 1.
  change (mk_world (env w) (connects w) (sends w) (recvs w) (open_sockets w)
                   (trace w ++ [EvLog INFO ("Sending live data via OSC on "
                                            ++ OSC_IP ++ ":"
                                            ++ str_of_int OSC_PORT)%string])
                   (glob w))
    with (after w [data_banner]).
  destruct (while_true n (live_data_iteration sock) (new_decoder, [])
                       (after w [data_banner])) as [[[locals|]|e] w1];
    try reflexivity.
  unfold bind, close, log_message, emit, ret, closed, without.
  cbn [fold_left]. world_simpl. now rewrite <- app_assoc.
Qed.

Lemma listen_to_live_analyses_run (n : nat) (sock : socket) (w : world) :
  listen_to_live_analyses n sock w
  = match while_true n (live_analyses_iteration sock) new_decoder
                     (after w [analyses_banner]) with
    | (Ok (Continue d), w1) => (Ok (Continue d), w1)
    | (Ok Break, w1) => (Ok Break, closed sock analyses_closed_line w1)
    | (Raise e, w1) => (Raise e, w1)
    end.
Proof.
  unfold listen_to_live_analyses.
  unfold bind at 1. unfold log_message at 1, emit at 1. unfold bind at 1.
  change (mk_world (env w) (connects w) (sends w) (recvs w) (open_sockets w)
                   (trace w ++ [EvLog INFO ("Sending live analyses via OSC on "
                                            ++ OSC_IP ++ ":"
                                            ++ str_of_int OSC_PORT)%string])
                   (glob w))
    with (after w [analyses_banner]).
  destruct (while_true n (live_analyses_iteration sock) new_decoder
                       (after w [analyses_banner])) as [[[locals|]|e] w1];
    try reflexivity.
  unfold bind, close, log_message, emit, ret, closed, without.
  cbn [fold_left]. world_simpl. now rewrite <- app_assoc.
Qed.

(** X12. How a listener ends.  Take a listener whose loop is still running
    after [n] iterations, with whatever it holds in its buffer and however
    far into a frame it is.  If the next receive brings nothing - the peer
    has closed, or the receive raises - the listener returns at that
    iteration: after the receive it logs the error line if the receive
    raised and nothing if the peer closed, then closes its socket and logs
    the closing line.  No frame is cut from the bytes left in the buffer;
    they are dropped without a line in the log. *)
Theorem listener_ends_with_the_stream (n : nat) (sock : socket)
    (w w1 : world) (d : decoder) (sent : list pyvalue) :
  chunk_at (env w1) (recvs w1) = [] ->
  (while_true n (live_data_iteration sock) (new_decoder, [])
              (after w [data_banner])
   = (Ok (Continue (d, sent)), w1) ->
   listen_to_live_data (S n) sock w
   = (Ok Break,
      closed sock data_closed_line
             (after (heard sock w1) (receive_error data_error_line w1))))
  /\ (while_true n (live_analyses_iteration sock) new_decoder
                 (after w [analyses_banner])
      = (Ok (Continue d), w1) ->
      listen_to_live_analyses (S n) sock w
      = (Ok Break,
         closed sock analyses_closed_line
                (after (heard sock w1) (receive_error analyses_error_line w1))))
  /\ frames (trace (closed sock data_closed_line
                      (after (heard sock w1)
                             (receive_error data_error_line w1))))
     = frames (trace w1)
  /\ frames (trace (closed sock analyses_closed_line
                      (after (heard sock w1)
                             (receive_error analyses_error_line w1))))
     = frames (trace w1).
Proof.
  intro Nothing.
  assert (Quiet : forall line closing,
             frames (trace (closed sock closing
                              (after (heard sock w1) (receive_error line w1))))
             = frames (trace w1)).
  { intros line closing. unfold closed, after, heard, receive_error.
    cbn [trace]. rewrite !frames_app.
    destruct (recv_data (env w1) (recvs w1)); cbn [frames];
      now rewrite !app_nil_r. }
  split; [|split; [|split; apply Quiet]].
  - intro Run.
    rewrite listen_to_live_data_run, while_true_succ, Run.
    now rewrite (live_data_iteration_end _ _ _ _ Nothing).
  - intro Run.
    rewrite listen_to_live_analyses_run, while_true_succ, Run.
    now rewrite (live_analyses_iteration_end _ _ _ Nothing).
Qed.

(** X12 on the stream of the three chunks of one frame, after which the
    receives raise: the fourth iteration ends the analyses listener, with
    the error line before the close. *)
Lemma listener_ends_sample :
  let w1 := snd (while_true 3 (live_analyses_iteration 0%nat) new_decoder
                            (after (start_world sample_stream)
                                   [analyses_banner])) in
  chunk_at (env w1) (recvs w1) = []
  /\ listen_to_live_analyses 4 0%nat (start_world sample_stream)
     = (Ok Break,
        closed 0%nat analyses_closed_line
               (after (heard 0%nat w1) [EvLog ERROR analyses_error_line])).
Proof.
  cbv zeta. split; [vm_compute; reflexivity|].
  assert (Nothing :
            chunk_at
              (env (snd (while_true 3 (live_analyses_iteration 0%nat)
                                    new_decoder
                                    (after (start_world sample_stream)
                                           [analyses_banner]))))
              (recvs (snd (while_true 3 (live_analyses_iteration 0%nat)
                                      new_decoder
                                      (after (start_world sample_stream)
                                             [analyses_banner]))))
            = []) by (vm_compute; reflexivity).
  pose proof (proj1 (proj2 (listener_ends_with_the_stream 3 0%nat
                              (start_world sample_stream) _ new_decoder []
                              Nothing))) as Ends.
  rewrite Ends by (vm_compute; reflexivity).
  vm_compute. reflexivity.
Defined.

(** X13. A frame that [json.loads] rejects.  When the text is no JSON
    ([JSONDecodeError]) the listener logs the error and goes on, but with an
    empty buffer: the bytes that followed the frame in the buffer - the
    beginning of the next frame - are dropped with it, and the set of
    timestamps is as it was.  When the bytes are no UTF-8, or on any other
    exception, the listener logs its error line and leaves the loop. *)
Theorem undecodable_frame (sock : socket) (d : decoder) (sent : list pyvalue)
    (w : world) (n : Z) (e : exn) :
  chunk_at (env w) (recvs w) <> [] ->
  frame_ready (next_decoder d w) = Some n ->
  json_loads (env w) (take n (buffer (next_decoder d w))) = Raise e ->
  live_data_iteration sock (d, sent) w
  = (if isinstance e ClsJSONDecodeError
     then (Ok (Continue (mk_decoder [] None, sent)),
           after (heard sock w)
                 [EvFrame (take n (buffer (next_decoder d w)));
                  EvLog ERROR data_json_line])
     else (Ok Break,
           after (heard sock w)
                 [EvFrame (take n (buffer (next_decoder d w)));
                  EvLog ERROR data_error_line]))
  /\ live_analyses_iteration sock d w
     = (if isinstance e ClsJSONDecodeError
        then (Ok (Continue (mk_decoder [] None)),
              after (heard sock w)
                    [EvFrame (take n (buffer (next_decoder d w)));
                     EvLog ERROR analyses_json_line])
        else (Ok Break,
              after (heard sock w)
                    [EvFrame (take n (buffer (next_decoder d w)));
                     EvLog ERROR analyses_error_line]))
  /\ (isinstance e ClsJSONDecodeError = true <-> e = JSONDecodeError).
Proof.
  intros Chunk Ready Bad. unfold next_decoder in *.
  split; [|split].
  - rewrite (live_data_iteration_run _ _ _ _ Chunk). cbv zeta. rewrite Ready.
    unfold loads. unfold bind at 1. unfold get_env at 1. unfold bind at 1.
    unfold lift at 1. unfold handled, after, heard. world_simpl. rewrite Bad.
    destruct e; cbn [isinstance]; world_simpl; rewrite <- !app_assoc;
      reflexivity.
  - rewrite (live_analyses_iteration_run _ _ _ Chunk). cbv zeta. rewrite Ready.
    unfold loads. unfold bind at 1. unfold get_env at 1. unfold bind at 1.
    unfold lift at 1. unfold handled, after, heard. world_simpl. rewrite Bad.
    destruct e; cbn [isinstance]; world_simpl; rewrite <- !app_assoc;
      reflexivity.
  - destruct e; cbn [isinstance]; split; intro H; try discriminate; reflexivity.
Qed.

(** X13 on a chunk that holds a frame and the first two bytes of the next:
    after the JSON error nothing is left in the buffer.  On a body that is
    no UTF-8 the loop is left. *)
Lemma undecodable_frame_samples :
  live_analyses_iteration 0%nat new_decoder (start_world garbled_stream)
  = (Ok (Continue (mk_decoder [] None)),
     after (heard 0%nat (start_world garbled_stream))
           [EvFrame sample_body; EvLog ERROR analyses_json_line])
  /\ live_data_iteration 0%nat (new_decoder, []) (start_world binary_stream)
     = (Ok Break,
        after (heard 0%nat (start_world binary_stream))
              [EvFrame sample_body; EvLog ERROR data_error_line]).
Proof.
  split.
  - rewrite (proj1 (proj2 (undecodable_frame 0%nat new_decoder []
                             (start_world garbled_stream) 2 JSONDecodeError
                             ltac:(vm_compute; discriminate)
                             ltac:(vm_compute; reflexivity) eq_refl))).
    vm_compute. reflexivity.
  - rewrite (proj1 (undecodable_frame 0%nat new_decoder []
                      (start_world binary_stream) 2 UnicodeDecodeError
                      ltac:(vm_compute; discriminate)
                      ltac:(vm_compute; reflexivity) eq_refl)).
    vm_compute. reflexivity.
Defined.









(** X16. A frame that decodes, but not to a JSON object.  The data listener
    asks the decoded value for its keys: on anything but an object it logs
    its error line and leaves the loop, so that one such frame ends the
    stream of data.  The analyses listener first tests whether ["data"] is
    in the value: on an array or a string that does not hold it, the frame
    is passed over without a word and the loop goes on; on one that holds
    it, and on a number, a boolean or [null], the listener logs its error
    line and leaves the loop. *)
Theorem frame_that_is_no_object (sock : socket) (d : decoder)
    (sent : list pyvalue) (w : world) (n : Z) (decoded : pyvalue) :
  chunk_at (env w) (recvs w) <> [] ->
  frame_ready (next_decoder d w) = Some n ->
  json_loads (env w) (take n (buffer (next_decoder d w))) = Ok decoded ->
  (forall entries, decoded <> PyDict entries) ->
  live_data_iteration sock (d, sent) w
  = (Ok Break,
     after (heard sock w)
           [EvFrame (take n (buffer (next_decoder d w)));
            EvLog ERROR data_error_line])
  /\ live_analyses_iteration sock d w
     = match py_contains_str "data" decoded with
       | Ok false =>
           (Ok (Continue (mk_decoder (drop n (buffer (next_decoder d w))) None)),
            after (heard sock w)
                  [EvFrame (take n (buffer (next_decoder d w)))])
       | _ =>
           (Ok Break,
            after (heard sock w)
                  [EvFrame (take n (buffer (next_decoder d w)));
                   EvLog ERROR analyses_error_line])
       end.
Proof.
  intros Chunk Ready Decoded NoObject. unfold next_decoder in *.
  split.
  - rewrite (live_data_iteration_run _ _ _ _ Chunk). cbv zeta. rewrite Ready.
    unfold loads. unfold bind at 1. unfold get_env at 1. unfold bind at 1.
    unfold lift at 1. unfold handled, after, heard. world_simpl.
    rewrite Decoded. unfold process_data_frame, bind, lift.
    destruct decoded; cbn [py_keys isinstance]; world_simpl;
      rewrite <- ?app_assoc; try reflexivity.
    exfalso. eapply NoObject. reflexivity.
  - rewrite (live_analyses_iteration_run _ _ _ Chunk). cbv zeta. rewrite Ready.
    unfold loads. unfold bind at 1. unfold get_env at 1. unfold bind at 1.
    unfold lift at 1. unfold handled, after, heard. world_simpl.
    rewrite Decoded. unfold process_analyses_frame, bind, lift, ret.
    destruct decoded as [| | | | |items|entries];
      cbn [py_contains_str isinstance]; world_simpl;
      rewrite <- ?app_assoc; try reflexivity.
    + destruct (is_substring "data" s); cbn [py_getitem_str isinstance];
        world_simpl; rewrite <- ?app_assoc; reflexivity.
    + destruct (existsb _ items); cbn [py_getitem_str isinstance];
        world_simpl; rewrite <- ?app_assoc; reflexivity.
    + exfalso. eapply NoObject. reflexivity.
Qed.

(** X16 on a frame that decodes to the array [[1]]: the data listener
    leaves its loop, the analyses listener goes on in silence. *)
Lemma frame_that_is_no_object_sample :
  live_data_iteration 0%nat (new_decoder, []) (start_world array_stream)
  = (Ok Break,
     after (heard 0%nat (start_world array_stream))
           [EvFrame sample_body; EvLog ERROR data_error_line])
  /\ live_analyses_iteration 0%nat new_decoder (start_world array_stream)
     = (Ok (Continue new_decoder),
        after (heard 0%nat (start_world array_stream)) [EvFrame sample_body]).
Proof.
  pose proof (frame_that_is_no_object 0%nat new_decoder []
                (start_world array_stream) 2 (PyList [PyInt 1])
                ltac:(vm_compute; discriminate)
                ltac:(vm_compute; reflexivity) eq_refl
                ltac:(intros entries H; discriminate H)) as [Data Analyses].
  split.
  - rewrite Data. vm_compute. reflexivity.
  - rewrite Analyses. vm_compute. reflexivity.
Defined.

(** ** Data frames *)



Lemma fold_m_app {A S : Type} (body : S -> A -> M S) (a b : list A) :
  forall s w,
    fold_m (a ++ b) s body w
    = match fold_m a s body w with
      | (Ok s', w') => fold_m b s' body w'
      | (Raise e, w') => (Raise e, w')
      end.
Proof.
  induction a as [|x a IH]; intros s w; cbn [app fold_m].
  - reflexivity.
  - unfold bind. destruct (body s x w) as [[s1|e] w1]; [apply IH | reflexivity].
Qed.

Lemma dict_get_NoDup (all : list (string * pyvalue)) (k : string)
    (v : pyvalue) :
  NoDup (map fst all) -> In (k, v) all -> dict_get all k = Some v.
Proof.
  induction all as [|[k' v'] rest IH]; intros Keys Here; [contradiction|].
  cbn [map fst] in Keys. inversion Keys as [|? ? Fresh Rest]; subst.
  cbn [dict_get]. destruct Here as [Same|Later].
  - inversion Same; subst. now rewrite String.eqb_refl.
  - assert (Other : String.eqb k' k = false).
    { apply String.eqb_neq. intros ->. apply Fresh.
      change k with (fst (k, v)). now apply in_map. }
    rewrite Other. now apply IH.
Qed.

Lemma process_group_run (all : list (string * pyvalue)) (key : string)
    (group : pyvalue) (entries : list pyvalue) (sent : list pyvalue)
    (w : world) :
  dict_get all key = Some group ->
  entries_of group = Some entries ->
  process_group (PyDict all) sent key w = fold_m entries sent process_entry w.
Proof.
  intros Lookup Shape. unfold process_group, bind, lift.
  cbn [py_getitem_str]. rewrite Lookup. unfold entries_of in Shape.
  destruct group as [| | | | | |outer]; try discriminate.
  cbn [py_getitem_str].
  destruct (dict_get outer "data") as [[| | | | | |inner]|]; try discriminate.
  cbn [py_getitem_str].
  destruct (dict_get inner "data") as [[| | | | |es|]|]; try discriminate.
  inversion Shape; subst. reflexivity.
Qed.

Lemma fold_groups (all rest : list (string * pyvalue))
    (entries : list (list pyvalue)) :
  Forall2 (fun group es => entries_of (snd group) = Some es) rest entries ->
  (forall g, In g rest -> dict_get all (fst g) = Some (snd g)) ->
  forall sent w,
    fold_m (map fst rest) sent (process_group (PyDict all)) w
    = fold_m (List.concat entries) sent process_entry w.
Proof.
  intro Shapes. induction Shapes as [|[k v] es rest ess Shape _ IH];
    intros Found sent w.
  - reflexivity.
  - cbn [map fst fold_m List.concat]. rewrite fold_m_app. unfold bind.
    rewrite (process_group_run all k v es sent w
               (Found (k, v) (or_introl eq_refl)) Shape).
    destruct (fold_m es sent process_entry w) as [[s1|e] w1]; [|reflexivity].
    apply IH. intros g Here. apply Found. now right.
Qed.

(** X18. A data frame is one sequence of entries.  For a frame that is a
    mapping of groups, each with its list of entries under ["data"]["data"],
    the listener handles the entries of all groups as a single sequence, in
    the order of the groups, with one set of timestamps for all of them: an
    entry of a later group whose timestamp an earlier group has used is
    skipped like a repeated entry of its own group. *)
Theorem data_frame_is_one_sequence (groups : list (string * pyvalue))
    (entries : list (list pyvalue)) (sent : list pyvalue) (w : world) :
  NoDup (map fst groups) ->
  Forall2 (fun group es => entries_of (snd group) = Some es) groups entries ->
  process_data_frame sent (PyDict groups) w
  = fold_m (List.concat entries) sent process_entry w.
Proof.
  intros Keys Shapes. unfold process_data_frame, bind, lift. cbn [py_keys].
  apply (fold_groups groups groups entries Shapes).
  intros [k v] Here. now apply dict_get_NoDup.
Qed.

(** X18 on a frame whose groups [emg] and [imu] each have one entry with the
    timestamp 1.0: with the channel 1 selected, the value of [emg] is sent
    and the value of [imu] is not. *)
Lemma data_frame_is_one_sequence_sample :
  let w := selecting [1] (start_world sample_stream) in
  fst (process_data_frame [] (PyDict two_groups) w) = Ok [PyFloat 1]
  /\ telemetry (trace (snd (process_data_frame [] (PyDict two_groups) w)))
     = [("/sensor_1", PyFloat 5000)].
Proof.
  cbv zeta.
  rewrite (data_frame_is_one_sequence two_groups
             [[PyList [PyFloat 1; PyList [PyFloat 0.5]]];
              [PyList [PyFloat 1; PyList [PyFloat 2]]]]
             [] (selecting [1] (start_world sample_stream))).
  - vm_compute. split; reflexivity.
  - repeat constructor; cbn [In map fst]; intuition discriminate.
  - repeat constructor.
Defined.

